(** * FSRS scheduler (BE/fsrs/optimizer.py): a shallow embedding

    The development follows the serving path of the module: the value
    types [State], [Rating], [Card], [ReviewLog], the [Scheduler] with its
    math kernel, the [review_card] state machine, the fuzz function and
    the dictionary (de)serialisation of cards.

    Conventions of the embedding.
    - A Python [float] is idealised as a real number ([R]); the module's
      arithmetic is written out with the operations of [Reals].  NaN,
      infinities, rounding of the last bit and [OverflowError] of float
      powers are therefore outside this model.  Where they decide a
      property, as for the clamps of stability and difficulty, the
      scheduler is modelled a second time, on floats with their special
      values ([Float64]).
    - A Python exception is a value of [exception]; a call that may raise
      has type [result A].
    - The two impure sources of the module, the UTC clock
      ([datetime.now(timezone.utc)]) and [random()], are explicit
      arguments. *)

From Stdlib Require Import ZArith Reals Lra Lia String Ascii.
From stdpp Require Import base tactics numbers decidable option list strings gmap
  sorting.

Local Open Scope Z_scope.

(** ** Python runtime: exceptions *)

Module Py.

Inductive exception : Set :=
  | ValueError
  | TypeError
  | AttributeError
  | ZeroDivisionError
  | IndexError
  | KeyError
  | OverflowError.

Inductive result (A : Type) : Type :=
  | Ok (a : A)
  | Raise (e : exception).
Arguments Ok {A} a.
Arguments Raise {A} e.

#[export] Instance result_ret : MRet result := λ A a, Ok a.
#[export] Instance result_bind : MBind result := λ A B k m,
  match m with
  | Ok a => k a
  | Raise e => Raise e
  end.

(** [o] used where Python needs a number or an index: [None] there is a
    [TypeError]. *)
Definition need {A} (o : option A) : result A :=
  match o with
  | Some a => Ok a
  | None => Raise TypeError
  end.

(** ** Numbers *)

#[export] Instance Req_decision : EqDecision R := Req_dec_T.
#[export] Instance Rlt_decision : RelDecision Rlt := Rlt_dec.
#[export] Instance Rle_decision : RelDecision Rle := Rle_dec.

(** [round(x)] of a float: to the nearest integer, ties to the even one. *)
Definition round (x : R) : Z :=
  let f := Zfloor x in
  let r := (x - IZR f)%R in
  if decide (r < 1 / 2)%R then f
  else if decide (1 / 2 < r)%R then (f + 1)%Z
  else if Z.even f then f else (f + 1)%Z.

(** [x / y] on floats. *)
Definition truediv (x y : R) : result R :=
  if decide (y = 0%R) then Raise ZeroDivisionError else Ok (x / y)%R.

(** [x ** y] on floats.  A positive base gives [exp (y * ln x)].  A zero
    base raised to a negative power is a [ZeroDivisionError].  A negative
    base with an exponent that is not a whole number gives a [complex]
    in Python; no caller in this module accepts one (each passes it on to
    [min], [max], [float] or a clamp, which reject it), so the model
    raises [TypeError] at the power itself. *)
Definition float_pow (x y : R) : result R :=
  if decide (0 < x)%R then Ok (Rpower x y)
  else if decide (x = 0%R) then
    if decide (0 < y)%R then Ok 0%R
    else if decide (y = 0%R) then Ok 1%R
    else Raise ZeroDivisionError
  else
    if decide (IZR (Zfloor y) = y) then Ok (powerRZ x (Zfloor y))
    else Raise TypeError.

(** [math.e ** x]: the base is positive, so the power is [exp x] and never
    raises. *)
Definition e_pow (x : R) : R := exp x.

(** ** Sequences *)

Definition len {A} (l : list A) : Z := Z.of_nat (length l).

(** [l[i]] for a tuple: negative indices count from the end. *)
Definition getitem {A} (l : list A) (i : Z) : result A :=
  let j := if decide (i < 0)%Z then (len l + i)%Z else i in
  if decide (j < 0)%Z then Raise IndexError
  else match l !! Z.to_nat j with
       | Some a => Ok a
       | None => Raise IndexError
       end.

(** ** timedelta: a whole number of microseconds *)

Record timedelta : Set := Timedelta { total_microseconds : Z }.

Definition US_PER_SECOND : Z := 1000000.
Definition US_PER_DAY : Z := 86400 * US_PER_SECOND.

(** [td.days]: the normalised day count, rounded towards minus infinity. *)
Definition days (td : timedelta) : Z := total_microseconds td / US_PER_DAY.

(** Every constructor and operator of [timedelta] ends in this range
    check: more than 999999999 days in either direction overflow. *)
Definition mk_timedelta (us : Z) : result timedelta :=
  if decide (Z.abs (us / US_PER_DAY) ≤ 999999999)%Z
  then Ok (Timedelta us) else Raise OverflowError.

Definition timedelta_days (d : Z) : result timedelta :=
  mk_timedelta (d * US_PER_DAY).
Definition timedelta_minutes (m : Z) : timedelta :=
  Timedelta (m * 60 * US_PER_SECOND).
Definition timedelta_seconds (s : Z) : result timedelta :=
  mk_timedelta (s * US_PER_SECOND).

(** [_divide_and_round(a, b)] of datetime.py: [a / b] to the nearest
    integer, ties to even. *)
Definition divide_and_round (a b : Z) : Z :=
  let q := (a / b)%Z in
  let r := (2 * (a mod b))%Z in
  let greater_than_half :=
    if decide (0 < b)%Z then bool_decide (b < r)%Z else bool_decide (r < b)%Z in
  if greater_than_half || (bool_decide (r = b) && Z.odd q)
  then (q + 1)%Z else q.

Definition timedelta_add (a b : timedelta) : result timedelta :=
  mk_timedelta (total_microseconds a + total_microseconds b).

(** [td * 1.5]: the float is taken as the exact ratio 3/2. *)
Definition timedelta_mul_1_5 (a : timedelta) : result timedelta :=
  mk_timedelta (divide_and_round (total_microseconds a * 3) 2).

(** [td / 2.0]: the float is taken as the exact ratio 2/1. *)
Definition timedelta_div_2 (a : timedelta) : result timedelta :=
  mk_timedelta (divide_and_round (1 * total_microseconds a) 2).

(** ** datetime

    A [datetime] is its wall-clock reading, counted in microseconds from
    0001-01-01T00:00:00, and its [tzinfo]: [None] for a naive value, the
    UTC offset of a fixed-offset [timezone] otherwise.  [timezone.utc] is
    the offset zero; [timezone] objects compare by offset. *)

Record datetime : Set := Datetime { wall : Z; tzinfo : option timedelta }.

Definition timezone_utc : timedelta := Timedelta 0.

#[export] Instance timedelta_eq_dec : EqDecision timedelta.
Proof. solve_decision. Defined.
#[export] Instance datetime_eq_dec : EqDecision datetime.
Proof. solve_decision. Defined.

Definition MAXORDINAL : Z := 3652059.

(** [a - b]: naive and aware values do not mix. *)
Definition datetime_sub (a b : datetime) : result timedelta :=
  let base := (wall a - wall b)%Z in
  match tzinfo a, tzinfo b with
  | None, None => mk_timedelta base
  | Some oa, Some ob =>
      mk_timedelta (base + total_microseconds ob - total_microseconds oa)
  | _, _ => Raise TypeError
  end.

(** [a + td]: the result must stay within years 1 to 9999. *)
Definition datetime_add (a : datetime) (td : timedelta) : result datetime :=
  let w := (wall a + total_microseconds td)%Z in
  if decide (0 ≤ w / US_PER_DAY < MAXORDINAL)%Z
  then Ok (Datetime w (tzinfo a)) else Raise OverflowError.

(** [datetime.now(timezone.utc)] for a clock that reads [clock]. *)
Definition now_utc (clock : Z) : datetime := Datetime clock (Some timezone_utc).

(** ** Calendar and ISO 8601 text (datetime.py)

    [isoformat] and [fromisoformat] belong to Python's library, not to the
    module; they are written out so that the dictionaries of [to_dict] can
    be computed.  [fromisoformat] reads the spellings that [isoformat]
    emits (date, one separator, HH:MM:SS, optional .ffffff, optional
    offset) and reports any other text as [ValueError]. *)

Definition is_leap (year : Z) : bool :=
  (year mod 4 =? 0)%Z && (negb (year mod 100 =? 0)%Z || (year mod 400 =? 0)%Z).

Definition DAYS_IN_MONTH : list Z :=
  [-1; 31; 28; 31; 30; 31; 30; 31; 31; 30; 31; 30; 31]%Z.
Definition DAYS_BEFORE_MONTH : list Z :=
  [-1; 0; 31; 59; 90; 120; 151; 181; 212; 243; 273; 304; 334]%Z.

Definition days_before_year (year : Z) : Z :=
  let y := (year - 1)%Z in (y * 365 + y / 4 - y / 100 + y / 400)%Z.

Definition days_in_month (year month : Z) : Z :=
  if (month =? 2)%Z && is_leap year then 29%Z
  else nth (Z.to_nat month) DAYS_IN_MONTH 0%Z.

Definition days_before_month (year month : Z) : Z :=
  (nth (Z.to_nat month) DAYS_BEFORE_MONTH 0
   + if (2 <? month)%Z && is_leap year then 1 else 0)%Z.

Definition ymd2ord (year month day : Z) : Z :=
  (days_before_year year + days_before_month year month + day)%Z.

Definition DI400Y : Z := days_before_year 401.
Definition DI100Y : Z := days_before_year 101.
Definition DI4Y : Z := days_before_year 5.

Definition ord2ymd (ordinal : Z) : Z * Z * Z :=
  let n := (ordinal - 1)%Z in
  let n400 := (n / DI400Y)%Z in let n := (n mod DI400Y)%Z in
  let year := (n400 * 400 + 1)%Z in
  let n100 := (n / DI100Y)%Z in let n := (n mod DI100Y)%Z in
  let n4 := (n / DI4Y)%Z in let n := (n mod DI4Y)%Z in
  let n1 := (n / 365)%Z in let n := (n mod 365)%Z in
  let year := (year + n100 * 100 + n4 * 4 + n1)%Z in
  if (n1 =? 4)%Z || (n100 =? 4)%Z then ((year - 1)%Z, 12%Z, 31%Z)
  else
    let leapyear := (n1 =? 3)%Z && (negb (n4 =? 24)%Z || (n100 =? 3)%Z) in
    let month := Z.shiftr (n + 50) 5 in
    let preceding :=
      (nth (Z.to_nat month) DAYS_BEFORE_MONTH 0
       + if (2 <? month)%Z && leapyear then 1 else 0)%Z in
    if (n <? preceding)%Z then
      let month := (month - 1)%Z in
      let preceding :=
        (preceding - (nth (Z.to_nat month) DAYS_IN_MONTH 0
                      + if (month =? 2)%Z && leapyear then 1 else 0))%Z in
      (year, month, (n - preceding + 1)%Z)
    else (year, month, (n - preceding + 1)%Z).

(** [timezone(offset)]: the offset lies strictly between -24 h and 24 h. *)
Definition mk_timezone (offset : Z) : result timedelta :=
  if decide (- US_PER_DAY < offset < US_PER_DAY)%Z
  then Ok (Timedelta offset) else Raise ValueError.

(** [datetime(year, month, day, hour, minute, second, microsecond, tzinfo)]. *)
Definition mk_datetime (year month day hour minute second microsecond : Z)
    (tz : option timedelta) : result datetime :=
  if decide (1 ≤ year ≤ 9999 ∧ 1 ≤ month ≤ 12
             ∧ 1 ≤ day ≤ days_in_month year month
             ∧ 0 ≤ hour < 24 ∧ 0 ≤ minute < 60 ∧ 0 ≤ second < 60
             ∧ 0 ≤ microsecond < 1000000)%Z
  then Ok (Datetime
             (((ymd2ord year month day - 1) * 86400
               + hour * 3600 + minute * 60 + second) * US_PER_SECOND
              + microsecond)%Z tz)
  else Raise ValueError.

Definition digit (n : Z) : ascii := ascii_of_nat (48 + Z.to_nat n).

(** ["%0wd" % n] for [0 <= n < 10^w]. *)
Fixpoint pad (w : nat) (n : Z) : string :=
  match w with
  | O => EmptyString
  | S w' => (pad w' (n / 10) ++ String (digit (n mod 10)) EmptyString)%string
  end.

Definition format_offset (tz : option timedelta) : string :=
  match tz with
  | None => EmptyString
  | Some off =>
      let us := total_microseconds off in
      let sign := if decide (days off < 0)%Z then "-"%string else "+"%string in
      let a := Z.abs us in
      let hh := (a / (3600 * US_PER_SECOND))%Z in
      let r := (a mod (3600 * US_PER_SECOND))%Z in
      let mm := (r / (60 * US_PER_SECOND))%Z in
      let r := (r mod (60 * US_PER_SECOND))%Z in
      let ss := (r / US_PER_SECOND)%Z in
      let ff := (r mod US_PER_SECOND)%Z in
      (sign ++ pad 2 hh ++ ":" ++ pad 2 mm
       ++ (if (r =? 0)%Z then ""
           else ":" ++ pad 2 ss
                ++ if (ff =? 0)%Z then "" else "." ++ pad 6 ff))%string
  end.

(** [dt.isoformat()]. *)
Definition isoformat (dt : datetime) : string :=
  let '(y, m, d) := ord2ymd (wall dt / US_PER_DAY + 1) in
  let r := (wall dt mod US_PER_DAY)%Z in
  let hh := (r / (3600 * US_PER_SECOND))%Z in
  let r := (r mod (3600 * US_PER_SECOND))%Z in
  let mm := (r / (60 * US_PER_SECOND))%Z in
  let r := (r mod (60 * US_PER_SECOND))%Z in
  let ss := (r / US_PER_SECOND)%Z in
  let ff := (r mod US_PER_SECOND)%Z in
  (pad 4 y ++ "-" ++ pad 2 m ++ "-" ++ pad 2 d ++ "T"
   ++ pad 2 hh ++ ":" ++ pad 2 mm ++ ":" ++ pad 2 ss
   ++ (if (ff =? 0)%Z then "" else "." ++ pad 6 ff)
   ++ format_offset (tzinfo dt))%string.

(** Exactly [w] decimal digits at the head of [s]. *)
Fixpoint read_digits (w : nat) (acc : Z) (s : string) : result (Z * string) :=
  match w with
  | O => Ok (acc, s)
  | S w' =>
      match s with
      | String c s' =>
          let n := nat_of_ascii c in
          if decide (48 ≤ n ≤ 57)%nat
          then read_digits w' (acc * 10 + Z.of_nat (n - 48))%Z s'
          else Raise ValueError
      | EmptyString => Raise ValueError
      end
  end.

Definition expect (c : ascii) (s : string) : result string :=
  match s with
  | String c' s' => if decide (c = c') then Ok s' else Raise ValueError
  | EmptyString => Raise ValueError
  end.

(** Optional [.ffffff] at the head of [s]. *)
Definition read_fraction (s : string) : result (Z * string) :=
  match s with
  | String "."%char s' => read_digits 6 0 s'
  | _ => Ok (0%Z, s)
  end.

Definition read_hh_mm_ss (s : string) : result (Z * Z * Z * string) :=
  '(hh, s) ← read_digits 2 0 s;
  s ← expect ":" s;
  '(mm, s) ← read_digits 2 0 s;
  s ← expect ":" s;
  '(ss, s) ← read_digits 2 0 s;
  Ok (hh, mm, ss, s).

Definition read_offset (s : string) : result (option timedelta) :=
  match s with
  | EmptyString => Ok None
  | String c s' =>
      sign ← (if decide (c = "+"%char) then Ok 1%Z
              else if decide (c = "-"%char) then Ok (-1)%Z
              else Raise ValueError);
      '(hh, s) ← read_digits 2 0 s';
      s ← expect ":" s;
      '(mm, s) ← read_digits 2 0 s;
      '(ss, ff, s) ←
        match s with
        | EmptyString => Ok (0%Z, 0%Z, s)
        | _ =>
            s ← expect ":" s;
            '(ss, s) ← read_digits 2 0 s;
            '(ff, s) ← read_fraction s;
            Ok (ss, ff, s)
        end;
      match s with
      | EmptyString =>
          tz ← mk_timezone
                 (sign * ((hh * 3600 + mm * 60 + ss) * US_PER_SECOND + ff));
          Ok (Some tz)
      | _ => Raise ValueError
      end
  end.

(** [datetime.fromisoformat(s)]. *)
Definition fromisoformat (s : string) : result datetime :=
  '(y, s) ← read_digits 4 0 s;
  s ← expect "-" s;
  '(m, s) ← read_digits 2 0 s;
  s ← expect "-" s;
  '(d, s) ← read_digits 2 0 s;
  match s with
  | EmptyString => mk_datetime y m d 0 0 0 0 None
  | String _ s =>
      '(hh, mm, ss, s) ← read_hh_mm_ss s;
      '(ff, s) ← read_fraction s;
      tz ← read_offset s;
      mk_datetime y m d hh mm ss ff tz
  end.

End Py.

Export Py.

(** ** Value types of the module *)

Definition STABILITY_MIN : R := 0.001%R.

Definition DEFAULT_PARAMETERS : list R :=
  [ 0.2172; 1.1771; 3.2602; 16.1507; 7.0114; 0.57; 2.0966; 0.0069; 1.5261;
    0.112; 1.0178; 1.849; 0.1133; 0.3127; 2.2934; 0.2191; 3.0004; 0.7536;
    0.3332; 0.1437; 0.2 ]%R.

(** An entry of [FUZZ_RANGES]; [fuzz_end = None] is [math.inf]. *)
Record fuzz_range : Type :=
  FuzzRange { fuzz_start : R; fuzz_end : option R; fuzz_factor : R }.

Definition FUZZ_RANGES : list fuzz_range :=
  [ FuzzRange 2.5 (Some 7.0) 0.15;
    FuzzRange 7.0 (Some 20.0) 0.1;
    FuzzRange 20.0 None 0.05 ]%R.

Inductive State : Set := Learning | Review | Relearning.

Definition State_value (s : State) : Z :=
  match s with Learning => 1 | Review => 2 | Relearning => 3 end.

(** [State(n)]: an integer that names no member is a [ValueError]. *)
Definition State_of (n : Z) : result State :=
  if decide (n = 1) then Ok Learning
  else if decide (n = 2) then Ok Review
  else if decide (n = 3) then Ok Relearning
  else Raise ValueError.

Inductive Rating : Set := Again | Hard | Good | Easy.

Definition Rating_value (r : Rating) : Z :=
  match r with Again => 1 | Hard => 2 | Good => 3 | Easy => 4 end.

#[export] Instance State_eq_dec : EqDecision State.
Proof. solve_decision. Defined.
#[export] Instance Rating_eq_dec : EqDecision Rating.
Proof. solve_decision. Defined.

Record Card : Type := mkCard {
  card_id : Z;
  state : State;
  step : option Z;
  stability : option R;
  difficulty : option R;
  due : datetime;
  last_review : option datetime
}.

(** Wall-clock reading of 1970-01-01T00:00:00, the origin of [timestamp()]. *)
Definition EPOCH : Z := (ymd2ord 1970 1 1 - 1) * US_PER_DAY.

(** [Card.__init__].  [clock_id] and [clock_due] are the readings of the
    UTC clock taken for a missing [card_id] and for a missing [due] (the
    second one after the 1 ms sleep). *)
Definition Card_init (clock_id clock_due : Z)
    (card_id : option Z) (state : State) (step : option Z)
    (stability difficulty : option R)
    (due last_review : option datetime) : Card :=
  let card_id :=
    match card_id with
    | None => Z.quot (clock_id - EPOCH) 1000
    | Some i => i
    end in
  let step :=
    if bool_decide (state = Learning) && bool_decide (step = None)
    then Some 0%Z else step in
  let due :=
    match due with
    | None => now_utc clock_due
    | Some d => d
    end in
  mkCard card_id state step stability difficulty due last_review.

(** ** Dictionaries *)

Inductive value : Type :=
  | VNone
  | VInt (z : Z)
  | VFloat (x : R)
  | VStr (s : string).

(** Truth value of an object in a condition. *)
Definition truthy (v : value) : bool :=
  match v with
  | VNone => false
  | VInt z => negb (z =? 0)%Z
  | VFloat x => negb (bool_decide (x = 0%R))
  | VStr s => negb (bool_decide (s = EmptyString))
  end.

(** [int(v)] and [float(v)] for numbers; numerals in text form are not
    modelled and are reported as [ValueError]. *)
Definition int (v : value) : result Z :=
  match v with
  | VNone => Raise TypeError
  | VInt z => Ok z
  | VFloat x => Ok (if decide (0 <= x)%R then Zfloor x else Zceil x)
  | VStr _ => Raise ValueError
  end.

Definition float (v : value) : result R :=
  match v with
  | VNone => Raise TypeError
  | VInt z => Ok (IZR z)
  | VFloat x => Ok x
  | VStr _ => Raise ValueError
  end.

(** [d[k]]. *)
Definition item (d : gmap string value) (k : string) : result value :=
  match d !! k with
  | Some v => Ok v
  | None => Raise KeyError
  end.

(** [datetime.fromisoformat(v)]: the argument must be a [str]. *)
Definition fromisoformat_value (v : value) : result datetime :=
  match v with
  | VStr s => fromisoformat s
  | _ => Raise TypeError
  end.

Definition of_option {A} (f : A → value) (o : option A) : value :=
  match o with
  | Some a => f a
  | None => VNone
  end.

(** [Card.to_dict]. *)
Definition to_dict (self : Card) : gmap string value :=
  <["card_id" := VInt (card_id self)]>
  (<["state" := VInt (State_value (state self))]>
  (<["step" := of_option VInt (step self)]>
  (<["stability" := of_option VFloat (stability self)]>
  (<["difficulty" := of_option VFloat (difficulty self)]>
  (<["due" := VStr (isoformat (due self))]>
  (<["last_review" := of_option (λ d, VStr (isoformat d)) (last_review self)]>
   ∅)))))).

(** [Card.from_dict].  The [step] entry is stored as it is found; the
    record holds [None] or an [int] there, so any other object is reported
    as [TypeError]. *)
Definition from_dict (clock_id clock_due : Z)
    (source_dict : gmap string value) : result Card :=
  v ← item source_dict "card_id"; card_id ← int v;
  v ← item source_dict "state"; n ← int v; state ← State_of n;
  v ← item source_dict "step";
  step ← match v with
         | VNone => Ok None
         | VInt z => Ok (Some z)
         | _ => Raise TypeError
         end;
  v ← item source_dict "stability";
  stability ← (if truthy v
               then v ← item source_dict "stability"; x ← float v; Ok (Some x)
               else Ok None);
  v ← item source_dict "difficulty";
  difficulty ← (if truthy v
                then v ← item source_dict "difficulty"; x ← float v; Ok (Some x)
                else Ok None);
  v ← item source_dict "due"; due ← fromisoformat_value v;
  v ← item source_dict "last_review";
  last_review ← (if truthy v
                 then v ← item source_dict "last_review";
                      d ← fromisoformat_value v; Ok (Some d)
                 else Ok None);
  Ok (Card_init clock_id clock_due (Some card_id) state step
        stability difficulty (Some due) last_review).

Record ReviewLog : Type := mkReviewLog {
  log_card_id : Z;
  rating : Rating;
  review_datetime : datetime;
  review_duration : option Z
}.

(** ** The scheduler *)

Record Scheduler : Type := mkScheduler {
  parameters : list R;
  desired_retention : R;
  learning_steps : list timedelta;
  relearning_steps : list timedelta;
  maximum_interval : Z;
  enable_fuzzing : bool;
  _DECAY : R;
  _FACTOR : R
}.

(** [Scheduler.__init__]. *)
Definition Scheduler_init (parameters : list R) (desired_retention : R)
    (learning_steps relearning_steps : list timedelta)
    (maximum_interval : Z) (enable_fuzzing : bool) : result Scheduler :=
  p20 ← getitem parameters 20;
  let DECAY := (- p20)%R in
  e ← truediv 1 DECAY;
  p ← float_pow 0.9 e;
  let FACTOR := (p - 1)%R in
  Ok (mkScheduler parameters desired_retention learning_steps
        relearning_steps maximum_interval enable_fuzzing DECAY FACTOR).

Definition default_learning_steps : list timedelta :=
  [timedelta_minutes 1; timedelta_minutes 10].
Definition default_relearning_steps : list timedelta :=
  [timedelta_minutes 10].

(** [Scheduler(enable_fuzzing=fuzz)]: every other argument at its default. *)
Definition Scheduler_default (fuzz : bool) : result Scheduler :=
  Scheduler_init DEFAULT_PARAMETERS 0.9 default_learning_steps
    default_relearning_steps 36500 fuzz.

Section Kernel.

Variable self : Scheduler.

Local Open Scope R_scope.

(** [self.parameters[i]]. *)
Definition param (i : Z) : result R := getitem (parameters self) i.

(** [get_card_retrievability]; [clock] is read when no time is given. *)
Definition get_card_retrievability (card : Card)
    (current_datetime : option datetime) (clock : Z) : result R :=
  match last_review card with
  | None => Ok 0
  | Some last =>
      let current_datetime :=
        match current_datetime with
        | None => now_utc clock
        | Some d => d
        end in
      delta ← datetime_sub current_datetime last;
      let elapsed_days := Z.max 0 (days delta) in
      s ← need (stability card);
      q ← truediv (_FACTOR self * IZR elapsed_days) s;
      float_pow (1 + q) (_DECAY self)
  end.

Definition _clamp_difficulty (difficulty : R) : R :=
  Rmin (Rmax difficulty 1.0) 10.0.

Definition _clamp_stability (stability : R) : R :=
  Rmax stability STABILITY_MIN.

Definition _initial_stability (rating : Rating) : result R :=
  initial_stability ← param (Rating_value rating - 1);
  Ok (_clamp_stability initial_stability).

Definition _initial_difficulty (rating : Rating) : result R :=
  p4 ← param 4;
  p5 ← param 5;
  Ok (_clamp_difficulty
        (p4 - e_pow (p5 * IZR (Rating_value rating - 1)) + 1)).

Definition _next_interval (stability : R) : result Z :=
  a ← truediv stability (_FACTOR self);
  e ← truediv 1 (_DECAY self);
  p ← float_pow (desired_retention self) e;
  let next_interval := a * (p - 1) in
  let next_interval := round next_interval in
  let next_interval := Z.max next_interval 1 in
  let next_interval := Z.min next_interval (maximum_interval self) in
  Ok next_interval.

Definition _short_term_stability (stability : option R) (rating : Rating)
    : result R :=
  p17 ← param 17;
  p18 ← param 18;
  p19 ← param 19;
  s ← need stability;
  q ← float_pow s (- p19);
  let short_term_stability_increase :=
    e_pow (p17 * (IZR (Rating_value rating - 3) + p18)) * q in
  let short_term_stability_increase :=
    if bool_decide (rating = Good ∨ rating = Easy)
    then Rmax short_term_stability_increase 1.0
    else short_term_stability_increase in
  Ok (_clamp_stability (s * short_term_stability_increase)).

Definition _next_difficulty (difficulty : option R) (rating : Rating)
    : result R :=
  arg_1 ← _initial_difficulty Easy;
  p6 ← param 6;
  let delta_difficulty := - (p6 * IZR (Rating_value rating - 3)) in
  d ← need difficulty;
  let arg_2 := d + (10.0 - d) * delta_difficulty / 9.0 in
  p7 ← param 7;
  let next_difficulty := p7 * arg_1 + (1 - p7) * arg_2 in
  Ok (_clamp_difficulty next_difficulty).

Definition _next_forget_stability (difficulty stability : option R)
    (retrievability : R) : result R :=
  p11 ← param 11;
  p12 ← param 12;
  d ← need difficulty;
  a ← float_pow d (- p12);
  s ← need stability;
  p13 ← param 13;
  b ← float_pow (s + 1) p13;
  p14 ← param 14;
  let next_forget_stability_long_term_params :=
    p11 * a * (b - 1) * e_pow ((1 - retrievability) * p14) in
  p17 ← param 17;
  p18 ← param 18;
  let next_forget_stability_short_term_params := s / e_pow (p17 * p18) in
  Ok (Rmin next_forget_stability_long_term_params
        next_forget_stability_short_term_params).

Definition _next_recall_stability (difficulty stability : option R)
    (retrievability : R) (rating : Rating) : result R :=
  hard_penalty ← (if decide (rating = Hard) then param 15 else Ok 1);
  easy_bonus ← (if decide (rating = Easy) then param 16 else Ok 1);
  p8 ← param 8;
  d ← need difficulty;
  p9 ← param 9;
  s ← need stability;
  q ← float_pow s (- p9);
  p10 ← param 10;
  Ok (s * (1 + e_pow p8 * (11 - d) * q
               * (e_pow ((1 - retrievability) * p10) - 1)
               * hard_penalty * easy_bonus)).

Definition _next_stability (difficulty stability : option R)
    (retrievability : R) (rating : Rating) : result R :=
  next_stability ←
    (if decide (rating = Again)
     then _next_forget_stability difficulty stability retrievability
     else _next_recall_stability difficulty stability retrievability rating);
  Ok (_clamp_stability next_stability).

(** The local [delta] of the helper [_get_fuzz_range]. *)
Definition fuzz_delta (interval_days : Z) : R :=
  fold_left
    (λ delta fr,
       delta + fuzz_factor fr
               * Rmax (match fuzz_end fr with
                       | Some e => Rmin (IZR interval_days) e
                       | None => IZR interval_days
                       end - fuzz_start fr) 0.0)
    FUZZ_RANGES 1.0.

(** The helper [_get_fuzz_range] of [_get_fuzzed_interval]. *)
Definition _get_fuzz_range (interval_days : Z) : Z * Z :=
  let delta := fuzz_delta interval_days in
  let min_ivl := round (IZR interval_days - delta) in
  let max_ivl := round (IZR interval_days + delta) in
  let min_ivl := Z.max 2 min_ivl in
  let max_ivl := Z.min max_ivl (maximum_interval self) in
  let min_ivl := Z.min min_ivl max_ivl in
  (min_ivl, max_ivl).

(** [_get_fuzzed_interval]; [u] is the value that [random()] returns. *)
Definition _get_fuzzed_interval (interval : timedelta) (u : R)
    : result timedelta :=
  let interval_days := days interval in
  if decide (IZR interval_days < 2.5) then Ok interval
  else
    let '(min_ivl, max_ivl) := _get_fuzz_range interval_days in
    let fuzzed_interval_days :=
      u * IZR (max_ivl - min_ivl + 1) + IZR min_ivl in
    let fuzzed_interval_days :=
      Z.min (round fuzzed_interval_days) (maximum_interval self) in
    timedelta_days fuzzed_interval_days.

End Kernel.

(** ** The state machine *)

Section ReviewCard.

Variable self : Scheduler.

(** [days_since_last_review is not None and days_since_last_review < 1]. *)
Definition same_day (days_since_last_review : option Z) : bool :=
  match days_since_last_review with
  | Some n => bool_decide (n < 1)
  | None => false
  end.

(** [rating in (Rating.Hard, Rating.Good, Rating.Easy)]. *)
Definition recalled (rating : Rating) : bool :=
  bool_decide (rating = Hard ∨ rating = Good ∨ rating = Easy).

Definition set_memory (card : Card) (s d : R) : Card :=
  mkCard (card_id card) (state card) (step card) (Some s) (Some d)
    (due card) (last_review card).

Definition set_state_step (card : Card) (st : State) (sp : option Z) : Card :=
  mkCard (card_id card) st sp (stability card) (difficulty card)
    (due card) (last_review card).

(** The update of stability and difficulty shared by the short-term
    branches of the three states. *)
Definition short_term_update (card : Card) (rating : Rating) : result Card :=
  s ← _short_term_stability self (stability card) rating;
  d ← _next_difficulty self (difficulty card) rating;
  Ok (set_memory card s d).

(** The long-term branch as the Learning and Review cases write it. *)
Definition long_term_update (card : Card) (rating : Rating)
    (review_datetime : datetime) (clock : Z) : result Card :=
  r ← get_card_retrievability self card (Some review_datetime) clock;
  s ← _next_stability self (difficulty card) (stability card) r rating;
  d ← _next_difficulty self (difficulty card) rating;
  Ok (set_memory card s d).

(** Leaving the steps: the card enters Review for [_next_interval] days. *)
Definition graduate (card : Card) : result (Card * timedelta) :=
  let card := set_state_step card Review None in
  s ← need (stability card);
  next_interval_days ← _next_interval self s;
  next_interval ← timedelta_days next_interval_days;
  Ok (card, next_interval).

(** The interval computation of a card on its steps.  The Learning case
    (lines 453-504) and the Relearning case (lines 579-630) are the same
    text up to the name of the steps tuple, here [steps]. *)
Definition steps_interval (steps : list timedelta) (card : Card)
    (rating : Rating) : result (Card * timedelta) :=
  past_steps ←
    (if decide (len steps = 0) then Ok true
     else sp ← need (step card);
          Ok (bool_decide (len steps ≤ sp) && recalled rating));
  if past_steps : bool then graduate card
  else
    match rating with
    | Again =>
        let card := set_state_step card (state card) (Some 0) in
        next_interval ← getitem steps 0;
        Ok (card, next_interval)
    | Hard =>
        if bool_decide (step card = Some 0) && bool_decide (len steps = 1)
        then
          s0 ← getitem steps 0;
          next_interval ← timedelta_mul_1_5 s0;
          Ok (card, next_interval)
        else if bool_decide (step card = Some 0) && bool_decide (2 ≤ len steps)
        then
          s0 ← getitem steps 0;
          s1 ← getitem steps 1;
          sum ← timedelta_add s0 s1;
          next_interval ← timedelta_div_2 sum;
          Ok (card, next_interval)
        else
          sp ← need (step card);
          next_interval ← getitem steps sp;
          Ok (card, next_interval)
    | Good =>
        sp ← need (step card);
        if decide (sp + 1 = len steps) then graduate card
        else
          let card := set_state_step card (state card) (Some (sp + 1)) in
          next_interval ← getitem steps (sp + 1);
          Ok (card, next_interval)
    | Easy => graduate card
    end.

(** [case State.Learning]. *)
Definition review_Learning (card : Card) (rating : Rating)
    (review_datetime : datetime) (days_since_last_review : option Z)
    (clock : Z) : result (Card * timedelta) :=
  card ←
    (if bool_decide (stability card = None)
        && bool_decide (difficulty card = None)
     then
       s ← _initial_stability self rating;
       d ← _initial_difficulty self rating;
       Ok (set_memory card s d)
     else if same_day days_since_last_review
     then short_term_update card rating
     else long_term_update card rating review_datetime clock);
  steps_interval (learning_steps self) card rating.

(** [case State.Review]. *)
Definition review_Review (card : Card) (rating : Rating)
    (review_datetime : datetime) (days_since_last_review : option Z)
    (clock : Z) : result (Card * timedelta) :=
  card ←
    (if same_day days_since_last_review
     then short_term_update card rating
     else long_term_update card rating review_datetime clock);
  match rating with
  | Again =>
      if decide (len (relearning_steps self) = 0) then
        s ← need (stability card);
        next_interval_days ← _next_interval self s;
        next_interval ← timedelta_days next_interval_days;
        Ok (card, next_interval)
      else
        let card := set_state_step card Relearning (Some 0) in
        next_interval ← getitem (relearning_steps self) 0;
        Ok (card, next_interval)
  | Hard | Good | Easy =>
      s ← need (stability card);
      next_interval_days ← _next_interval self s;
      next_interval ← timedelta_days next_interval_days;
      Ok (card, next_interval)
  end.

(** [case State.Relearning].  The long-term branch asks the card for
    [get_retrievability], an attribute that [Card] does not have: the
    lookup raises [AttributeError] before any update is made. *)
Definition review_Relearning (card : Card) (rating : Rating)
    (review_datetime : datetime) (days_since_last_review : option Z)
    (clock : Z) : result (Card * timedelta) :=
  card ←
    (if same_day days_since_last_review
     then short_term_update card rating
     else Raise AttributeError);
  steps_interval (relearning_steps self) card rating.

(** [Scheduler.review_card].  The function works on [copy(card)]: the
    card it returns is a new value and the argument is left as it was.
    [clock] is the UTC clock, read when [review_datetime] is [None]; [u]
    is the value of [random()], consumed by the fuzz. *)
Definition review_card (card : Card) (rating : Rating)
    (review_datetime : option datetime) (review_duration : option Z)
    (clock : Z) (u : R) : result (Card * ReviewLog) :=
  match review_datetime with
  | Some d =>
      if bool_decide (tzinfo d = None)
         || bool_decide (tzinfo d ≠ Some timezone_utc)
      then Raise ValueError else Ok ()
  | None => Ok ()
  end;;
  let review_datetime :=
    match review_datetime with
    | None => now_utc clock
    | Some d => d
    end in
  days_since_last_review ←
    match last_review card with
    | Some last =>
        delta ← datetime_sub review_datetime last; Ok (Some (days delta))
    | None => Ok None
    end;
  '(card, next_interval) ←
    match state card with
    | Learning =>
        review_Learning card rating review_datetime days_since_last_review clock
    | Review =>
        review_Review card rating review_datetime days_since_last_review clock
    | Relearning =>
        review_Relearning card rating review_datetime days_since_last_review
          clock
    end;
  next_interval ←
    (if enable_fuzzing self && bool_decide (state card = Review)
     then _get_fuzzed_interval self next_interval u
     else Ok next_interval);
  due ← datetime_add review_datetime next_interval;
  let card :=
    mkCard (card_id card) (state card) (step card) (stability card)
      (difficulty card) due (Some review_datetime) in
  let review_log :=
    mkReviewLog (card_id card) rating review_datetime review_duration in
  Ok (card, review_log).

End ReviewCard.

(** ** Concrete values used by the scenarios *)

(** The scheduler that [Scheduler(enable_fuzzing=fuzz)] builds. *)
Definition default_scheduler (fuzz : bool) : Scheduler :=
  mkScheduler DEFAULT_PARAMETERS 0.9 default_learning_steps
    default_relearning_steps 36500 fuzz
    (- (0.2))%R (Rpower 0.9 (1 / - (0.2)) - 1)%R.

(** 2022-11-29T12:30:00+00:00. *)
Definition t0 : datetime := Datetime 63805321800000000 (Some timezone_utc).

(** [Card()], the brand-new card. *)
Definition Card_new (clock_id clock_due : Z) : Card :=
  Card_init clock_id clock_due None Learning None None None None None.

(** [Card()] with the clock at [t0]. *)
Definition new_card : Card := Card_new (wall t0) (wall t0).

(** The state/step invariant of the data model. *)
Definition step_invariant (c : Card) : Prop :=
  state c = Review ↔ step c = None.

(** Fixed-point numbers for bounds on [exp]: [m] stands for [m / SCALE];
    [n] squarings rounded down, and rounded up. *)
Definition SCALE : Z := 10 ^ 12.

Fixpoint square_down (n : nat) (m : Z) : Z :=
  match n with
  | O => m
  | S n' => square_down n' (m * m / SCALE)
  end.

Fixpoint square_up (n : nat) (m : Z) : Z :=
  match n with
  | O => m
  | S n' => square_up n' ((m * m + SCALE - 1) / SCALE)
  end.

(** A [datetime] that Python can hold: within years 1 to 9999, with an
    offset strictly between -24 h and 24 h. *)
Definition valid_datetime (d : datetime) : Prop :=
  0 ≤ wall d < MAXORDINAL * US_PER_DAY
  ∧ match tzinfo d with
    | None => True
    | Some off => - US_PER_DAY < total_microseconds off < US_PER_DAY
    end.

(** The month and day that [ord2ymd] computes from the day [n] of a year. *)
Definition month_day (leapyear : bool) (n : Z) : Z * Z :=
  let month := Z.shiftr (n + 50) 5 in
  let preceding :=
    nth (Z.to_nat month) DAYS_BEFORE_MONTH 0
    + (if (2 <? month) && leapyear then 1 else 0) in
  if n <? preceding then
    let month := month - 1 in
    let preceding :=
      preceding - (nth (Z.to_nat month) DAYS_IN_MONTH 0
                   + if (month =? 2) && leapyear then 1 else 0) in
    (month, n - preceding + 1)
  else (month, n - preceding + 1).

(** The check of [month_day] at the day [n], and its enumeration over a
    range of days. *)
Definition month_day_ok (leapyear : bool) (n : Z) : bool :=
  let '(m, d) := month_day leapyear n in
  (1 <=? m) && (m <=? 12) && (1 <=? d)
  && (d <=? nth (Z.to_nat m) DAYS_IN_MONTH 0
            + if (m =? 2) && leapyear then 1 else 0)
  && (nth (Z.to_nat m) DAYS_BEFORE_MONTH 0
      + (if (2 <? m) && leapyear then 1 else 0) + d =? n + 1).

Fixpoint all_from (n : nat) (r : Z) (f : Z → bool) : bool :=
  match n with
  | O => true
  | S n' => f r && all_from n' (r + 1) f
  end.

(** [x] agrees with the decimal [v] up to [tol]. *)
Definition approx (x v tol : R) : Prop := (Rabs (x - v) <= tol)%R.

(** The Relearning card of the failing scenario: last reviewed at [t0]. *)
Definition relearning_card : Card :=
  mkCard 1 Relearning (Some 0) (Some 2.5%R) (Some 5%R) t0 (Some t0).

(** [t0] one day later. *)
Definition t0_plus_1_day : datetime :=
  Datetime (63805321800000000 + US_PER_DAY) (Some timezone_utc).

(** The card that the first review, rated Good at [t0], produces. *)
Definition first_review_card (id : Z) : Card :=
  mkCard id Learning (Some 1)
    (Some (_clamp_stability 3.2602%R))
    (Some (_clamp_difficulty (7.0114 - e_pow (0.57 * IZR (3 - 1)) + 1)%R))
    (Datetime (63805321800000000 + 10 * 60 * US_PER_SECOND)
       (Some timezone_utc))
    (Some t0).


(** A card in Review, stability 1, last reviewed at [t0]. *)
Definition review_card_at_t0 : Card :=
  mkCard 1 Review None (Some 1%R) (Some 5%R) t0 (Some t0).


(** What the claim of scenario 1 says about a returned card; [dv] is
    the decimal it quotes for the difficulty. *)
Definition first_review_claim (dv : R) (card' : Card) : Prop :=
  state card' = Learning ∧ step card' = Some 1
  ∧ datetime_add t0 (timedelta_minutes 10) = Ok (due card')
  ∧ ∃ s d, stability card' = Some s ∧ difficulty card' = Some d
           ∧ approx s 3.2602 0.00005 ∧ approx d dv 0.005.

(** ** Floats with their special values

    The clamps of the scheduler are written with [max] and [min], whose
    comparisons are all false on NaN, so what they guarantee cannot be
    read off a model over [R].  This second model of the scheduler keeps
    the special values of a Python [float]: a number is finite, one of
    the two infinities, or NaN.  The arithmetic on them follows IEEE 754
    and, for [/], [**], [round], [max] and [min], what CPython does:
    - a finite result beyond [sys.float_info.max] is the infinity of its
      sign for [+], [-], [*] and [/], and an [OverflowError] for [**];
    - [inf - inf], [inf * 0] and [inf / inf] are NaN, and NaN goes through
      every operation but [x ** 0] and [1 ** x];
    - a division by zero raises [ZeroDivisionError], whatever the
      numerator;
    - [max(a, b)] is [b] when [b > a] and [a] otherwise, [min(a, b)] is [b]
      when [b < a] and [a] otherwise.
    A finite result within the range is exact: the rounding to 53 bits
    and the underflow to zero are not modelled (a result that rounding
    would bring back to the largest float counts as beyond it), nor is
    the sign of zero, which no operation of the module observes. *)

Module Float64.

Inductive float : Type :=
  | Finite (x : R)
  | PInf
  | NInf
  | NaN.

(** [sys.float_info.max], [(2 - 2 ** -52) * 2 ** 1023]. *)
Definition DBL_MAX : R := IZR ((2 ^ 53 - 1) * 2 ^ 971).

(** The float of the exact result [x] of [+], [-], [*] or [/]. *)
Definition overflow (x : R) : float :=
  if decide (DBL_MAX < x)%R then PInf
  else if decide (x < - DBL_MAX)%R then NInf
  else Finite x.

(** An [int] operand of a float operation. *)
Definition of_int (z : Z) : float := Finite (IZR z).

Definition neg (a : float) : float :=
  match a with
  | Finite x => Finite (- x)
  | PInf => NInf
  | NInf => PInf
  | NaN => NaN
  end.

Definition add (a b : float) : float :=
  match a, b with
  | NaN, _ | _, NaN => NaN
  | Finite x, Finite y => overflow (x + y)
  | PInf, NInf | NInf, PInf => NaN
  | PInf, _ | _, PInf => PInf
  | NInf, _ | _, NInf => NInf
  end.

Definition sub (a b : float) : float := add a (neg b).

(** The product of the infinity [inf] and the finite [x]. *)
Definition mul_inf (inf : float) (x : R) : float :=
  if decide (x = 0)%R then NaN
  else if decide (0 < x)%R then inf else neg inf.

Definition mul (a b : float) : float :=
  match a, b with
  | NaN, _ | _, NaN => NaN
  | Finite x, Finite y => overflow (x * y)
  | Finite x, inf | inf, Finite x => mul_inf inf x
  | PInf, PInf | NInf, NInf => PInf
  | PInf, NInf | NInf, PInf => NInf
  end.

(** [a / b]. *)
Definition truediv (a b : float) : result float :=
  match b with
  | Finite y =>
      if decide (y = 0)%R then Raise ZeroDivisionError
      else Ok match a with
              | Finite x => overflow (x / y)
              | NaN => NaN
              | inf => if decide (0 < y)%R then inf else neg inf
              end
  | NaN => Ok NaN
  | PInf | NInf =>
      Ok match a with
         | Finite _ => Finite 0
         | _ => NaN
         end
  end.

(** The float of the exact result [x] of a power. *)
Definition power_result (x : R) : result float :=
  if decide (DBL_MAX < Rabs x)%R then Raise OverflowError else Ok (Finite x).

(** [y] is a whole number, and odd. *)
Definition is_odd_integer (y : R) : bool :=
  bool_decide (IZR (Zfloor y) = y) && Z.odd (Zfloor y).

(** [v ** w] ([float_pow] of CPython).  A negative base with an exponent
    that is not whole gives a [complex], which is reported as a
    [TypeError] at the power, as in [float_pow]. *)
Definition pow (v w : float) : result float :=
  match w with
  | Finite y =>
      if decide (y = 0)%R then Ok (Finite 1)
      else
        match v with
        | NaN => Ok NaN
        | PInf => Ok (if decide (0 < y)%R then PInf else Finite 0)
        | NInf =>
            Ok (if decide (0 < y)%R
                then if is_odd_integer y then NInf else PInf
                else Finite 0)
        | Finite x =>
            if decide (x = 0)%R then
              if decide (y < 0)%R then Raise ZeroDivisionError
              else Ok (Finite 0)
            else if decide (x < 0)%R then
              if decide (IZR (Zfloor y) = y) then
                power_result (powerRZ x (Zfloor y))
              else Raise TypeError
            else power_result (Rpower x y)
        end
  | NaN =>
      Ok match v with
         | Finite x => if decide (x = 1)%R then Finite 1 else NaN
         | _ => NaN
         end
  | PInf =>
      Ok match v with
         | NaN => NaN
         | Finite x =>
             if decide (Rabs x = 1)%R then Finite 1
             else if decide (1 < Rabs x)%R then PInf else Finite 0
         | PInf | NInf => PInf
         end
  | NInf =>
      Ok match v with
         | NaN => NaN
         | Finite x =>
             if decide (Rabs x = 1)%R then Finite 1
             else if decide (1 < Rabs x)%R then Finite 0 else PInf
         | PInf | NInf => Finite 0
         end
  end.

(** [math.e ** x]. *)
Definition e_pow (x : float) : result float := pow (Finite (exp 1)) x.

(** [a < b] and [a <= b]. *)
Definition lt (a b : float) : bool :=
  match a, b with
  | NaN, _ | _, NaN => false
  | Finite x, Finite y => bool_decide (x < y)%R
  | NInf, NInf | PInf, _ => false
  | NInf, _ | _, PInf => true
  | Finite _, NInf => false
  end.

Definition le (a b : float) : bool :=
  match a, b with
  | NaN, _ | _, NaN => false
  | Finite x, Finite y => bool_decide (x <= y)%R
  | NInf, _ | _, PInf => true
  | PInf, _ | Finite _, NInf => false
  end.

(** [max(a, b)] and [min(a, b)]: the first argument is kept unless the
    second one compares as larger (smaller). *)
Definition py_max (a b : float) : float := if lt a b then b else a.
Definition py_min (a b : float) : float := if lt b a then b else a.

(** [round(float(a))]. *)
Definition round (a : float) : result Z :=
  match a with
  | Finite x => Ok (Py.round x)
  | NaN => Raise ValueError
  | PInf | NInf => Raise OverflowError
  end.

Definition STABILITY_MIN : float := Finite 0.001.

Definition DEFAULT_PARAMETERS : list float :=
  Finite <$>
  [ 0.2172; 1.1771; 3.2602; 16.1507; 7.0114; 0.57; 2.0966; 0.0069; 1.5261;
    0.112; 1.0178; 1.849; 0.1133; 0.3127; 2.2934; 0.2191; 3.0004; 0.7536;
    0.3332; 0.1437; 0.2 ]%R.

Record Card : Type := mkCard {
  card_id : Z;
  state : State;
  step : option Z;
  stability : option float;
  difficulty : option float;
  due : datetime;
  last_review : option datetime
}.

Record Scheduler : Type := mkScheduler {
  parameters : list float;
  desired_retention : float;
  learning_steps : list timedelta;
  relearning_steps : list timedelta;
  maximum_interval : Z;
  enable_fuzzing : bool;
  _DECAY : float;
  _FACTOR : float
}.

(** [Scheduler.__init__]. *)
Definition Scheduler_init (parameters : list float)
    (desired_retention : float)
    (learning_steps relearning_steps : list timedelta)
    (maximum_interval : Z) (enable_fuzzing : bool) : result Scheduler :=
  p20 ← getitem parameters 20;
  let DECAY := neg p20 in
  e ← truediv (of_int 1) DECAY;
  p ← pow (Finite 0.9) e;
  let FACTOR := sub p (of_int 1) in
  Ok (mkScheduler parameters desired_retention learning_steps
        relearning_steps maximum_interval enable_fuzzing DECAY FACTOR).

(** [Scheduler(enable_fuzzing=fuzz)]: every other argument at its default. *)
Definition Scheduler_default (fuzz : bool) : result Scheduler :=
  Scheduler_init DEFAULT_PARAMETERS (Finite 0.9) default_learning_steps
    default_relearning_steps 36500 fuzz.

Section Kernel.

Variable self : Scheduler.

(** [self.parameters[i]]. *)
Definition param (i : Z) : result float := getitem (parameters self) i.

(** [get_card_retrievability]; [clock] is read when no time is given. *)
Definition get_card_retrievability (card : Card)
    (current_datetime : option datetime) (clock : Z) : result float :=
  match last_review card with
  | None => Ok (of_int 0)
  | Some last =>
      let current_datetime :=
        match current_datetime with
        | None => now_utc clock
        | Some d => d
        end in
      delta ← datetime_sub current_datetime last;
      let elapsed_days := Z.max 0 (days delta) in
      s ← need (stability card);
      q ← truediv (mul (_FACTOR self) (of_int elapsed_days)) s;
      pow (add (of_int 1) q) (_DECAY self)
  end.

Definition _clamp_difficulty (difficulty : float) : float :=
  py_min (py_max difficulty (Finite 1.0)) (Finite 10.0).

Definition _clamp_stability (stability : float) : float :=
  py_max stability STABILITY_MIN.

Definition _initial_stability (rating : Rating) : result float :=
  initial_stability ← param (Rating_value rating - 1);
  Ok (_clamp_stability initial_stability).

Definition _initial_difficulty (rating : Rating) : result float :=
  p4 ← param 4;
  p5 ← param 5;
  a ← e_pow (mul p5 (of_int (Rating_value rating - 1)));
  Ok (_clamp_difficulty (add (sub p4 a) (of_int 1))).

Definition _next_interval (stability : float) : result Z :=
  a ← truediv stability (_FACTOR self);
  e ← truediv (of_int 1) (_DECAY self);
  p ← pow (desired_retention self) e;
  let next_interval := mul a (sub p (of_int 1)) in
  next_interval ← round next_interval;
  let next_interval := Z.max next_interval 1 in
  let next_interval := Z.min next_interval (maximum_interval self) in
  Ok next_interval.

Definition _short_term_stability (stability : option float)
    (rating : Rating) : result float :=
  p17 ← param 17;
  p18 ← param 18;
  a ← e_pow (mul p17 (add (of_int (Rating_value rating - 3)) p18));
  p19 ← param 19;
  s ← need stability;
  q ← pow s (neg p19);
  let short_term_stability_increase := mul a q in
  let short_term_stability_increase :=
    if bool_decide (rating = Good ∨ rating = Easy)
    then py_max short_term_stability_increase (Finite 1.0)
    else short_term_stability_increase in
  Ok (_clamp_stability (mul s short_term_stability_increase)).

Definition _next_difficulty (difficulty : option float) (rating : Rating)
    : result float :=
  arg_1 ← _initial_difficulty Easy;
  p6 ← param 6;
  let delta_difficulty := neg (mul p6 (of_int (Rating_value rating - 3))) in
  d ← need difficulty;
  damping ← truediv (mul (sub (Finite 10.0) d) delta_difficulty) (Finite 9.0);
  let arg_2 := add d damping in
  p7 ← param 7;
  let next_difficulty :=
    add (mul p7 arg_1) (mul (sub (of_int 1) p7) arg_2) in
  Ok (_clamp_difficulty next_difficulty).

Definition _next_forget_stability (difficulty stability : option float)
    (retrievability : float) : result float :=
  p11 ← param 11;
  p12 ← param 12;
  d ← need difficulty;
  a ← pow d (neg p12);
  s ← need stability;
  p13 ← param 13;
  b ← pow (add s (of_int 1)) p13;
  p14 ← param 14;
  c ← e_pow (mul (sub (of_int 1) retrievability) p14);
  let next_forget_stability_long_term_params :=
    mul (mul (mul p11 a) (sub b (of_int 1))) c in
  p17 ← param 17;
  p18 ← param 18;
  f ← e_pow (mul p17 p18);
  next_forget_stability_short_term_params ← truediv s f;
  Ok (py_min next_forget_stability_long_term_params
        next_forget_stability_short_term_params).

Definition _next_recall_stability (difficulty stability : option float)
    (retrievability : float) (rating : Rating) : result float :=
  hard_penalty ← (if decide (rating = Hard) then param 15 else Ok (of_int 1));
  easy_bonus ← (if decide (rating = Easy) then param 16 else Ok (of_int 1));
  p8 ← param 8;
  a ← e_pow p8;
  d ← need difficulty;
  p9 ← param 9;
  s ← need stability;
  q ← pow s (neg p9);
  p10 ← param 10;
  c ← e_pow (mul (sub (of_int 1) retrievability) p10);
  Ok (mul s
        (add (of_int 1)
           (mul (mul (mul (mul (mul a (sub (of_int 11) d)) q)
                        (sub c (of_int 1)))
                   hard_penalty)
              easy_bonus))).

Definition _next_stability (difficulty stability : option float)
    (retrievability : float) (rating : Rating) : result float :=
  next_stability ←
    (if decide (rating = Again)
     then _next_forget_stability difficulty stability retrievability
     else _next_recall_stability difficulty stability retrievability rating);
  Ok (_clamp_stability next_stability).

(** The fuzz works on whole days and on the draw [u] of [random()]; its
    numbers stay far from the special values and are written over [R],
    as in [_get_fuzzed_interval] above. *)
Definition _get_fuzz_range (interval_days : Z) : Z * Z :=
  let delta := fuzz_delta interval_days in
  let min_ivl := Py.round (IZR interval_days - delta) in
  let max_ivl := Py.round (IZR interval_days + delta) in
  let min_ivl := Z.max 2 min_ivl in
  let max_ivl := Z.min max_ivl (maximum_interval self) in
  let min_ivl := Z.min min_ivl max_ivl in
  (min_ivl, max_ivl).

Definition _get_fuzzed_interval (interval : timedelta) (u : R)
    : result timedelta :=
  let interval_days := days interval in
  if decide (IZR interval_days < 2.5)%R then Ok interval
  else
    let '(min_ivl, max_ivl) := _get_fuzz_range interval_days in
    let fuzzed_interval_days :=
      (u * IZR (max_ivl - min_ivl + 1) + IZR min_ivl)%R in
    let fuzzed_interval_days :=
      Z.min (Py.round fuzzed_interval_days) (maximum_interval self) in
    timedelta_days fuzzed_interval_days.

Definition set_memory (card : Card) (s d : float) : Card :=
  mkCard (card_id card) (state card) (step card) (Some s) (Some d)
    (due card) (last_review card).

Definition set_state_step (card : Card) (st : State) (sp : option Z) : Card :=
  mkCard (card_id card) st sp (stability card) (difficulty card)
    (due card) (last_review card).

(** The update of stability and difficulty shared by the short-term
    branches of the three states. *)
Definition short_term_update (card : Card) (rating : Rating) : result Card :=
  s ← _short_term_stability (stability card) rating;
  d ← _next_difficulty (difficulty card) rating;
  Ok (set_memory card s d).

(** The long-term branch as the Learning and Review cases write it. *)
Definition long_term_update (card : Card) (rating : Rating)
    (review_datetime : datetime) (clock : Z) : result Card :=
  r ← get_card_retrievability card (Some review_datetime) clock;
  s ← _next_stability (difficulty card) (stability card) r rating;
  d ← _next_difficulty (difficulty card) rating;
  Ok (set_memory card s d).

(** Leaving the steps: the card enters Review for [_next_interval] days. *)
Definition graduate (card : Card) : result (Card * timedelta) :=
  let card := set_state_step card Review None in
  s ← need (stability card);
  next_interval_days ← _next_interval s;
  next_interval ← timedelta_days next_interval_days;
  Ok (card, next_interval).

(** The interval computation of a card on its steps (lines 453-504 for
    Learning, 579-630 for Relearning). *)
Definition steps_interval (steps : list timedelta) (card : Card)
    (rating : Rating) : result (Card * timedelta) :=
  past_steps ←
    (if decide (len steps = 0) then Ok true
     else sp ← need (step card);
          Ok (bool_decide (len steps ≤ sp) && recalled rating));
  if past_steps : bool then graduate card
  else
    match rating with
    | Again =>
        let card := set_state_step card (state card) (Some 0) in
        next_interval ← getitem steps 0;
        Ok (card, next_interval)
    | Hard =>
        if bool_decide (step card = Some 0) && bool_decide (len steps = 1)
        then
          s0 ← getitem steps 0;
          next_interval ← timedelta_mul_1_5 s0;
          Ok (card, next_interval)
        else if bool_decide (step card = Some 0) && bool_decide (2 ≤ len steps)
        then
          s0 ← getitem steps 0;
          s1 ← getitem steps 1;
          sum ← timedelta_add s0 s1;
          next_interval ← timedelta_div_2 sum;
          Ok (card, next_interval)
        else
          sp ← need (step card);
          next_interval ← getitem steps sp;
          Ok (card, next_interval)
    | Good =>
        sp ← need (step card);
        if decide (sp + 1 = len steps) then graduate card
        else
          let card := set_state_step card (state card) (Some (sp + 1)) in
          next_interval ← getitem steps (sp + 1);
          Ok (card, next_interval)
    | Easy => graduate card
    end.

(** [case State.Learning]. *)
Definition review_Learning (card : Card) (rating : Rating)
    (review_datetime : datetime) (days_since_last_review : option Z)
    (clock : Z) : result (Card * timedelta) :=
  card ←
    (if bool_decide (stability card = None)
        && bool_decide (difficulty card = None)
     then
       s ← _initial_stability rating;
       d ← _initial_difficulty rating;
       Ok (set_memory card s d)
     else if same_day days_since_last_review
     then short_term_update card rating
     else long_term_update card rating review_datetime clock);
  steps_interval (learning_steps self) card rating.

(** [case State.Review]. *)
Definition review_Review (card : Card) (rating : Rating)
    (review_datetime : datetime) (days_since_last_review : option Z)
    (clock : Z) : result (Card * timedelta) :=
  card ←
    (if same_day days_since_last_review
     then short_term_update card rating
     else long_term_update card rating review_datetime clock);
  match rating with
  | Again =>
      if decide (len (relearning_steps self) = 0) then
        s ← need (stability card);
        next_interval_days ← _next_interval s;
        next_interval ← timedelta_days next_interval_days;
        Ok (card, next_interval)
      else
        let card := set_state_step card Relearning (Some 0) in
        next_interval ← getitem (relearning_steps self) 0;
        Ok (card, next_interval)
  | Hard | Good | Easy =>
      s ← need (stability card);
      next_interval_days ← _next_interval s;
      next_interval ← timedelta_days next_interval_days;
      Ok (card, next_interval)
  end.

(** [case State.Relearning]: the long-term branch ends in the attribute
    that [Card] does not have. *)
Definition review_Relearning (card : Card) (rating : Rating)
    (review_datetime : datetime) (days_since_last_review : option Z)
    (clock : Z) : result (Card * timedelta) :=
  card ←
    (if same_day days_since_last_review
     then short_term_update card rating
     else Raise AttributeError);
  steps_interval (relearning_steps self) card rating.

(** [Scheduler.review_card]. *)
Definition review_card (card : Card) (rating : Rating)
    (review_datetime : option datetime) (review_duration : option Z)
    (clock : Z) (u : R) : result (Card * ReviewLog) :=
  match review_datetime with
  | Some d =>
      if bool_decide (tzinfo d = None)
         || bool_decide (tzinfo d ≠ Some timezone_utc)
      then Raise ValueError else Ok ()
  | None => Ok ()
  end;;
  let review_datetime :=
    match review_datetime with
    | None => now_utc clock
    | Some d => d
    end in
  days_since_last_review ←
    match last_review card with
    | Some last =>
        delta ← datetime_sub review_datetime last; Ok (Some (days delta))
    | None => Ok None
    end;
  '(card, next_interval) ←
    match state card with
    | Learning =>
        review_Learning card rating review_datetime days_since_last_review clock
    | Review =>
        review_Review card rating review_datetime days_since_last_review clock
    | Relearning =>
        review_Relearning card rating review_datetime days_since_last_review
          clock
    end;
  next_interval ←
    (if enable_fuzzing self && bool_decide (state card = Review)
     then _get_fuzzed_interval next_interval u
     else Ok next_interval);
  due ← datetime_add review_datetime next_interval;
  let card :=
    mkCard (card_id card) (state card) (step card) (stability card)
      (difficulty card) due (Some review_datetime) in
  let review_log :=
    mkReviewLog (card_id card) rating review_datetime review_duration in
  Ok (card, review_log).

End Kernel.

(** What the invariant of the data model asks of a card, read with the
    comparisons of floats: [1 <= difficulty <= 10] and
    [stability >= 0.001]. *)
Definition memory_clamped (c : Card) : Prop :=
  ∃ s d, stability c = Some s ∧ difficulty c = Some d
         ∧ le (Finite 0.001) s = true
         ∧ le (Finite 1) d = true ∧ le d (Finite 10) = true.

(** What the clamps do give: each of the two numbers is NaN or within
    its bounds. *)
Definition stability_clamped (s : float) : Prop :=
  s = NaN ∨ le (Finite 0.001) s = true.

Definition difficulty_clamped (d : float) : Prop :=
  d = NaN ∨ (le (Finite 1) d = true ∧ le d (Finite 10) = true).

Definition clamped_or_nan (c : Card) : Prop :=
  ∃ s d, stability c = Some s ∧ difficulty c = Some d
         ∧ stability_clamped s ∧ difficulty_clamped d.

(** The scheduler that [Scheduler(enable_fuzzing=fuzz)] builds. *)
Definition default_scheduler (fuzz : bool) : Scheduler :=
  mkScheduler DEFAULT_PARAMETERS (Finite 0.9) default_learning_steps
    default_relearning_steps 36500 fuzz
    (Finite (- (0.2))) (Finite (Rpower 0.9 (1 / - (0.2)) - 1)).

(** A Learning card, last reviewed at [t0], whose stability and
    difficulty are NaN. *)
Definition nan_card : Card :=
  mkCard 1 Learning (Some 0) (Some NaN) (Some NaN) t0 (Some t0).

(** The default parameters with [parameters[8] = 709] and
    [parameters[10] = 0]. *)
Definition overflowing_parameters : list float :=
  <[8%nat := Finite 709]> (<[10%nat := Finite 0]> DEFAULT_PARAMETERS).

(** The scheduler that [Scheduler(parameters=overflowing_parameters)]
    builds. *)
Definition overflowing_scheduler : Scheduler :=
  mkScheduler overflowing_parameters (Finite 0.9) default_learning_steps
    default_relearning_steps 36500 true
    (Finite (- (0.2))) (Finite (Rpower 0.9 (1 / - (0.2)) - 1)).

(** A Learning card on its bounds: stability 0.001 and difficulty 1, last
    reviewed at [t0]. *)
Definition least_card : Card :=
  mkCard 1 Learning (Some 0) (Some (Finite 0.001)) (Some (Finite 1)) t0
    (Some t0).

End Float64.

(** ** Views of [review_card] used by the properties *)

(** The review time that [review_card] works with. *)
Definition review_time (review_datetime : option datetime) (clock : Z)
    : datetime :=
  match review_datetime with
  | None => now_utc clock
  | Some d => d
  end.

(** The [match card.state] of [review_card]. *)
Definition review_state_case (self : Scheduler) (card : Card)
    (rating : Rating) (review_datetime : datetime)
    (days_since_last_review : option Z) (clock : Z)
    : result (Card * timedelta) :=
  match state card with
  | Learning =>
      review_Learning self card rating review_datetime
        days_since_last_review clock
  | Review =>
      review_Review self card rating review_datetime
        days_since_last_review clock
  | Relearning =>
      review_Relearning self card rating review_datetime
        days_since_last_review clock
  end.

(** The days that [review_card] counts since the last review. *)
Definition days_since (card : Card) (rd : datetime) : option Z :=
  match last_review card with
  | Some last =>
      match datetime_sub rd last with
      | Ok delta => Some (days delta)
      | Raise _ => None
      end
  | None => None
  end.

(** The steps tuple that [review_card] consults for a card in state [st]. *)
Definition steps_of (self : Scheduler) (st : State) : list timedelta :=
  match st with
  | Learning => learning_steps self
  | Relearning => relearning_steps self
  | Review => []
  end.

(** The fields that the update of stability and difficulty leaves alone. *)
Definition same_frame (card card' : Card) : Prop :=
  card_id card' = card_id card ∧ state card' = state card
  ∧ step card' = step card.

(** An interval of whole days, as [_next_interval] gives it. *)
Definition day_interval (self : Scheduler) (iv : timedelta) : Prop :=
  ∃ s n, _next_interval self s = Ok n ∧ timedelta_days n = Ok iv.

(** When a card on its steps leaves them: no steps are configured, the
    card is past the last step and was recalled, it was rated Good on the
    last step, or it was rated Easy. *)
Definition leaves_steps (steps : list timedelta) (card : Card)
    (rating : Rating) : Prop :=
  steps = []
  ∨ ∃ sp, step card = Some sp
          ∧ (len steps ≤ sp ∧ rating ≠ Again
             ∨ rating = Good ∧ sp + 1 = len steps
             ∨ rating = Easy).

(** The interval that [Rating.Hard] gives on the step [sp] of [steps],
    in microseconds: one and a half times the only step, the mean of the
    first two steps, or the step itself. *)
Definition hard_interval (steps : list timedelta) (sp : Z) : Z :=
  if decide (sp = 0) then
    match steps with
    | [] => 0
    | [s0] => divide_and_round (total_microseconds s0 * 3) 2
    | s0 :: s1 :: _ =>
        divide_and_round (total_microseconds s0 + total_microseconds s1) 2
    end
  else
    match steps !! Z.to_nat sp with
    | Some s => total_microseconds s
    | None => 0
    end.

(** A scheduler that [review_card] can work with: the 21 parameters are
    there, the decay constants have the signs that a positive
    [parameters[20]] gives them, the retention is positive, the maximum
    interval is at least one day and no step is negative or longer than
    a day. *)
Record usable (self : Scheduler) : Prop := {
  usable_parameters : 21 ≤ len (parameters self);
  usable_DECAY : _DECAY self ≠ 0%R;
  usable_FACTOR : (0 < _FACTOR self)%R;
  usable_retention : (0 < desired_retention self)%R;
  usable_maximum : 1 ≤ maximum_interval self;
  usable_steps :
    ∀ td, td ∈ learning_steps self ++ relearning_steps self →
          0 ≤ total_microseconds td ≤ US_PER_DAY
}.

(** A card as the module builds them: a new Learning card without
    stability and difficulty, or a card with a positive stability and a
    positive difficulty; outside Review it is on a step; its last review,
    if any, is an aware time that a [datetime] can hold. *)
Definition reviewable (card : Card) : Prop :=
  (state card = Learning ∧ stability card = None ∧ difficulty card = None
   ∨ ∃ s d, stability card = Some s ∧ difficulty card = Some d
            ∧ (0 < s)%R ∧ (0 < d)%R)
  ∧ (state card ≠ Review → ∃ sp, step card = Some sp ∧ 0 ≤ sp)
  ∧ (∀ last, last_review card = Some last →
             is_Some (tzinfo last) ∧ valid_datetime last).

(** A review time in UTC that leaves room for the longest interval
    before the year 9999 ends. *)
Definition review_time_in_range (self : Scheduler) (rd : datetime) : Prop :=
  tzinfo rd = Some timezone_utc
  ∧ 0 ≤ wall rd
  ∧ wall rd + (maximum_interval self + 1) * US_PER_DAY
    < MAXORDINAL * US_PER_DAY.

(** The outcome of the interval computation: whole days within the
    maximum interval for a card that is in Review afterwards, a step of
    at most two days otherwise. *)
Definition interval_for (self : Scheduler) (c1 : Card) (iv : timedelta)
    : Prop :=
  if decide (state c1 = Review)
  then ∃ n, 1 ≤ n ≤ maximum_interval self ∧ timedelta_days n = Ok iv
  else 0 ≤ total_microseconds iv ≤ 2 * US_PER_DAY.

(** The memory after the update, and the fields that the update keeps. *)
Definition updated (card cm : Card) : Prop :=
  (∃ s, stability cm = Some s) ∧ state cm = state card
  ∧ step cm = step card.


(** ** Dictionaries of review logs *)

(** [Rating(n)]: an integer that names no member is a [ValueError]. *)
Definition Rating_of (n : Z) : result Rating :=
  if decide (n = 1) then Ok Again
  else if decide (n = 2) then Ok Hard
  else if decide (n = 3) then Ok Good
  else if decide (n = 4) then Ok Easy
  else Raise ValueError.

(** [ReviewLog.to_dict]. *)
Definition ReviewLog_to_dict (self : ReviewLog) : gmap string value :=
  <["card_id" := VInt (log_card_id self)]>
  (<["rating" := VInt (Rating_value (rating self))]>
  (<["review_datetime" := VStr (isoformat (review_datetime self))]>
  (<["review_duration" := of_option VInt (review_duration self)]>
   ∅))).

(** [ReviewLog.__init__] on the objects that [from_dict] reads.  The
    constructor stores its arguments as they are; the record holds an
    [int] for the card id and [None] or an [int] for the duration, so any
    other object is reported as [TypeError]. *)
Definition ReviewLog_init (card_id : value) (rating : Rating)
    (review_datetime : datetime) (review_duration : value)
    : result ReviewLog :=
  card_id ← match card_id with
            | VInt z => Ok z
            | _ => Raise TypeError
            end;
  review_duration ← match review_duration with
                    | VNone => Ok None
                    | VInt z => Ok (Some z)
                    | _ => Raise TypeError
                    end;
  Ok (mkReviewLog card_id rating review_datetime review_duration).

(** [ReviewLog.from_dict]. *)
Definition ReviewLog_from_dict (source_dict : gmap string value)
    : result ReviewLog :=
  card_id ← item source_dict "card_id";
  v ← item source_dict "rating"; n ← int v; rating ← Rating_of n;
  v ← item source_dict "review_datetime";
  review_datetime ← fromisoformat_value v;
  review_duration ← item source_dict "review_duration";
  ReviewLog_init card_id rating review_datetime review_duration.

(** ** Dictionaries of schedulers

    The objects that the annotation of [Scheduler.from_dict] allows in a
    dictionary: [list | float | int | bool]. *)
#[warnings="-register-all"]
Inductive svalue : Type :=
  | SBool (b : bool)
  | SInt (z : Z)
  | SFloat (x : R)
  | SList (l : list svalue).

Definition sitem (d : gmap string svalue) (k : string) : result svalue :=
  match d !! k with
  | Some v => Ok v
  | None => Raise KeyError
  end.

(** Iteration over an object: only a list has it. *)
Definition iter (v : svalue) : result (list svalue) :=
  match v with
  | SList l => Ok l
  | _ => Raise TypeError
  end.

(** [[f(x) for x in l]]. *)
Fixpoint comprehension {A B} (f : A → result B) (l : list A)
    : result (list B) :=
  match l with
  | [] => Ok []
  | x :: l' => y ← f x; ys ← comprehension f l'; Ok (y :: ys)
  end.

(** [timedelta(seconds=v)]: whole seconds for an [int] (a [bool] is one),
    the nearest microsecond for a [float]. *)
Definition timedelta_of_seconds (v : svalue) : result timedelta :=
  match v with
  | SBool b => timedelta_seconds (if b then 1 else 0)
  | SInt z => timedelta_seconds z
  | SFloat x => mk_timedelta (round (x * 1000000))
  | SList _ => Raise TypeError
  end.

(** A number as the arithmetic of the scheduler reads it. *)
Definition number (v : svalue) : result R :=
  match v with
  | SBool b => Ok (if b then 1 else 0)%R
  | SInt z => Ok (IZR z)
  | SFloat x => Ok x
  | SList _ => Raise TypeError
  end.

Definition struthy (v : svalue) : bool :=
  match v with
  | SBool b => b
  | SInt z => negb (z =? 0)
  | SFloat x => negb (bool_decide (x = 0%R))
  | SList l => negb (bool_decide (l = []))
  end.

(** [int(td.total_seconds())]: the seconds of [td], rounded towards
    zero.  [total_seconds()] is a float; its value is exact to the
    microsecond for a [timedelta] of less than [2 ** 53] microseconds
    ([short_timedelta] below), which is what the properties of the
    dictionary ask of the steps. *)
Definition int_total_seconds (td : timedelta) : Z :=
  Z.quot (total_microseconds td) US_PER_SECOND.

(** [Scheduler.to_dict]. *)
Definition Scheduler_to_dict (self : Scheduler) : gmap string svalue :=
  <["parameters" := SList (SFloat <$> parameters self)]>
  (<["desired_retention" := SFloat (desired_retention self)]>
  (<["learning_steps" :=
       SList ((λ td, SInt (int_total_seconds td)) <$> learning_steps self)]>
  (<["relearning_steps" :=
       SList ((λ td, SInt (int_total_seconds td)) <$> relearning_steps self)]>
  (<["maximum_interval" := SInt (maximum_interval self)]>
  (<["enable_fuzzing" := SBool (enable_fuzzing self)]>
   ∅))))).

(** [Scheduler.__init__] on the objects that [from_dict] reads.
    [tuple(parameters)] needs an iterable.  The other arguments are
    stored as they are; the record holds numbers for the parameters and
    the retention, an [int] for the maximum interval and the truth value
    of [enable_fuzzing], which is all that [review_card] asks of it; an
    object that the record cannot hold is reported as [TypeError]. *)
Definition Scheduler_init_values (parameters desired_retention : svalue)
    (learning_steps relearning_steps : list timedelta)
    (maximum_interval enable_fuzzing : svalue) : result Scheduler :=
  l ← iter parameters;
  parameters ← comprehension number l;
  desired_retention ← number desired_retention;
  maximum_interval ← match maximum_interval with
                     | SBool b => Ok (if b then 1 else 0)
                     | SInt z => Ok z
                     | _ => Raise TypeError
                     end;
  Scheduler_init parameters desired_retention learning_steps
    relearning_steps maximum_interval (struthy enable_fuzzing).

(** [Scheduler.from_dict]. *)
Definition Scheduler_from_dict (source_dict : gmap string svalue)
    : result Scheduler :=
  parameters ← sitem source_dict "parameters";
  desired_retention ← sitem source_dict "desired_retention";
  v ← sitem source_dict "learning_steps"; l ← iter v;
  learning_steps ← comprehension timedelta_of_seconds l;
  v ← sitem source_dict "relearning_steps"; l ← iter v;
  relearning_steps ← comprehension timedelta_of_seconds l;
  maximum_interval ← sitem source_dict "maximum_interval";
  enable_fuzzing ← sitem source_dict "enable_fuzzing";
  Scheduler_init_values parameters desired_retention learning_steps
    relearning_steps maximum_interval enable_fuzzing.

(** A [timedelta] that Python can hold. *)
Definition valid_timedelta (td : timedelta) : Prop :=
  Z.abs (days td) ≤ 999999999.

(** A [timedelta] of less than [2 ** 53] microseconds (some 285 years). *)
Definition short_timedelta (td : timedelta) : Prop :=
  Z.abs (total_microseconds td) < 2 ^ 53.

(** [td] without its fraction of a second. *)
Definition whole_seconds (td : timedelta) : timedelta :=
  Timedelta (int_total_seconds td * US_PER_SECOND).


(** ** The optimizer: review logs

    [Optimizer.__init__] and the helpers of the optimizer that are plain
    Python.  The training loop (torch) and the statistics of
    [_compute_probs_and_costs] (pandas) are not modelled. *)

(** [a < b] on [datetime]: two naive values compare as they read, two
    aware values compare as instants, and a naive value does not compare
    with an aware one. *)
Definition datetime_lt (a b : datetime) : result bool :=
  match tzinfo a, tzinfo b with
  | None, None => Ok (bool_decide (wall a < wall b))
  | Some oa, Some ob =>
      Ok (bool_decide (wall a - total_microseconds oa
                       < wall b - total_microseconds ob))
  | _, _ => Raise TypeError
  end.

(** [sorted(l, key=...)] for a comparison [lt] that can raise.  Python's
    sort is stable and asks for [<] only; here it is written as an
    insertion sort.  The order of the comparisons differs from Python's,
    the outcome does not: [datetime_lt] is a total preorder on values that
    compare, and a sort that returns has compared every element with
    another one, so both raise exactly when the list mixes values that do
    not compare. *)
Fixpoint insort {A} (lt : A → A → result bool) (x : A) (l : list A)
    : result (list A) :=
  match l with
  | [] => Ok [x]
  | y :: l' =>
      b ← lt y x;
      if b : bool then l'' ← insort lt x l'; Ok (y :: l'')
      else Ok (x :: y :: l')
  end.

Fixpoint sorted {A} (lt : A → A → result bool) (l : list A)
    : result (list A) :=
  match l with
  | [] => Ok []
  | x :: l' => s ← sorted lt l'; insort lt x s
  end.

(** One entry of a card's history:
    [[[review_datetime, rating, review_duration], recall]]. *)
Definition datum : Type := (datetime * Rating * option Z) * Z.

(** [x[0][0]], the key of the sort. *)
Definition datum_key (x : datum) : datetime := x.1.1.1.

(** A [dict] with [int] keys, in insertion order. *)
Definition dict (V : Type) : Type := list (Z * V).

Fixpoint dict_getitem {V} (d : dict V) (k : Z) : result V :=
  match d with
  | [] => Raise KeyError
  | (k', v) :: d' => if decide (k' = k) then Ok v else dict_getitem d' k
  end.

(** [k in d]. *)
Definition dict_contains {V} (d : dict V) (k : Z) : bool :=
  bool_decide (k ∈ d.*1).

(** [d[k] = v]: a new key goes to the end. *)
Fixpoint dict_setitem {V} (d : dict V) (k : Z) (v : V) : dict V :=
  match d with
  | [] => [(k, v)]
  | (k', v') :: d' =>
      if decide (k' = k) then (k, v) :: d' else (k', v') :: dict_setitem d' k v
  end.

(** A [for] loop whose body can raise. *)
Fixpoint for_each {S A} (body : S → A → result S) (s : S) (l : list A)
    : result S :=
  match l with
  | [] => Ok s
  | x :: l' => s' ← body s x; for_each body s' l'
  end.

(** The datum that [_format_revlogs] makes of a review log. *)
Definition datum_of (review_log : ReviewLog) : datum :=
  let rating := rating review_log in
  let recall := if decide (rating = Again) then 0 else 1 in
  ((review_datetime review_log, rating, review_duration review_log), recall).

(** The body of the loop of [_format_revlogs]. *)
Definition format_revlog (revlogs_train : dict (list datum))
    (review_log : ReviewLog) : result (dict (list datum)) :=
  let card_id := log_card_id review_log in
  let datum := datum_of review_log in
  let revlogs_train :=
    if dict_contains revlogs_train card_id then revlogs_train
    else dict_setitem revlogs_train card_id [] in
  history ← dict_getitem revlogs_train card_id;
  history ← sorted (λ x y, datetime_lt (datum_key x) (datum_key y))
              (history ++ [datum]);
  Ok (dict_setitem revlogs_train card_id history).

(** [_format_revlogs].  The last line sorts the items of the dictionary,
    pairs of a card id and a history; the card ids are distinct, so the
    comparison of two items is the comparison of their card ids. *)
Definition _format_revlogs (review_logs : list ReviewLog)
    : result (dict (list datum)) :=
  revlogs_train ← for_each format_revlog [] review_logs;
  sorted (λ x y : Z * list datum, Ok (bool_decide (x.1 < y.1)))
    revlogs_train.

(** [_validate_review_logs] of [compute_optimal_retention]. *)
Definition _validate_review_logs (review_logs : list ReviewLog)
    : result unit :=
  (if decide (len review_logs < 512) then Raise ValueError else Ok ());;
  for_each (λ _ review_log,
              if decide (review_duration review_log = None)
              then Raise ValueError else Ok ())
    () review_logs.

(** Whether a [datetime] carries a time zone. *)
Definition aware (d : datetime) : bool :=
  match tzinfo d with
  | Some _ => true
  | None => false
  end.

(** The reading of the UTC clock at [d]; for a naive value, the reading
    as it stands. *)
Definition instant (d : datetime) : Z :=
  wall d - match tzinfo d with
           | Some offset => total_microseconds offset
           | None => 0
           end.

(** The review logs of the card [c]. *)
Definition card_logs (c : Z) (review_logs : list ReviewLog)
    : list ReviewLog :=
  filter (λ l, log_card_id l = c) review_logs.

(** The review times of every card compare: no card has both naive and
    aware review times. *)
Definition comparable (review_logs : list ReviewLog) : Prop :=
  ∀ l1 l2, l1 ∈ review_logs → l2 ∈ review_logs →
           log_card_id l1 = log_card_id l2 →
           aware (review_datetime l1) = aware (review_datetime l2).

(** A history in the order of its review times. *)
Definition in_review_order (history : list datum) : Prop :=
  Sorted (λ x y, instant (datum_key x) ≤ instant (datum_key y)) history.

(** The lists whose elements are all of one class, and the order of the
    keys. *)
Definition one_class {A C} (cls : A → C) (l : list A) : Prop :=
  ∀ x y, x ∈ l → y ∈ l → cls x = cls y.

Definition key_le {A} (key : A → Z) (x y : A) : Prop := key x ≤ key y.

(** The comparison that [_format_revlogs] sorts a history with. *)
Definition datum_lt (x y : datum) : result bool :=
  datetime_lt (datum_key x) (datum_key y).

(** What the loop of [_format_revlogs] has built after the review logs
    [logs]. *)
Definition formatted (logs : list ReviewLog) (d : dict (list datum)) : Prop :=
  NoDup d.*1
  ∧ comparable logs
  ∧ (∀ c, c ∈ d.*1 ↔ ∃ l, l ∈ logs ∧ log_card_id l = c)
  ∧ (∀ c h, (c, h) ∈ d →
            h ≡ₚ datum_of <$> card_logs c logs ∧ in_review_order h).

(** ** The optimizer: counting the reviews

    [_num_reviews] of [compute_optimal_parameters] replays every history
    with [Scheduler()], whose fuzzing is on: [rand k] is the value that
    [random()] returns if the [k]-th call of [review_card] asks for it. *)

Definition max_seq_len : nat := 64.

(** [x[0][1]]. *)
Definition datum_rating (x : datum) : Rating := x.1.1.2.

(** One turn of the inner loop of [_num_reviews], after the card has
    been made. *)
Definition num_reviews_review (scheduler : Scheduler) (rand : nat → R)
    (st : Z * Card * nat) (review : datum) : result (Z * Card * nat) :=
  let '(num_reviews, card, calls) := st in
  let review_datetime := datum_key review in
  let rating := datum_rating review in
  later ← match last_review card with
          | Some last =>
              delta ← datetime_sub review_datetime last;
              Ok (bool_decide (0 < days delta))
          | None => Ok false
          end;
  let num_reviews := if later : bool then num_reviews + 1 else num_reviews in
  '(card, _) ← review_card scheduler card rating (Some review_datetime)
                 None 0 (rand calls);
  Ok (num_reviews, card, S calls).

(** The body of the outer loop of [_num_reviews]: one card.  The
    assignment [card = Card(card_id=card_id, due=review_datetime)] under
    [if i == 0] runs once, before the first review is looked at; it is
    written before the inner loop. *)
Definition num_reviews_card (scheduler : Scheduler) (rand : nat → R)
    (st : Z * nat) (item : Z * list datum) : result (Z * nat) :=
  let '(num_reviews, calls) := st in
  let '(card_id, history) := item in
  let card_review_history := take max_seq_len history in
  match card_review_history with
  | [] => Ok (num_reviews, calls)
  | first :: _ =>
      let card :=
        Card_init 0 0 (Some card_id) Learning None None None
          (Some (datum_key first)) None in
      '(num_reviews, _, calls) ←
        for_each (num_reviews_review scheduler rand)
          (num_reviews, card, calls) card_review_history;
      Ok (num_reviews, calls)
  end.

(** [_num_reviews]. *)
Definition _num_reviews (revlogs_train : dict (list datum))
    (rand : nat → R) : result Z :=
  scheduler ← Scheduler_default true;
  '(num_reviews, _) ←
    for_each (num_reviews_card scheduler rand) (0, 0%nat) revlogs_train;
  Ok num_reviews.

(** The reviews of [history] that come a whole day or more after the
    review before them; [prev] is the time of the review before the
    first one. *)
Fixpoint later_day_reviews (prev : option datetime) (history : list datum)
    : Z :=
  match history with
  | [] => 0
  | x :: history' =>
      (match prev with
       | Some p =>
           if decide (US_PER_DAY ≤ instant (datum_key x) - instant p)
           then 1 else 0
       | None => 0
       end)
      + later_day_reviews (Some (datum_key x)) history'
  end.


(** Review logs for the scenarios: two cards, given out of order; one
    card reviewed once; one card rated Easy, then Again on the same day,
    then Good a day later. *)
Definition two_card_logs : list ReviewLog :=
  [ mkReviewLog 2 Good t0_plus_1_day None;
    mkReviewLog 1 Easy t0 (Some 1000);
    mkReviewLog 2 Again t0 None ].


Definition lapse_history : dict (list datum) :=
  [(1, [ datum_of (mkReviewLog 1 Easy t0 None);
         datum_of (mkReviewLog 1 Again t0 None);
         datum_of (mkReviewLog 1 Good t0_plus_1_day None) ])].

(** * Properties *)

(** ** Reasoning about results *)

Lemma bind_Ok {A B} (m : result A) (k : A → result B) (b : B) :
  (m ≫= k) = Ok b → ∃ a, m = Ok a ∧ k a = Ok b.
Proof. destruct m as [a|e]; simpl; [eauto | discriminate]. Qed.

Lemma need_Ok {A} (o : option A) (a : A) : need o = Ok a → o = Some a.
Proof. destruct o; simpl; congruence. Qed.

(** Takes apart a hypothesis that says a sequence of calls returned. *)
Ltac returned H :=
  repeat first
    [ discriminate H
    | match type of H with
      | (_ ≫= _) = Ok _ =>
          let a := fresh "a" in
          let E := fresh "E" in
          apply bind_Ok in H; destruct H as (a & E & H)
      | (let '(_, _) := ?p in _) = Ok _ => destruct p
      end ].

Lemma truediv_Ok (x y : R) : y ≠ 0%R → truediv x y = Ok (x / y)%R.
Proof. intros Hy. unfold truediv. by rewrite decide_False. Qed.

Lemma float_pow_pos (x y : R) : (0 < x)%R → float_pow x y = Ok (Rpower x y).
Proof. intros Hx. unfold float_pow. by rewrite decide_True. Qed.

Lemma round_near (x : R) (z : Z) :
  (IZR z - 1 / 2 < x < IZR z + 1 / 2)%R → round x = z.
Proof.
  intros [Hlo Hhi]. unfold round.
  destruct (Zfloor_bound x) as [Hf1 Hf2].
  destruct (Z.lt_trichotomy (Zfloor x) (z - 1)) as [Hlt|[Heq|Hgt]].
  - assert (Zfloor x + 1 ≤ z - 1) as Hle by lia.
    apply IZR_le in Hle. rewrite plus_IZR, minus_IZR in Hle. lra.
  - rewrite Heq in *. rewrite minus_IZR in *.
    rewrite decide_False by lra. rewrite decide_True by lra. lia.
  - destruct (Z.eq_dec (Zfloor x) z) as [Heq|Hne].
    + rewrite Heq in *. by rewrite decide_True by lra.
    + assert (z + 1 ≤ Zfloor x) as Hle by lia.
      apply IZR_le in Hle. rewrite plus_IZR in Hle. lra.
Qed.

Lemma round_IZR (z : Z) : round (IZR z) = z.
Proof. apply round_near. lra. Qed.

(** ** Construction of cards *)

(** C10.  [Card.__init__] replaces a missing step by 0 exactly when the
    state is Learning: in any other state the step is stored as given.
    A card constructed in the Relearning state without a step therefore
    keeps [step = None], and the rule "a step is present iff the state is
    Learning or Relearning" does not hold for it. *)
Theorem Card_init_step_only_Learning :
  (∀ clock_id clock_due card_id stability difficulty due last_review,
     step (Card_init clock_id clock_due card_id Learning None
             stability difficulty due last_review) = Some 0)
  ∧ (∀ clock_id clock_due card_id st sp stability difficulty due last_review,
       st ≠ Learning →
       step (Card_init clock_id clock_due card_id st sp
               stability difficulty due last_review) = sp)
  ∧ (∀ clock_id clock_due card_id stability difficulty due last_review,
       let c := Card_init clock_id clock_due card_id Relearning None
                  stability difficulty due last_review in
       state c = Relearning ∧ step c = None
       ∧ ¬ (is_Some (step c) ↔ state c = Learning ∨ state c = Relearning)).
Proof.
  split; [|split].
  - reflexivity.
  - intros ???? sp ???? Hst. unfold Card_init. simpl.
    by rewrite (bool_decide_eq_false_2 _ Hst).
  - intros. subst c. simpl. repeat split.
    intros [_ H]. destruct H as [? ?]; [by right | discriminate].
Qed.

(** ** Rejected review times *)

(** C9.  A review time that is given but is not tagged with
    [timezone.utc] (naive, or with another offset) makes [review_card]
    raise [ValueError], whatever the card and the rating.  The exception
    is raised before the card is copied: the result carries no card and
    no review log, and the argument is not touched. *)
Theorem review_card_rejects_non_utc (self : Scheduler) (card : Card)
    (rating : Rating) (d : datetime) (review_duration : option Z)
    (clock : Z) (u : R) :
  tzinfo d ≠ Some timezone_utc →
  review_card self card rating (Some d) review_duration clock u
  = Raise ValueError.
Proof.
  intros Htz. unfold review_card.
  rewrite (bool_decide_eq_true_2 (tzinfo d ≠ Some timezone_utc) Htz).
  by rewrite orb_true_r.
Qed.

Lemma review_card_rejects_non_utc_witness :
  review_card (default_scheduler true) new_card Good
    (Some (Datetime 63805321800000000 None)) None 0 0%R
  = Raise ValueError.
Proof. apply review_card_rejects_non_utc. discriminate. Defined.

(** ** The Relearning branch *)

(** Every Relearning card reviewed a whole day or more after its last
    review ends in the missing attribute. *)
Lemma review_Relearning_long_term (self : Scheduler) (card : Card)
    (rating : Rating) (d : datetime) (n : Z) (clock : Z) :
  1 ≤ n → review_Relearning self card rating d (Some n) clock
          = Raise AttributeError.
Proof.
  intros Hn. unfold review_Relearning, same_day.
  by rewrite bool_decide_eq_false_2 by lia.
Qed.

(** The same through [review_card]: any scheduler, any rating. *)
Lemma review_card_Relearning_long_term (self : Scheduler) (card : Card)
    (rating : Rating) (d last : datetime) (delta : timedelta)
    (review_duration : option Z) (clock : Z) (u : R) :
  state card = Relearning →
  tzinfo d = Some timezone_utc →
  last_review card = Some last →
  datetime_sub d last = Ok delta →
  1 ≤ days delta →
  review_card self card rating (Some d) review_duration clock u
  = Raise AttributeError.
Proof.
  intros Hst Htz Hlast Hsub Hdays. unfold review_card.
  rewrite Htz, Hlast, Hsub, Hst. cbn [mbind result_bind].
  rewrite bool_decide_eq_false_2 by done.
  rewrite bool_decide_eq_false_2 by (intros H; by apply H).
  cbn [orb mbind result_bind].
  by rewrite review_Relearning_long_term.
Qed.

(** C1.  The claim expects a Relearning card reviewed one day after its
    last review to be updated by the long-term formulas and returned.
    The code raises [AttributeError] instead: the branch calls
    [card.get_retrievability], which [Card] does not define. *)
Theorem review_card_Relearning_next_day_raises :
  review_card (default_scheduler true) relearning_card Good
    (Some t0_plus_1_day) None 0 0%R
  = Raise AttributeError.
Proof. reflexivity. Qed.

(** ** Scenario: the first review of a new card *)

Lemma first_review_Good (fuzz : bool) (clock_id clock_due : Z)
    (review_duration : option Z) (clock : Z) (u : R) :
  let card := Card_new clock_id clock_due in
  review_card (default_scheduler fuzz) card Good (Some t0)
    review_duration clock u
  = Ok (first_review_card (card_id card),
        mkReviewLog (card_id card) Good t0 review_duration).
Proof. destruct fuzz; reflexivity. Qed.

(** ** State and step after a review *)

Section StateStep.

Variable self : Scheduler.

Lemma graduate_invariant card card' iv :
  graduate self card = Ok (card', iv) → step_invariant card'.
Proof.
  unfold graduate. intros H. returned H. by injection H as <- _.
Qed.

Lemma steps_interval_invariant steps card rating card' iv :
  state card ≠ Review →
  steps_interval self steps card rating = Ok (card', iv) →
  step_invariant card'.
Proof.
  intros Hst. unfold steps_interval. intros H. returned H.
  destruct a; [by eapply graduate_invariant|].
  assert (∀ sp, step card = Some sp → step_invariant card) as Hkeep.
  { intros sp Hsp. unfold step_invariant. rewrite Hsp. by split. }
  destruct rating.
  - returned H. injection H as <- _. by split.
  - destruct (decide (len steps = 0)) as [?|?]; [discriminate|].
    returned E. apply need_Ok in E0.
    repeat case_match; returned H; injection H as <- _; by eapply Hkeep.
  - returned H. apply need_Ok in E0.
    destruct (decide (_ + 1 = _)); [by eapply graduate_invariant|].
    returned H. injection H as <- _. by split.
  - by eapply graduate_invariant.
Qed.

Lemma short_term_update_state card rating card' :
  short_term_update self card rating = Ok card' →
  state card' = state card ∧ step card' = step card.
Proof.
  unfold short_term_update. intros H. returned H. by injection H as <-.
Qed.

Lemma long_term_update_state card rating d clock card' :
  long_term_update self card rating d clock = Ok card' →
  state card' = state card ∧ step card' = step card.
Proof.
  unfold long_term_update. intros H. returned H. by injection H as <-.
Qed.

Lemma review_Learning_invariant card rating d n clock card' iv :
  state card = Learning →
  review_Learning self card rating d n clock = Ok (card', iv) →
  step_invariant card'.
Proof.
  intros Hst. unfold review_Learning. intros H. returned H.
  eapply steps_interval_invariant; [|done].
  destruct (_ && _); [|destruct (same_day n)].
  - returned E. injection E as <-. simpl. by rewrite Hst.
  - apply short_term_update_state in E as [-> _]. by rewrite Hst.
  - apply long_term_update_state in E as [-> _]. by rewrite Hst.
Qed.

Lemma review_Relearning_invariant card rating d n clock card' iv :
  state card = Relearning →
  review_Relearning self card rating d n clock = Ok (card', iv) →
  step_invariant card'.
Proof.
  intros Hst. unfold review_Relearning. intros H. returned H.
  eapply steps_interval_invariant; [|done].
  destruct (same_day n); [|discriminate].
  apply short_term_update_state in E as [-> _]. by rewrite Hst.
Qed.

Lemma review_Review_invariant card rating d n clock card' iv :
  step_invariant card →
  review_Review self card rating d n clock = Ok (card', iv) →
  step_invariant card'.
Proof.
  intros Hinv. unfold review_Review. intros H. returned H.
  assert (step_invariant a) as Ha.
  { unfold step_invariant in *.
    destruct (same_day n);
      [apply short_term_update_state in E as [-> ->]
      | apply long_term_update_state in E as [-> ->]]; done. }
  destruct rating; [destruct (decide _)|..];
    returned H; injection H as <- _; done.
Qed.

End StateStep.

(** C3.  If the card given to [review_card] satisfies "state = Review iff
    step is None", then so does the card that [review_card] returns, for
    every rating. *)
Theorem review_card_step_invariant (self : Scheduler) (card : Card)
    (rating : Rating) (review_datetime : option datetime)
    (review_duration : option Z) (clock : Z) (u : R)
    (card' : Card) (log : ReviewLog) :
  step_invariant card →
  review_card self card rating review_datetime review_duration clock u
  = Ok (card', log) →
  state card' = Review ↔ step card' = None.
Proof.
  intros Hinv. unfold review_card. intros H. returned H.
  injection H as <- _. simpl.
  change (step_invariant c).
  destruct (state card) eqn:Hst;
    eauto using review_Learning_invariant, review_Review_invariant,
      review_Relearning_invariant.
Qed.

Lemma review_card_step_invariant_witness :
  state (first_review_card (card_id new_card)) = Review
  ↔ step (first_review_card (card_id new_card)) = None.
Proof.
  apply (review_card_step_invariant (default_scheduler false) new_card
           Good (Some t0) None 0 0%R
           (first_review_card (card_id new_card))
           (mkReviewLog (card_id new_card) Good t0 None)).
  - by split.
  - apply first_review_Good.
Defined.

(** ** The default scheduler and its intervals *)

Lemma default_FACTOR_pos : (0 < Rpower 0.9 (1 / - (0.2)) - 1)%R.
Proof.
  unfold Rpower.
  assert (ln 0.9 < 0)%R as Hln.
  { rewrite <- ln_1. apply ln_increasing; lra. }
  assert (0 < 1 / - (0.2) * ln 0.9)%R as Hpos.
  { unfold Rdiv. rewrite Rinv_opp. lra. }
  apply exp_increasing in Hpos. rewrite exp_0 in Hpos. lra.
Qed.

(** One step of a sequence whose first call has returned, with the
    fields of the default scheduler read off; literals are left as they
    are written. *)
Ltac step_Ok :=
  cbn [mbind result_bind default_scheduler parameters desired_retention
       learning_steps relearning_steps maximum_interval enable_fuzzing
       _DECAY _FACTOR].

Lemma Scheduler_default_Ok (fuzz : bool) :
  Scheduler_default fuzz = Ok (default_scheduler fuzz).
Proof.
  unfold Scheduler_default, Scheduler_init.
  change (getitem DEFAULT_PARAMETERS 20) with (Ok 0.2%R). step_Ok.
  rewrite truediv_Ok by lra. step_Ok.
  rewrite float_pow_pos by lra. reflexivity.
Qed.

(** C6.  The scheduler built with the default parameters (and so with
    [desired_retention = 0.9] and [maximum_interval = 36500]) computes,
    for stability 250, an interval of exactly 250 days. *)
Theorem next_interval_250 (fuzz : bool) :
  (self ← Scheduler_default fuzz; _next_interval self 250%R) = Ok 250.
Proof.
  rewrite Scheduler_default_Ok. step_Ok.
  pose proof default_FACTOR_pos as HF.
  unfold _next_interval. step_Ok.
  rewrite truediv_Ok by lra. step_Ok.
  rewrite truediv_Ok by lra. step_Ok.
  rewrite float_pow_pos by lra. step_Ok.
  replace (250 / (Rpower 0.9 (1 / - (0.2)) - 1)
           * (Rpower 0.9 (1 / - (0.2)) - 1))%R with (IZR 250)
    by (field; lra).
  by rewrite round_IZR.
Qed.

(** ** The fuzz *)

(** Decides [Rmin] and [Rmax] of explicit numbers. *)
Ltac eval_minmax :=
  repeat first
    [ rewrite Rmin_left by lra | rewrite Rmin_right by lra
    | rewrite Rmax_left by lra | rewrite Rmax_right by lra ].

Lemma fuzz_delta_10 : fuzz_delta 10 = 1.975%R.
Proof.
  unfold fuzz_delta, FUZZ_RANGES.
  cbn [fold_left fuzz_start fuzz_end fuzz_factor].
  eval_minmax. lra.
Qed.

Lemma round_floor_bounds (x : R) : Zfloor x ≤ round x ≤ Zfloor x + 1.
Proof. unfold round. repeat case_match; lia. Qed.

Lemma round_lower (n : Z) (x : R) : (IZR n <= x)%R → n ≤ round x.
Proof.
  intros H. apply Zfloor_lub in H. pose proof (round_floor_bounds x). lia.
Qed.

Lemma round_upper (n : Z) (x : R) : (x < IZR n)%R → round x ≤ n.
Proof.
  intros H. pose proof (round_floor_bounds x) as Hb.
  destruct (Zfloor_bound x) as [Hf _].
  assert (Zfloor x < n); [|lia].
  apply lt_IZR. lra.
Qed.

Lemma days_timedelta_days (d : Z) (td : timedelta) :
  timedelta_days d = Ok td → days td = d.
Proof.
  unfold timedelta_days, mk_timedelta. destruct (decide _); [|done].
  intros [= <-]. unfold days. cbn [total_microseconds].
  apply Z.div_mul. done.
Qed.

(** What the fuzz does guarantee: the fuzzed interval is at least
    [min_ivl] and at most [max_ivl + 1], and never above
    [maximum_interval]. *)
Lemma fuzzed_interval_range (self : Scheduler) (interval : timedelta)
    (u : R) (fuzzed : timedelta) :
  (2.5 <= IZR (days interval))%R → (0 <= u < 1)%R →
  _get_fuzzed_interval self interval u = Ok fuzzed →
  let '(min_ivl, max_ivl) := _get_fuzz_range self (days interval) in
  min_ivl ≤ days fuzzed ≤ Z.min (max_ivl + 1) (maximum_interval self).
Proof.
  intros Hd Hu. unfold _get_fuzzed_interval.
  rewrite decide_False by lra.
  destruct (_get_fuzz_range self (days interval)) as [mn mx] eqn:E.
  intros H. apply days_timedelta_days in H. rewrite H.
  assert (mn ≤ mx ∧ mx ≤ maximum_interval self) as [Hmn Hmx].
  { unfold _get_fuzz_range in E. injection E as <- <-. lia. }
  set (x := (u * IZR (mx - mn + 1) + IZR mn)%R).
  assert (0 <= IZR (mx - mn + 1))%R as Hk by (apply IZR_le; lia).
  assert (IZR mn <= x)%R as Hlo by (unfold x; nra).
  assert (x < IZR (mx + 1))%R as Hhi.
  { unfold x. rewrite !plus_IZR, minus_IZR in *.
    apply IZR_le in Hmn. nra. }
  apply round_lower in Hlo. apply round_upper in Hhi. lia.
Qed.

(** C4.  The claim bounds the fuzzed interval by
    [min(maximum_interval, round(d + delta))].  For an interval of 10 days
    under the default scheduler, [delta] is 1.975 and that bound is 12;
    with the draw [u = 0.95] the code returns 13 days: it rounds
    [u * (max_ivl - min_ivl + 1) + min_ivl = 12.75] to the nearest
    integer, where its own comment promises a value between [min_ivl] and
    [max_ivl]. *)
Theorem fuzzed_interval_above_range :
  let self := default_scheduler true in
  (2.5 <= IZR 10)%R ∧ (0 <= 0.95 < 1)%R
  ∧ Z.min (maximum_interval self) (round (IZR 10 + fuzz_delta 10)) = 12
  ∧ _get_fuzzed_interval self (Timedelta (10 * US_PER_DAY)) 0.95
    = Ok (Timedelta (13 * US_PER_DAY)).
Proof.
  intros self.
  assert (round (IZR 10 + fuzz_delta 10) = 12) as Hmax.
  { rewrite fuzz_delta_10. apply round_near. lra. }
  assert (round (IZR 10 - fuzz_delta 10) = 8) as Hmin.
  { rewrite fuzz_delta_10. apply round_near. lra. }
  split; [lra|]. split; [lra|]. split.
  - by rewrite Hmax.
  - unfold _get_fuzzed_interval.
    change (days (Timedelta (10 * US_PER_DAY))) with 10.
    rewrite decide_False by lra.
    unfold _get_fuzz_range. rewrite Hmax, Hmin.
    change (maximum_interval self) with 36500.
    change (Z.min (Z.max 2 8) (Z.min 12 36500)) with 8.
    change (Z.min 12 36500) with 12.
    replace (round (0.95 * IZR (12 - 8 + 1) + IZR 8)) with 13.
    + reflexivity.
    + symmetry. apply round_near. change (12 - 8 + 1) with 5. lra.
Qed.

(** ** Bounds on the exponential

    [exp x] is enclosed by squaring [1 + y <= exp y <= 1 / (1 - y)]
    repeatedly, in fixed-point arithmetic rounded outwards: [m] stands
    for [m / SCALE]. *)

Lemma exp_double (x : R) : exp (2 * x) = (exp x * exp x)%R.
Proof. rewrite <- exp_plus. f_equal. lra. Qed.

Lemma div_square_le (f a s e : R) :
  (0 < s → 0 <= a → f * s <= a * a → a / s <= e → f / s <= e * e)%R.
Proof.
  intros Hs Ha Hf He.
  assert (0 < / s)%R as Hi by (by apply Rinv_0_lt_compat).
  assert (0 <= a / s)%R as Hq by (unfold Rdiv; nra).
  apply Rle_trans with (a / s * (a / s))%R; [|nra].
  replace (a / s * (a / s))%R with (a * a * / s / s)%R by (unfold Rdiv; ring).
  replace f with (f * s * / s)%R by (field; lra).
  unfold Rdiv. apply Rmult_le_compat_r; [lra|].
  apply Rmult_le_compat_r; lra.
Qed.

Lemma div_square_ge (f a s e : R) :
  (0 < s → 0 < e → a * a <= f * s → e <= a / s → e * e <= f / s)%R.
Proof.
  intros Hs He0 Hf He.
  assert (0 < / s)%R as Hi by (by apply Rinv_0_lt_compat).
  apply Rle_trans with (a / s * (a / s))%R; [nra|].
  replace (a / s * (a / s))%R with (a * a * / s / s)%R by (unfold Rdiv; ring).
  replace f with (f * s * / s)%R by (field; lra).
  unfold Rdiv. apply Rmult_le_compat_r; [lra|].
  apply Rmult_le_compat_r; lra.
Qed.

Lemma square_down_exp (n : nat) : ∀ (m : Z) (x : R),
  0 ≤ m → (IZR m / IZR SCALE <= exp x)%R →
  (IZR (square_down n m) / IZR SCALE <= exp (2 ^ n * x))%R.
Proof.
  assert (0 < IZR SCALE)%R as HS by (apply IZR_lt; reflexivity).
  induction n as [|n IH]; intros m x Hm Hx; simpl.
  - by rewrite Rmult_1_l.
  - replace (2 * 2 ^ n * x)%R with (2 ^ n * (2 * x))%R by lra.
    apply IH; [apply Z.div_pos; [nia | reflexivity]|].
    rewrite exp_double.
    apply div_square_le with (IZR m); [done | by apply IZR_le | | done].
    rewrite <- !mult_IZR. apply IZR_le.
    rewrite Z.mul_comm. apply Z.mul_div_le. reflexivity.
Qed.

Lemma square_up_exp (n : nat) : ∀ (m : Z) (x : R),
  (exp x <= IZR m / IZR SCALE)%R →
  (exp (2 ^ n * x) <= IZR (square_up n m) / IZR SCALE)%R.
Proof.
  assert (0 < IZR SCALE)%R as HS by (apply IZR_lt; reflexivity).
  induction n as [|n IH]; intros m x Hx; simpl.
  - by rewrite Rmult_1_l.
  - replace (2 * 2 ^ n * x)%R with (2 ^ n * (2 * x))%R by lra.
    apply IH. rewrite exp_double.
    apply div_square_ge with (IZR m); [done | apply exp_pos | | done].
    rewrite <- !mult_IZR. apply IZR_le.
    pose proof (Z.div_mod (m * m + SCALE - 1) SCALE) as Hdm.
    pose proof (Z.mod_pos_bound (m * m + SCALE - 1) SCALE) as Hmod.
    unfold SCALE in *. lia.
Qed.

Lemma IZR_SCALE : IZR SCALE = 1000000000000%R.
Proof. unfold SCALE. simpl. lra. Qed.

Lemma exp_1_14_lower : (3.1264 <= exp 1.14)%R.
Proof.
  replace 1.14%R with (2 ^ 13 * (1.14 / 8192))%R by lra.
  eapply Rle_trans;
    [|apply (square_down_exp 13 1000139160156); [done|]];
    rewrite IZR_SCALE.
  - apply Rmult_le_reg_r with 1000000000000%R; [lra|].
    unfold Rdiv. rewrite Rmult_assoc, Rinv_l by lra. rewrite Rmult_1_r.
    replace (3.1264 * 1000000000000)%R with (IZR 3126400000000) by lra.
    apply IZR_le. vm_compute. discriminate.
  - eapply Rle_trans; [|apply exp_ineq1_le]. lra.
Qed.

Lemma exp_1_14_upper : (exp 1.14 <= 3.1364)%R.
Proof.
  replace 1.14%R with (2 ^ 8 * (1.14 / 256))%R by lra.
  eapply Rle_trans; [apply (square_up_exp 8 1004473044025)|];
    rewrite IZR_SCALE.
  - pose proof (exp_ineq1_le (- (1.14 / 256))) as H.
    rewrite exp_Ropp in H.
    pose proof (exp_pos (1.14 / 256)) as Hp.
    rewrite <- (Rinv_inv (exp _)).
    replace (1004473044025 / 1000000000000)%R
      with (/ (1000000000000 / 1004473044025))%R by (rewrite Rinv_div; lra).
    apply Rinv_le_contravar; lra.
  - apply Rmult_le_reg_r with 1000000000000%R; [lra|].
    unfold Rdiv. rewrite Rmult_assoc, Rinv_l by lra. rewrite Rmult_1_r.
    replace (3.1364 * 1000000000000)%R with (IZR 3136400000000) by lra.
    apply IZR_le. vm_compute. discriminate.
Qed.

(** ** The first review, in numbers *)

Lemma first_review_stability : _clamp_stability 3.2602%R = 3.2602%R.
Proof. unfold _clamp_stability, STABILITY_MIN. apply Rmax_left. lra. Qed.

Lemma first_review_difficulty :
  (4.875 <= _clamp_difficulty (7.0114 - e_pow (0.57 * IZR (3 - 1)) + 1)
   <= 4.885)%R.
Proof.
  pose proof exp_1_14_lower. pose proof exp_1_14_upper.
  unfold _clamp_difficulty, e_pow. change (3 - 1) with 2.
  replace (0.57 * 2)%R with 1.14%R by lra.
  rewrite Rmax_left by lra. rewrite Rmin_left by lra. lra.
Qed.

Lemma approx_iff (x v tol : R) :
  approx x v tol ↔ (v - tol <= x <= v + tol)%R.
Proof.
  unfold approx, Rabs. destruct (Rcase_abs (x - v)); split; lra.
Qed.

(** C5, as stated, fails: the card that the first review returns does
    not have a difficulty of 5.28 to two decimals (it is below 4.89). *)
Lemma first_review_difficulty_not_5_28 :
  ¬ ∃ self card' log,
      Scheduler_default false = Ok self
      ∧ review_card self new_card Good (Some t0) None (wall t0) 0%R
        = Ok (card', log)
      ∧ first_review_claim 5.28 card'.
Proof.
  intros (self & card' & log & Hs & Hr & _ & _ & _ & s & d & _ & Hd & _ & Ha).
  rewrite Scheduler_default_Ok in Hs. injection Hs as <-.
  unfold new_card in Hr. rewrite first_review_Good in Hr.
  injection Hr as <- _. injection Hd as <-.
  apply approx_iff in Ha. pose proof first_review_difficulty. lra.
Qed.

(** C5, amended.  A brand-new card rated Good at [t0] under the default
    scheduler without fuzzing comes back in the Learning state at step 1,
    due 10 minutes after [t0], with stability 3.2602 and a difficulty of
    4.88 to two decimals ([7.0114 - e^(0.57 * 2) + 1]). *)
Theorem first_review_Good_result (clock_id clock_due : Z)
    (review_duration : option Z) (clock : Z) (u : R) :
  ∃ self card' log,
    Scheduler_default false = Ok self
    ∧ review_card self (Card_new clock_id clock_due) Good (Some t0)
        review_duration clock u
      = Ok (card', log)
    ∧ first_review_claim 4.88 card'.
Proof.
  eexists _, _, _. split; [apply Scheduler_default_Ok|].
  split; [apply first_review_Good|].
  repeat split.
  eexists _, _. repeat split.
  - apply approx_iff. rewrite first_review_stability. lra.
  - apply approx_iff. pose proof first_review_difficulty. lra.
Qed.

(** ** Retrievability *)





Lemma elapsed_base (F s : R) (a b : Z) :
  (0 < F)%R → (0 < s)%R → 0 ≤ a ≤ b →
  (1 <= 1 + F * IZR a / s <= 1 + F * IZR b / s)%R.
Proof.
  intros HF Hs [Ha Hab]. apply IZR_le in Ha, Hab.
  assert (0 < / s)%R as Hi by (by apply Rinv_0_lt_compat).
  unfold Rdiv. split.
  - assert (0 <= F * IZR a * / s)%R; [|lra].
    apply Rmult_le_pos; [apply Rmult_le_pos|]; lra.
  - assert (F * IZR a * / s <= F * IZR b * / s)%R; [|lra].
    apply Rmult_le_compat_r; [lra|]. apply Rmult_le_compat_l; lra.
Qed.



(** ** ISO 8601 text read back

    [fromisoformat] reads back what [isoformat] writes, for every
    [datetime] that Python can hold.  The year is found by arithmetic on
    the cycles of 400, 100, 4 and 1 years; month and day are checked by
    enumeration of the days of a common and of a leap year. *)

Lemma all_from_spec n : ∀ r0 f, all_from n r0 f = true →
  ∀ r, r0 ≤ r < r0 + Z.of_nat n → f r = true.
Proof.
  induction n as [|n IH]; intros r0 f H r Hr; [lia|].
  simpl in H. apply andb_prop in H as [H1 H2].
  destruct (decide (r = r0)) as [->|Hne]; [done|].
  apply (IH (r0 + 1) f); [done|lia].
Qed.

Lemma month_day_checked :
  all_from 365 0 (month_day_ok false) && all_from 366 0 (month_day_ok true)
  = true.
Proof. vm_compute. reflexivity. Qed.

Lemma month_day_spec (leapyear : bool) (n : Z) :
  0 ≤ n < 365 + (if leapyear then 1 else 0) →
  ∃ m d, month_day leapyear n = (m, d)
         ∧ 1 ≤ m ≤ 12
         ∧ 1 ≤ d ≤ nth (Z.to_nat m) DAYS_IN_MONTH 0
                   + (if (m =? 2) && leapyear then 1 else 0)
         ∧ nth (Z.to_nat m) DAYS_BEFORE_MONTH 0
           + (if (2 <? m) && leapyear then 1 else 0) + d = n + 1.
Proof.
  intros Hn. pose proof month_day_checked as H.
  apply andb_prop in H as [Hf Ht].
  assert (month_day_ok leapyear n = true) as Hok.
  { destruct leapyear;
      [apply (all_from_spec _ _ _ Ht) | apply (all_from_spec _ _ _ Hf)]; lia. }
  unfold month_day_ok in Hok. destruct (month_day leapyear n) as [m d].
  repeat (apply andb_prop in Hok as [Hok ?]).
  exists m, d. repeat split; lia.
Qed.

Lemma ord2ymd_valid n :
  1 ≤ n ≤ MAXORDINAL →
  ∃ y m d, ord2ymd n = (y, m, d)
           ∧ 1 ≤ y ≤ 9999 ∧ 1 ≤ m ≤ 12 ∧ 1 ≤ d ≤ days_in_month y m
           ∧ ymd2ord y m d = n.
Proof.
  unfold MAXORDINAL. intros Hn.
  unfold ord2ymd. cbv zeta.
  change DI400Y with 146097. change DI100Y with 36524.
  change DI4Y with 1461.
  pose proof (Z.div_mod (n - 1) 146097 ltac:(lia)) as E400.
  pose proof (Z.mod_pos_bound (n - 1) 146097 ltac:(lia)) as B400.
  set (n400 := (n - 1) / 146097) in *.
  set (n1 := (n - 1) mod 146097) in *.
  pose proof (Z.div_mod n1 36524 ltac:(lia)) as E100.
  pose proof (Z.mod_pos_bound n1 36524 ltac:(lia)) as B100.
  set (n100 := n1 / 36524) in *.
  set (n2 := n1 mod 36524) in *.
  pose proof (Z.div_mod n2 1461 ltac:(lia)) as E4.
  pose proof (Z.mod_pos_bound n2 1461 ltac:(lia)) as B4.
  set (n4 := n2 / 1461) in *.
  set (n3 := n2 mod 1461) in *.
  pose proof (Z.div_mod n3 365 ltac:(lia)) as E1.
  pose proof (Z.mod_pos_bound n3 365 ltac:(lia)) as B1.
  set (n1y := n3 / 365) in *.
  set (n' := n3 mod 365) in *.
  assert (0 ≤ n400 ≤ 24 ∧ 0 ≤ n100 ≤ 4 ∧ 0 ≤ n4 ≤ 24 ∧ 0 ≤ n1y ≤ 4)
    as (H400 & H100 & H4 & H1) by lia.
  set (Y := n400 * 400 + 1 + n100 * 100 + n4 * 4 + n1y).
  destruct (decide (n1y = 4 ∨ n100 = 4)) as [Hlast|Hin].
  - (* the last day of a leap year *)
    assert ((n1y =? 4) || (n100 =? 4) = true) as ->.
    { apply orb_true_iff. destruct Hlast; [left|right]; lia. }
    exists (Y - 1), 12, 31. split; [done|].
    assert (is_leap (Y - 1) = true) as Hleap.
    { unfold is_leap, Y.
      repeat match goal with
             | |- context [(?a =? ?b)] => destruct (Z.eqb_spec a b)
             end; simpl; try done; exfalso;
        Z.to_euclidean_division_equations; lia. }
    assert (days_before_year (Y - 1) = n - 366) as Hdby.
    { unfold days_before_year, Y. cbv zeta.
      Z.to_euclidean_division_equations; lia. }
    unfold days_in_month, ymd2ord, days_before_month.
    rewrite Hleap, Hdby. simpl. unfold Y. lia.
  - assert ((n1y =? 4) || (n100 =? 4) = false) as ->.
    { apply orb_false_iff. split; apply Z.eqb_neq; lia. }
    set (leapyear := (n1y =? 3) && (negb (n4 =? 24) || (n100 =? 3))).
    assert (is_leap Y = leapyear) as Hleap.
    { unfold is_leap, leapyear, Y.
      repeat match goal with
             | |- context [(?a =? ?b)] => destruct (Z.eqb_spec a b)
             end; simpl; try done; exfalso;
        Z.to_euclidean_division_equations; lia. }
    assert (days_before_year Y = n - 1 - n') as Hdby.
    { unfold days_before_year, Y. cbv zeta.
      Z.to_euclidean_division_equations; lia. }
    destruct (month_day_spec leapyear n') as (m & d & Hmd & Hm & Hd & Hsum).
    { destruct leapyear; lia. }
    exists Y, m, d. split.
    { unfold month_day in Hmd. cbv zeta in Hmd.
      destruct (n' <? _); injection Hmd as <- <-; reflexivity. }
    unfold days_in_month, ymd2ord, days_before_month. rewrite Hleap, Hdby.
    repeat split; try (unfold Y; lia).
    destruct ((m =? 2) && leapyear) eqn:E2; [|lia].
    apply andb_prop in E2 as [E2 _]. apply Z.eqb_eq in E2. subst m.
    simpl in Hd. lia.
Qed.

Lemma nat_of_ascii_digit k :
  0 ≤ k ≤ 9 → nat_of_ascii (digit k) = (48 + Z.to_nat k)%nat.
Proof.
  intros Hk. unfold digit. apply nat_ascii_embedding. lia.
Qed.

Lemma read_digits_snoc w : ∀ acc s,
  read_digits (S w) acc s
  = '(a, s') ← read_digits w acc s; read_digits 1 a s'.
Proof.
  induction w as [|w IH]; intros acc s; [done|].
  change (read_digits (S (S w)) acc s)
    with (match s with
          | String c s' =>
              let n := nat_of_ascii c in
              if decide (48 ≤ n ≤ 57)%nat
              then read_digits (S w) (acc * 10 + Z.of_nat (n - 48)) s'
              else Raise ValueError
          | EmptyString => Raise ValueError
          end).
  destruct s as [|c s']; [done|]. cbv zeta.
  destruct (decide _); [|by simpl; rewrite decide_False].
  rewrite IH. simpl. by rewrite decide_True.
Qed.

Lemma append_cons (c : ascii) (s t : string) :
  (String c s ++ t)%string = String c (s ++ t)%string.
Proof. reflexivity. Qed.

Lemma append_nil (t : string) : (EmptyString ++ t)%string = t.
Proof. reflexivity. Qed.

Lemma append_assoc (a b c : string) :
  ((a ++ b) ++ c)%string = (a ++ (b ++ c))%string.
Proof.
  induction a as [|x a IH]; [done|].
  by rewrite !append_cons, IH.
Qed.

Lemma read_digits_pad w : ∀ acc n rest,
  0 ≤ n < 10 ^ Z.of_nat w →
  read_digits w acc (pad w n ++ rest)
  = Ok (acc * 10 ^ Z.of_nat w + n, rest).
Proof.
  induction w as [|w IH]; intros acc n rest Hn.
  - cbn [pad read_digits]. rewrite append_nil. f_equal. f_equal.
    change (10 ^ Z.of_nat 0) with 1 in *. lia.
  - rewrite read_digits_snoc.
    change (pad (S w) n)
      with (pad w (n / 10) ++ String (digit (n mod 10)) EmptyString)%string.
    rewrite append_assoc, append_cons, append_nil.
    assert (10 ^ Z.of_nat (S w) = 10 * 10 ^ Z.of_nat w) as Hp.
    { rewrite Nat2Z.inj_succ, Z.pow_succ_r by lia. done. }
    rewrite IH.
    2:{ split; [apply Z.div_pos; lia|].
        apply Z.div_lt_upper_bound; lia. }
    cbn [mbind result_bind read_digits]. cbv zeta.
    rewrite nat_of_ascii_digit by (pose proof (Z.mod_pos_bound n 10); lia).
    rewrite decide_True by (pose proof (Z.mod_pos_bound n 10); lia).
    f_equal. f_equal. rewrite Hp.
    pose proof (Z.div_mod n 10 ltac:(lia)).
    pose proof (Z.mod_pos_bound n 10 ltac:(lia)). lia.
Qed.

Lemma read_2 n rest :
  0 ≤ n < 100 → read_digits 2 0 (pad 2 n ++ rest) = Ok (n, rest).
Proof. intros. by rewrite read_digits_pad. Qed.

Lemma read_4 n rest :
  0 ≤ n < 10000 → read_digits 4 0 (pad 4 n ++ rest) = Ok (n, rest).
Proof. intros. by rewrite read_digits_pad. Qed.

Lemma read_6 n rest :
  0 ≤ n < 1000000 → read_digits 6 0 (pad 6 n ++ rest) = Ok (n, rest).
Proof. intros. by rewrite read_digits_pad. Qed.

Lemma expect_cons (c : ascii) (s : string) : expect c (String c s) = Ok s.
Proof. unfold expect. by rewrite decide_True. Qed.

(** The parts of a time span below one day. *)
Lemma split_time (r : Z) :
  0 ≤ r < 86400000000 →
  let hh := r / 3600000000 in
  let r1 := r mod 3600000000 in
  let mm := r1 / 60000000 in
  let r2 := r1 mod 60000000 in
  let ss := r2 / 1000000 in
  let ff := r2 mod 1000000 in
  0 ≤ hh < 24 ∧ 0 ≤ mm < 60 ∧ 0 ≤ ss < 60 ∧ 0 ≤ ff < 1000000
  ∧ r = ((hh * 3600 + mm * 60 + ss) * 1000000 + ff)
  ∧ (r2 = 0 ↔ ss = 0 ∧ ff = 0).
Proof.
  intros Hr. cbv zeta.
  Z.to_euclidean_division_equations. lia.
Qed.

Lemma read_fraction_offset (ff : Z) (tz : option timedelta) :
  0 ≤ ff < 1000000 →
  read_fraction ((if (ff =? 0)%Z then "" else "." ++ pad 6 ff)
                 ++ format_offset tz)%string
  = Ok (ff, format_offset tz).
Proof.
  intros Hff. destruct (ff =? 0) eqn:E.
  - apply Z.eqb_eq in E as ->. rewrite append_nil.
    destruct tz as [off|]; [|done].
    unfold format_offset. cbv zeta. by destruct (decide _).
  - rewrite append_assoc, append_cons, append_nil.
    cbn [read_fraction]. by apply read_6.
Qed.

Lemma days_neg (off : timedelta) :
  days off < 0 ↔ total_microseconds off < 0.
Proof.
  unfold days, US_PER_DAY, US_PER_SECOND.
  change (86400 * 1000000) with 86400000000.
  Z.to_euclidean_division_equations. lia.
Qed.

Lemma read_offset_format (tz : option timedelta) :
  match tz with
  | None => True
  | Some off => - US_PER_DAY < total_microseconds off < US_PER_DAY
  end →
  read_offset (format_offset tz) = Ok tz.
Proof.
  destruct tz as [[us]|]; [|done].
  unfold US_PER_DAY, US_PER_SECOND. cbn [total_microseconds].
  change (86400 * 1000000) with 86400000000. intros Hus.
  unfold format_offset. cbv zeta. cbn [total_microseconds].
  unfold US_PER_SECOND.
  change (3600 * 1000000) with 3600000000.
  change (60 * 1000000) with 60000000.
  destruct (split_time (Z.abs us) ltac:(lia))
    as (Hhh & Hmm & Hss & Hff & Hrec & Hzero).
  set (hh := Z.abs us / 3600000000) in *.
  set (r1 := Z.abs us mod 3600000000) in *.
  set (mm := r1 / 60000000) in *.
  set (r2 := r1 mod 60000000) in *.
  set (ss := r2 / 1000000) in *.
  set (ff := r2 mod 1000000) in *.
  pose proof (days_neg (Timedelta us)) as Hneg. cbn in Hneg.
  assert (∀ sign c,
            (sign = 1 ∧ c = "+"%char ∧ 0 ≤ us)
            ∨ (sign = -1 ∧ c = "-"%char ∧ us < 0) →
            read_offset
              (String c (pad 2 hh ++ ":" ++ pad 2 mm
                         ++ (if (r2 =? 0)%Z then ""
                             else ":" ++ pad 2 ss
                                  ++ (if (ff =? 0)%Z then ""
                                      else "." ++ pad 6 ff))))%string
            = Ok (Some (Timedelta us))) as Hread.
  { intros sign c Hs.
    cbn [read_offset].
    assert ((if decide (c = "+"%char) then Ok 1
             else if decide (c = "-"%char) then Ok (-1)
                  else Raise ValueError) = Ok sign) as ->.
    { destruct Hs as [(-> & -> & _)|(-> & -> & _)]; done. }
    cbn [mbind result_bind].
    rewrite read_2 by lia. cbn [mbind result_bind].
    rewrite append_cons, append_nil, expect_cons. cbn [mbind result_bind].
    rewrite read_2 by lia. cbn [mbind result_bind].
    assert (sign * ((hh * 3600 + mm * 60 + ss) * 1000000 + ff) = us)
      as Hval by lia.
    destruct (r2 =? 0) eqn:E2.
    - apply Z.eqb_eq in E2. apply Hzero in E2 as [Hs0 Hf0].
      cbn [mbind result_bind]. unfold mk_timezone, US_PER_DAY, US_PER_SECOND.
      rewrite Hs0, Hf0 in Hval. rewrite Hval.
      rewrite decide_True by lia. done.
    - rewrite append_cons, append_nil.
      cbn [mbind result_bind]. rewrite expect_cons.
      cbn [mbind result_bind].
      destruct (ff =? 0) eqn:Ef.
      + apply Z.eqb_eq in Ef.
        replace (pad 2 ss ++ "")%string with (pad 2 ss ++ "" ++ "")%string
          by done.
        rewrite read_2 by lia. rewrite append_nil.
        cbn [mbind result_bind read_fraction].
        unfold mk_timezone, US_PER_DAY, US_PER_SECOND.
        rewrite Ef in Hval. rewrite Hval.
        rewrite decide_True by lia. done.
      + rewrite read_2 by lia. cbn [mbind result_bind].
        rewrite append_cons, append_nil. cbn [read_fraction].
        replace (pad 6 ff) with (pad 6 ff ++ "")%string.
        2:{ clear. generalize (pad 6 ff). intros s.
            induction s as [|x s IH]; [done|].
            by rewrite append_cons, IH. }
        rewrite read_6 by lia. cbn [mbind result_bind].
        unfold mk_timezone, US_PER_DAY, US_PER_SECOND.
        rewrite Hval. rewrite decide_True by lia. done. }
  destruct (decide (days _ < 0)) as [Hd|Hd].
  - apply (Hread (-1) "-"%char). right. repeat split. by apply Hneg.
  - apply (Hread 1 "+"%char). left. repeat split. lia.
Qed.

Theorem fromisoformat_isoformat (d : datetime) :
  valid_datetime d → fromisoformat (isoformat d) = Ok d.
Proof.
  destruct d as [w tz]. unfold valid_datetime. cbn [wall tzinfo].
  intros [Hw Htz].
  unfold isoformat. cbn [wall tzinfo].
  unfold MAXORDINAL, US_PER_DAY, US_PER_SECOND in *.
  change (86400 * 1000000) with 86400000000 in *.
  change (3600 * 1000000) with 3600000000.
  change (60 * 1000000) with 60000000.
  destruct (ord2ymd_valid (w / 86400000000 + 1))
    as (y & m & dd & E & Hy & Hm & Hdd & Hord).
  { unfold MAXORDINAL. Z.to_euclidean_division_equations. lia. }
  rewrite E.
  assert (0 ≤ w mod 86400000000 < 86400000000) as Hr
    by (apply Z.mod_pos_bound; lia).
  destruct (split_time (w mod 86400000000) Hr)
    as (Hhh & Hmm & Hss & Hff & Hrec & _).
  set (r := w mod 86400000000) in *.
  set (hh := r / 3600000000) in *.
  set (r1 := r mod 3600000000) in *.
  set (mm := r1 / 60000000) in *.
  set (r2 := r1 mod 60000000) in *.
  set (ss := r2 / 1000000) in *.
  set (ff := r2 mod 1000000) in *.
  assert (dd < 100) as Hdd100.
  { assert (days_in_month y m ≤ 31); [|lia].
    unfold days_in_month. destruct (_ && _); [lia|].
    assert (m = 1 ∨ m = 2 ∨ m = 3 ∨ m = 4 ∨ m = 5 ∨ m = 6 ∨ m = 7 ∨ m = 8
            ∨ m = 9 ∨ m = 10 ∨ m = 11 ∨ m = 12) as Hcases by lia.
    repeat (destruct Hcases as [->|Hcases]; [by vm_compute|]).
    subst m. by vm_compute. }
  unfold fromisoformat.
  rewrite read_4 by lia. cbn [mbind result_bind].
  rewrite append_cons, append_nil, expect_cons. cbn [mbind result_bind].
  rewrite read_2 by lia. cbn [mbind result_bind].
  rewrite append_cons, append_nil, expect_cons. cbn [mbind result_bind].
  rewrite read_2 by lia. cbn [mbind result_bind].
  rewrite append_cons, append_nil.
  unfold read_hh_mm_ss.
  rewrite read_2 by lia. cbn [mbind result_bind].
  rewrite append_cons, append_nil, expect_cons. cbn [mbind result_bind].
  rewrite read_2 by lia. cbn [mbind result_bind].
  rewrite append_cons, append_nil, expect_cons. cbn [mbind result_bind].
  rewrite read_2 by lia. cbn [mbind result_bind].
  rewrite read_fraction_offset by lia. cbn [mbind result_bind].
  rewrite read_offset_format by done. cbn [mbind result_bind].
  unfold mk_datetime. rewrite decide_True by (repeat split; lia).
  f_equal. f_equal. rewrite Hord. unfold US_PER_SECOND.
  pose proof (Z.div_mod w 86400000000 ltac:(lia)). fold r in H. lia.
Qed.

(** ** Dictionaries of cards *)

Section ToDict.

Variable x : Card.

Lemma to_dict_card_id : to_dict x !! "card_id" = Some (VInt (card_id x)).
Proof. unfold to_dict. by simplify_map_eq. Qed.

Lemma to_dict_state :
  to_dict x !! "state" = Some (VInt (State_value (state x))).
Proof. unfold to_dict. by simplify_map_eq. Qed.

Lemma to_dict_step : to_dict x !! "step" = Some (of_option VInt (step x)).
Proof. unfold to_dict. by simplify_map_eq. Qed.

Lemma to_dict_stability :
  to_dict x !! "stability" = Some (of_option VFloat (stability x)).
Proof. unfold to_dict. by simplify_map_eq. Qed.

Lemma to_dict_difficulty :
  to_dict x !! "difficulty" = Some (of_option VFloat (difficulty x)).
Proof. unfold to_dict. by simplify_map_eq. Qed.

Lemma to_dict_due : to_dict x !! "due" = Some (VStr (isoformat (due x))).
Proof. unfold to_dict. by simplify_map_eq. Qed.

Lemma to_dict_last_review :
  to_dict x !! "last_review"
  = Some (of_option (λ d, VStr (isoformat d)) (last_review x)).
Proof. unfold to_dict. by simplify_map_eq. Qed.

End ToDict.

Lemma State_of_value (s : State) : State_of (State_value s) = Ok s.
Proof. by destruct s. Qed.

(** A number read back through the truthiness test of [from_dict]. *)
Lemma read_back_float (o : option R) :
  (if truthy (of_option VFloat o)
   then x ← float (of_option VFloat o); Ok (Some x)
   else Ok None)
  = Ok (if decide (o = Some 0%R) then None else o).
Proof.
  destruct o as [r|]; simpl; [|done].
  destruct (decide (r = 0%R)) as [->|Hr].
  - rewrite bool_decide_eq_true_2 by done. simpl. by rewrite decide_True.
  - rewrite bool_decide_eq_false_2 by done. simpl.
    rewrite decide_False; [done | congruence].
Qed.

Lemma read_back_datetime (o : option datetime) :
  (∀ d, o = Some d → valid_datetime d) →
  (if truthy (of_option (λ d, VStr (isoformat d)) o)
   then d ← fromisoformat_value (of_option (λ d, VStr (isoformat d)) o);
        Ok (Some d)
   else Ok None)
  = Ok o.
Proof.
  intros Hrt. destruct o as [d|]; simpl; [|done].
  specialize (Hrt d eq_refl). apply fromisoformat_isoformat in Hrt.
  destruct (decide (isoformat d = EmptyString)) as [He|Hne].
  - rewrite He in Hrt. discriminate.
  - rewrite bool_decide_eq_false_2 by done. simpl. by rewrite Hrt.
Qed.

(** C8.  Converting a card to its dictionary and back returns a card
    with the same id, state, step, due time and last review; its
    stability and its difficulty are the same too, unless the field is 0,
    in which case the card read back has [None] there.  The card is one
    that the constructor can have produced (in the Learning state its
    step is set), and its timestamps are values that a Python [datetime]
    can hold. *)
Theorem from_dict_to_dict (clock_id clock_due : Z) (x : Card) :
  (state x = Learning → step x ≠ None) →
  valid_datetime (due x) →
  (∀ d, last_review x = Some d → valid_datetime d) →
  ∃ y, from_dict clock_id clock_due (to_dict x) = Ok y
       ∧ card_id y = card_id x ∧ state y = state x ∧ step y = step x
       ∧ due y = due x ∧ last_review y = last_review x
       ∧ stability y
         = (if decide (stability x = Some 0%R) then None else stability x)
       ∧ difficulty y
         = (if decide (difficulty x = Some 0%R) then None else difficulty x)
       ∧ (stability x ≠ Some 0%R → difficulty x ≠ Some 0%R → y = x).
Proof.
  intros Hstep Hdue Hlast.
  unfold from_dict, item.
  rewrite to_dict_card_id, to_dict_state, to_dict_step, to_dict_stability,
    to_dict_difficulty, to_dict_due, to_dict_last_review.
  cbn [mbind result_bind int]. rewrite State_of_value.
  cbn [mbind result_bind].
  assert (match of_option VInt (step x) with
          | VNone => Ok None
          | VInt z => Ok (Some z)
          | _ => Raise TypeError
          end = Ok (step x)) as -> by (by destruct (step x)).
  cbn [mbind result_bind].
  rewrite !read_back_float. cbn [mbind result_bind fromisoformat_value].
  rewrite (fromisoformat_isoformat _ Hdue). cbn [mbind result_bind].
  rewrite (read_back_datetime _ Hlast). cbn [mbind result_bind].
  eexists. split; [reflexivity|].
  assert ((if bool_decide (state x = Learning) && bool_decide (step x = None)
           then Some 0 else step x) = step x) as Hsp.
  { destruct (decide (state x = Learning)) as [Hl|Hl].
    - rewrite (bool_decide_eq_false_2 (step x = None)) by auto.
      by rewrite andb_false_r.
    - by rewrite (bool_decide_eq_false_2 _ Hl). }
  unfold Card_init. cbn [card_id state step stability difficulty due
                         last_review]. rewrite Hsp.
  repeat split.
  intros Hs Hd. rewrite !decide_False by done. by destruct x.
Qed.

Lemma from_dict_to_dict_witness :
  ∃ y, from_dict 0 0 (to_dict review_card_at_t0) = Ok y
       ∧ y = review_card_at_t0.
Proof.
  destruct (from_dict_to_dict 0 0 review_card_at_t0) as (y & Hy & H).
  - discriminate.
  - vm_compute. by repeat split.
  - intros d [= <-]. vm_compute. by repeat split.
  - exists y. split; [exact Hy|].
    apply H; simpl; intros [= E]; lra.
Defined.

(** * The scheduler on floats *)

(** ** Clamps after a review, with the special values of floats *)

Section FloatClamps.

Import Float64.

Variable self : Scheduler.

(** The clamp of the stability returns its argument when it is NaN or
    not below 0.001, and 0.001 in the other cases. *)
Lemma clamp_stability_cases (s : float) :
  (_clamp_stability s = s ∧ (s = NaN ∨ le (Finite 0.001) s = true))
  ∨ (_clamp_stability s = Finite 0.001 ∧ lt s (Finite 0.001) = true).
Proof.
  unfold _clamp_stability, STABILITY_MIN, py_max.
  destruct s as [x| | |]; cbn [lt le].
  - destruct (decide (x < 0.001)%R) as [Hlt|Hge].
    + right. by rewrite bool_decide_eq_true_2.
    + left. rewrite bool_decide_eq_false_2 by done.
      split; [done|]. right. apply bool_decide_eq_true_2. lra.
  - left. split; [done|]. by right.
  - by right.
  - left. split; [done|]. by left.
Qed.

Lemma clamp_stability_clamped (s : float) :
  stability_clamped (_clamp_stability s).
Proof.
  destruct (clamp_stability_cases s) as [[-> H]|[-> _]]; [done|].
  right. cbn [le]. apply bool_decide_eq_true_2. lra.
Qed.

(** The clamp of the difficulty: NaN for NaN, and a number between 1 and
    10 for everything else, the infinities included. *)
Lemma clamp_difficulty_number (d : float) :
  d ≠ NaN →
  ∃ x, _clamp_difficulty d = Finite x ∧ (1 <= x <= 10)%R.
Proof.
  intros Hd. unfold _clamp_difficulty, py_min, py_max.
  destruct d as [x| | |]; [| | |done]; cbn [lt].
  - destruct (decide (x < 1.0)%R) as [Hlt|Hge].
    + rewrite (bool_decide_eq_true_2 _ Hlt). cbn [lt].
      rewrite bool_decide_eq_false_2 by lra. exists 1.0%R. split; [done|lra].
    + rewrite (bool_decide_eq_false_2 _ Hge). cbn [lt].
      destruct (decide (10.0 < x)%R) as [Hgt|Hle].
      * rewrite (bool_decide_eq_true_2 _ Hgt). exists 10.0%R.
        split; [done|lra].
      * rewrite (bool_decide_eq_false_2 _ Hle). exists x. split; [done|lra].
  - exists 10.0%R. split; [done|lra].
  - rewrite bool_decide_eq_false_2 by lra. exists 1.0%R. split; [done|lra].
Qed.

Lemma clamp_difficulty_clamped (d : float) :
  difficulty_clamped (_clamp_difficulty d).
Proof.
  destruct d as [x| | |]; [| | |by left];
    (edestruct clamp_difficulty_number as (y & -> & Hy); [done|]);
    right; cbn [le]; split; apply bool_decide_eq_true_2; lra.
Qed.

Lemma initial_stability_clamped rating s :
  _initial_stability self rating = Ok s → stability_clamped s.
Proof.
  unfold _initial_stability. intros H. returned H.
  injection H as <-. apply clamp_stability_clamped.
Qed.

Lemma initial_difficulty_clamped rating d :
  _initial_difficulty self rating = Ok d → difficulty_clamped d.
Proof.
  unfold _initial_difficulty. intros H. returned H.
  injection H as <-. apply clamp_difficulty_clamped.
Qed.

Lemma short_term_stability_clamped stability rating s :
  _short_term_stability self stability rating = Ok s → stability_clamped s.
Proof.
  unfold _short_term_stability. intros H. returned H.
  injection H as <-. apply clamp_stability_clamped.
Qed.

Lemma next_stability_clamped difficulty stability r rating s :
  _next_stability self difficulty stability r rating = Ok s →
  stability_clamped s.
Proof.
  unfold _next_stability. intros H. returned H.
  injection H as <-. apply clamp_stability_clamped.
Qed.

Lemma next_difficulty_clamped difficulty rating d :
  _next_difficulty self difficulty rating = Ok d → difficulty_clamped d.
Proof.
  unfold _next_difficulty. intros H. returned H.
  injection H as <-. apply clamp_difficulty_clamped.
Qed.

Lemma set_memory_clamped_or_nan card s d :
  stability_clamped s → difficulty_clamped d →
  clamped_or_nan (set_memory card s d).
Proof. intros Hs Hd. by exists s, d. Qed.

Lemma short_term_update_clamped_or_nan card rating card' :
  short_term_update self card rating = Ok card' → clamped_or_nan card'.
Proof.
  unfold short_term_update. intros H. returned H. injection H as <-.
  eauto using set_memory_clamped_or_nan, short_term_stability_clamped,
    next_difficulty_clamped.
Qed.

Lemma long_term_update_clamped_or_nan card rating d clock card' :
  long_term_update self card rating d clock = Ok card' →
  clamped_or_nan card'.
Proof.
  unfold long_term_update. intros H. returned H. injection H as <-.
  eauto using set_memory_clamped_or_nan, next_stability_clamped,
    next_difficulty_clamped.
Qed.

(** The interval computations change state and step only. *)
Lemma float_graduate_memory card card' iv :
  graduate self card = Ok (card', iv) →
  stability card' = stability card ∧ difficulty card' = difficulty card.
Proof.
  unfold graduate. intros H. returned H. by injection H as <- _.
Qed.

Lemma float_steps_interval_memory steps card rating card' iv :
  steps_interval self steps card rating = Ok (card', iv) →
  stability card' = stability card ∧ difficulty card' = difficulty card.
Proof.
  unfold steps_interval. intros H. returned H.
  destruct a; [by eapply float_graduate_memory|].
  destruct rating.
  - returned H. by injection H as <- _.
  - repeat case_match; returned H; by injection H as <- _.
  - returned H. case_decide; [by eapply float_graduate_memory|].
    returned H. by injection H as <- _.
  - by eapply float_graduate_memory.
Qed.

Lemma clamped_or_nan_eq card card' :
  stability card' = stability card ∧ difficulty card' = difficulty card →
  clamped_or_nan card → clamped_or_nan card'.
Proof. intros [Hs Hd] (s & d & ?). exists s, d. by rewrite Hs, Hd. Qed.

Lemma review_Learning_clamped_or_nan card rating d n clock card' iv :
  review_Learning self card rating d n clock = Ok (card', iv) →
  clamped_or_nan card'.
Proof.
  unfold review_Learning. intros H. returned H.
  eapply clamped_or_nan_eq; [by eapply float_steps_interval_memory|].
  destruct (_ && _); [|destruct (same_day n)].
  - returned E. injection E as <-.
    eauto using set_memory_clamped_or_nan, initial_stability_clamped,
      initial_difficulty_clamped.
  - by eapply short_term_update_clamped_or_nan.
  - by eapply long_term_update_clamped_or_nan.
Qed.

Lemma review_Review_clamped_or_nan card rating d n clock card' iv :
  review_Review self card rating d n clock = Ok (card', iv) →
  clamped_or_nan card'.
Proof.
  unfold review_Review. intros H. returned H.
  assert (clamped_or_nan a) as Ha.
  { destruct (same_day n);
      [by eapply short_term_update_clamped_or_nan
      | by eapply long_term_update_clamped_or_nan]. }
  destruct rating; [destruct (decide _)|..];
    returned H; by injection H as <- _.
Qed.

Lemma review_Relearning_clamped_or_nan card rating d n clock card' iv :
  review_Relearning self card rating d n clock = Ok (card', iv) →
  clamped_or_nan card'.
Proof.
  unfold review_Relearning. intros H. returned H.
  eapply clamped_or_nan_eq; [by eapply float_steps_interval_memory|].
  destruct (same_day n);
    [by eapply short_term_update_clamped_or_nan | discriminate].
Qed.

End FloatClamps.

(** C2, amended.  Whenever [review_card] returns, for every scheduler,
    card, rating, review time, clock reading and random draw, the
    stability of the returned card is NaN or at least 0.001 (an infinite
    stability included), and its difficulty is NaN or within [1, 10]:
    the clamps bound every number and let NaN through. *)
Theorem review_card_clamps_unless_nan (self : Float64.Scheduler)
    (card : Float64.Card) (rating : Rating)
    (review_datetime : option datetime) (review_duration : option Z)
    (clock : Z) (u : R) (card' : Float64.Card) (log : ReviewLog) :
  Float64.review_card self card rating review_datetime review_duration
    clock u
  = Ok (card', log) →
  ∃ s d, Float64.stability card' = Some s
         ∧ Float64.difficulty card' = Some d
         ∧ (s = Float64.NaN
            ∨ Float64.le (Float64.Finite 0.001) s = true)
         ∧ (d = Float64.NaN
            ∨ (Float64.le (Float64.Finite 1) d = true
               ∧ Float64.le d (Float64.Finite 10) = true)).
Proof.
  unfold Float64.review_card. intros H. returned H.
  injection H as <- _. simpl.
  change (Float64.clamped_or_nan c).
  destruct (Float64.state card);
    eauto using review_Learning_clamped_or_nan,
      review_Review_clamped_or_nan, review_Relearning_clamped_or_nan.
Qed.

(** ** Runs of the scheduler on floats *)

Section FloatRuns.

Import Float64.

Lemma DBL_MAX_large : (1000000 <= DBL_MAX)%R.
Proof. unfold DBL_MAX. apply IZR_le. vm_compute. discriminate. Qed.

(** A result of moderate size is the float of itself. *)
Lemma overflow_Finite (x : R) :
  (-1000000 <= x <= 1000000)%R → overflow x = Finite x.
Proof.
  intros Hx. pose proof DBL_MAX_large. unfold overflow.
  rewrite decide_False by lra. by rewrite decide_False by lra.
Qed.

Lemma power_result_Ok (x : R) :
  (-1000000 <= x <= 1000000)%R → power_result x = Ok (Finite x).
Proof.
  intros Hx. pose proof DBL_MAX_large. unfold power_result.
  rewrite decide_False; [done|].
  unfold Rabs. destruct (Rcase_abs x); lra.
Qed.

(** Evaluates the float operations whose results are of moderate size. *)
Ltac finite :=
  repeat (cbn [mbind result_bind need neg add sub mul of_int];
          try rewrite !overflow_Finite by lra).

(** [math.e ** y] for a finite [y] whose exponential is a float. *)
Lemma e_pow_Finite (y : R) :
  (exp y <= 1000000)%R → e_pow (Finite y) = Ok (Finite (exp y)).
Proof.
  intros Hy. pose proof (exp_pos y) as Hpos. unfold e_pow, pow.
  destruct (decide (y = 0)%R) as [->|Hne].
  - by rewrite exp_0.
  - pose proof (exp_pos 1).
    rewrite decide_False by lra. rewrite decide_False by lra.
    assert (Rpower (exp 1) y = exp y) as ->.
    { unfold Rpower. by rewrite ln_exp, Rmult_1_r. }
    apply power_result_Ok. lra.
Qed.

Lemma exp_le_9 (y : R) : (y <= 2)%R → (exp y <= 9)%R.
Proof.
  intros Hy. pose proof exp_le_3 as H3. pose proof (exp_pos 1) as H1.
  apply Rle_trans with (exp 2).
  - destruct (Req_dec y 2) as [->|Hne]; [lra|].
    left. apply exp_increasing. lra.
  - replace 2%R with (1 + 1)%R by lra. rewrite exp_plus. nra.
Qed.

(** [0.9 ** (1 / -0.2)] is [1 / 0.9 ** 5]. *)
Lemma Rpower_0_9 : Rpower 0.9 (1 / - (0.2)) = (/ 0.9 ^ 5)%R.
Proof.
  replace (1 / - (0.2))%R with (- INR 5)%R.
  - rewrite Rpower_Ropp, Rpower_pow by lra. reflexivity.
  - simpl. unfold Rdiv. rewrite Rinv_opp. lra.
Qed.

Lemma Rpower_0_9_bounds : (1.69 < Rpower 0.9 (1 / - (0.2)) < 1.7)%R.
Proof.
  rewrite Rpower_0_9.
  replace (0.9 ^ 5)%R with 0.59049%R by lra.
  split.
  - apply Rmult_lt_reg_r with 0.59049%R; [lra|].
    rewrite Rinv_l by lra. lra.
  - apply Rmult_lt_reg_r with 0.59049%R; [lra|].
    rewrite Rinv_l by lra. lra.
Qed.

(** The constructor, for parameters that end in 0.2. *)
Lemma float_Scheduler_init_Ok (ps : list float) (dr : float)
    (ls rs : list timedelta) (M : Z) (fz : bool) :
  ps !! 20%nat = Some (Finite 0.2) →
  Scheduler_init ps dr ls rs M fz
  = Ok (mkScheduler ps dr ls rs M fz (Finite (- (0.2)))
          (Finite (Rpower 0.9 (1 / - (0.2)) - 1))).
Proof.
  intros H20. pose proof Rpower_0_9_bounds as Hp.
  unfold Scheduler_init, getitem.
  destruct (decide (20 < 0)) as [?|_]; [lia|].
  destruct (decide (20 < 0)) as [?|_]; [lia|].
  change (Z.to_nat 20) with 20%nat. rewrite H20.
  cbn [mbind result_bind neg of_int truediv].
  rewrite decide_False by lra.
  rewrite overflow_Finite by (unfold Rdiv; rewrite Rinv_opp; lra).
  cbn [mbind result_bind pow].
  rewrite decide_False by (unfold Rdiv; rewrite Rinv_opp; lra).
  rewrite decide_False by lra. rewrite decide_False by lra.
  rewrite power_result_Ok by lra.
  cbn [mbind result_bind sub add neg of_int].
  rewrite overflow_Finite by lra. reflexivity.
Qed.

Lemma float_Scheduler_default_Ok (fuzz : bool) :
  Scheduler_default fuzz = Ok (default_scheduler fuzz).
Proof. by apply float_Scheduler_init_Ok. Qed.

Lemma param_lookup (self : Scheduler) (i : Z) (x : float) :
  0 ≤ i → parameters self !! Z.to_nat i = Some x → param self i = Ok x.
Proof.
  intros Hpos Hi. unfold param, getitem.
  destruct (decide (i < 0)) as [?|_]; [lia|].
  destruct (decide (i < 0)) as [?|_]; [lia|].
  by rewrite Hi.
Qed.

(** With the default [parameters[4]] and [parameters[5]],
    [_initial_difficulty(Rating.Easy)] is a number between 1 and 10. *)
Lemma initial_difficulty_Easy_number (self : Scheduler) :
  parameters self !! 4%nat = Some (Finite 7.0114) →
  parameters self !! 5%nat = Some (Finite 0.57) →
  ∃ c, _initial_difficulty self Easy = Ok (Finite c) ∧ (1 <= c <= 10)%R.
Proof.
  intros H4 H5. unfold _initial_difficulty.
  rewrite (param_lookup self 4 (Finite 7.0114)) by done.
  rewrite (param_lookup self 5 (Finite 0.57)) by done.
  change (Rating_value Easy - 1) with 3.
  assert (exp (0.57 * 3) <= 9)%R as He by (apply exp_le_9; lra).
  pose proof (exp_pos (0.57 * 3)).
  finite. rewrite e_pow_Finite by lra. finite.
  edestruct clamp_difficulty_number as (c & -> & Hc); [done|].
  by exists c.
Qed.

(** NaN in, NaN out: the two updates of a same-day review. *)
Lemma short_term_stability_NaN (fuzz : bool) :
  _short_term_stability (default_scheduler fuzz) (Some NaN) Hard = Ok NaN.
Proof.
  unfold _short_term_stability.
  rewrite (param_lookup _ 17 (Finite 0.7536)) by done.
  rewrite (param_lookup _ 18 (Finite 0.3332)) by done.
  change (Rating_value Hard - 3) with (-1).
  assert (exp (0.7536 * (-1 + 0.3332)) <= 9)%R as He
    by (apply exp_le_9; lra).
  finite. rewrite e_pow_Finite by lra.
  rewrite (param_lookup _ 19 (Finite 0.1437)) by done.
  finite. cbn [pow]. rewrite decide_False by lra. reflexivity.
Qed.

Lemma next_difficulty_NaN (fuzz : bool) :
  _next_difficulty (default_scheduler fuzz) (Some NaN) Hard = Ok NaN.
Proof.
  unfold _next_difficulty.
  destruct (initial_difficulty_Easy_number (default_scheduler fuzz))
    as (c & -> & Hc); [done..|].
  rewrite (param_lookup _ 6 (Finite 2.0966)) by done.
  change (Rating_value Hard - 3) with (-1).
  finite. cbn [truediv]. rewrite decide_False by lra.
  rewrite (param_lookup _ 7 (Finite 0.0069)) by done.
  finite. reflexivity.
Qed.

(** The review of [nan_card], rated Hard at the time of its last review:
    the card comes back on step 0, due five and a half minutes later,
    with NaN for stability and for difficulty. *)
Lemma nan_card_reviewed (fuzz : bool) (review_duration : option Z)
    (clock : Z) (u : R) :
  review_card (default_scheduler fuzz) nan_card Hard (Some t0)
    review_duration clock u
  = Ok (mkCard 1 Learning (Some 0) (Some NaN) (Some NaN)
          (Datetime (63805321800000000 + 330 * US_PER_SECOND)
             (Some timezone_utc))
          (Some t0),
        mkReviewLog 1 Hard t0 review_duration).
Proof.
  unfold review_card, review_Learning, short_term_update.
  cbn [last_review state stability difficulty nan_card].
  change (datetime_sub t0 t0) with (Ok (Timedelta 0)).
  cbn [mbind result_bind].
  change (same_day (Some (days (Timedelta 0)))) with true.
  cbn [tzinfo t0 bool_decide andb orb mbind result_bind].
  rewrite short_term_stability_NaN, next_difficulty_NaN.
  destruct fuzz; reflexivity.
Qed.

(** A review that overflows. *)

(** [e ** 709] is a float, and ten times as much is not. *)
Lemma exp_709_bounds : (exp 709 <= DBL_MAX < 10 * exp 709)%R.
Proof.
  assert (0 < IZR SCALE)%R as HS by (apply IZR_lt; reflexivity).
  assert (709 = 2 ^ 20 * (709 / 1048576))%R as Hx by lra.
  split.
  - rewrite Hx.
    eapply Rle_trans; [apply (square_up_exp 20 1000676612586)|].
    + rewrite IZR_SCALE.
      pose proof (exp_ineq1_le (- (709 / 1048576))) as H.
      rewrite exp_Ropp in H.
      pose proof (exp_pos (709 / 1048576)) as Hp.
      rewrite <- (Rinv_inv (exp _)).
      replace (1000676612586 / 1000000000000)%R
        with (/ (1000000000000 / 1000676612586))%R by (rewrite Rinv_div; lra).
      apply Rinv_le_contravar; lra.
    + apply Rmult_le_reg_r with (IZR SCALE); [done|].
      unfold Rdiv. rewrite Rmult_assoc, Rinv_l by lra. rewrite Rmult_1_r.
      unfold DBL_MAX. rewrite <- mult_IZR. apply IZR_le.
      vm_compute. discriminate.
  - pose proof (square_down_exp 20 1000676155090 (709 / 1048576)) as H.
    rewrite <- Hx in H.
    eapply Rlt_le_trans; [|apply Rmult_le_compat_l; [lra|apply H]].
    + apply Rmult_lt_reg_r with (IZR SCALE); [done|].
      unfold Rdiv. rewrite !Rmult_assoc, Rinv_l by lra. rewrite Rmult_1_r.
      unfold DBL_MAX. rewrite <- !mult_IZR. apply IZR_lt.
      vm_compute. reflexivity.
    + done.
    + rewrite IZR_SCALE.
      eapply Rle_trans; [|apply exp_ineq1_le]. lra.
Qed.

(** A float beyond the largest one. *)
Lemma overflow_PInf (x : R) : (DBL_MAX < x)%R → overflow x = PInf.
Proof. intros Hx. unfold overflow. by rewrite decide_True. Qed.

(** [math.e ** y] as long as the exponential is a float. *)
Lemma e_pow_Finite_max (y : R) :
  (exp y <= DBL_MAX)%R → e_pow (Finite y) = Ok (Finite (exp y)).
Proof.
  intros Hy. pose proof (exp_pos y) as Hpos. unfold e_pow, pow.
  destruct (decide (y = 0)%R) as [->|Hne].
  - by rewrite exp_0.
  - pose proof (exp_pos 1).
    rewrite decide_False by lra. rewrite decide_False by lra.
    assert (Rpower (exp 1) y = exp y) as ->.
    { unfold Rpower. by rewrite ln_exp, Rmult_1_r. }
    unfold power_result. rewrite decide_False; [done|].
    rewrite Rabs_pos_eq; lra.
Qed.

(** The retrievability of [least_card] one day after its last review. *)
Lemma least_card_retrievability (clock : Z) :
  ∃ r, get_card_retrievability overflowing_scheduler least_card
         (Some t0_plus_1_day) clock = Ok (Finite r)
       ∧ (0 < r <= 1)%R.
Proof.
  pose proof Rpower_0_9_bounds as Hp.
  unfold get_card_retrievability.
  cbn [last_review least_card stability].
  change (datetime_sub t0_plus_1_day t0) with (Ok (Timedelta US_PER_DAY)).
  cbn [mbind result_bind].
  change (Z.max 0 (days (Timedelta US_PER_DAY))) with 1.
  cbn [_FACTOR _DECAY overflowing_scheduler].
  finite. cbn [truediv]. rewrite decide_False by lra. finite.
  set (b := (1 + (Rpower 0.9 (1 / - (0.2)) - 1) * 1 / 0.001)%R).
  assert (1 < b)%R as Hb by (unfold b; lra).
  assert (0 < Rpower b (- (0.2)) < 1)%R as Hr.
  { unfold Rpower. split; [apply exp_pos|].
    rewrite <- exp_0. apply exp_increasing.
    assert (0 < ln b)%R by (rewrite <- ln_1; apply ln_increasing; lra).
    nra. }
  cbn [pow]. rewrite decide_False by lra.
  rewrite decide_False by lra. rewrite decide_False by lra.
  rewrite power_result_Ok by lra.
  exists (Rpower b (- (0.2))). split; [done|lra].
Qed.

(** The long-term update of its stability: [e ** 709 * 10] is infinite,
    [e ** 0 - 1] is zero, and their product is NaN. *)
Lemma least_card_next_stability (r : R) :
  (0 < r <= 1)%R →
  _next_stability overflowing_scheduler (Some (Finite 1))
    (Some (Finite 0.001)) (Finite r) Hard
  = Ok NaN.
Proof.
  intros Hr. pose proof exp_709_bounds as [H709 H7090].
  unfold _next_stability, _next_recall_stability.
  rewrite decide_False by done.
  destruct (decide (Hard = Hard)) as [_|?]; [|done].
  destruct (decide (Hard = Easy)) as [?|_]; [done|].
  rewrite (param_lookup _ 15 (Finite 0.2191)) by done.
  rewrite (param_lookup _ 8 (Finite 709)) by done.
  cbn [mbind result_bind]. rewrite e_pow_Finite_max by done.
  rewrite (param_lookup _ 9 (Finite 0.112)) by done.
  cbn [mbind result_bind need neg].
  assert (0 < Rpower 0.001 (- (0.112)) <= 1000)%R as Hq.
  { unfold Rpower. split; [apply exp_pos|].
    assert (ln 0.001 < 0)%R as Hln
      by (rewrite <- ln_1; apply ln_increasing; lra).
    replace 1000%R with (/ 0.001)%R by lra.
    rewrite <- (exp_ln 0.001) at 2 by lra. rewrite <- exp_Ropp.
    destruct (Req_dec (- (0.112) * ln 0.001) (- ln 0.001)) as [->|Hne];
      [lra|].
    left. apply exp_increasing. lra. }
  cbn [pow]. rewrite decide_False by lra.
  rewrite decide_False by lra. rewrite decide_False by lra.
  rewrite power_result_Ok by lra.
  rewrite (param_lookup _ 10 (Finite 0)) by done.
  cbn [mbind result_bind].
  assert (mul (sub (of_int 1) (Finite r)) (Finite 0) = Finite 0) as ->.
  { finite. f_equal. lra. }
  rewrite e_pow_Finite by (rewrite exp_0; lra). rewrite exp_0.
  cbn [mbind result_bind].
  assert (mul (Finite (exp 709)) (sub (of_int 11) (Finite 1)) = PInf) as ->.
  { finite. apply overflow_PInf. lra. }
  assert (sub (Finite 1) (of_int 1) = Finite 0) as ->.
  { finite. f_equal. lra. }
  assert (mul PInf (Finite (Rpower 0.001 (- (0.112)))) = PInf) as ->.
  { unfold mul, mul_inf. rewrite decide_False by lra.
    by rewrite decide_True by lra. }
  assert (mul PInf (Finite 0) = NaN) as ->.
  { unfold mul, mul_inf. by rewrite decide_True. }
  reflexivity.
Qed.

(** The update of its difficulty stays a number. *)
Lemma least_card_next_difficulty :
  ∃ c, _next_difficulty overflowing_scheduler (Some (Finite 1)) Hard
       = Ok (Finite c)
       ∧ (1 <= c <= 10)%R.
Proof.
  unfold _next_difficulty.
  destruct (initial_difficulty_Easy_number overflowing_scheduler)
    as (c & -> & Hc); [done..|].
  rewrite (param_lookup _ 6 (Finite 2.0966)) by done.
  change (Rating_value Hard - 3) with (-1).
  finite. cbn [truediv]. rewrite decide_False by lra.
  rewrite (param_lookup _ 7 (Finite 0.0069)) by done.
  finite.
  edestruct clamp_difficulty_number as (c' & -> & Hc'); [done|].
  by exists c'.
Qed.

(** The review of [least_card], rated Hard one day after its last
    review: the card comes back on step 0, due five and a half minutes
    later, with a stability that is NaN. *)
Lemma least_card_reviewed (review_duration : option Z) (clock : Z) (u : R) :
  ∃ c, review_card overflowing_scheduler least_card Hard
         (Some t0_plus_1_day) review_duration clock u
       = Ok (mkCard 1 Learning (Some 0) (Some NaN) (Some (Finite c))
               (Datetime (63805321800000000 + US_PER_DAY
                          + 330 * US_PER_SECOND)
                  (Some timezone_utc))
               (Some t0_plus_1_day),
             mkReviewLog 1 Hard t0_plus_1_day review_duration)
       ∧ (1 <= c <= 10)%R.
Proof.
  destruct (least_card_retrievability clock) as (r & Hret & Hr).
  destruct least_card_next_difficulty as (c & Hd & Hc).
  exists c. split; [|done].
  unfold review_card, review_Learning, long_term_update.
  cbn [last_review state stability difficulty least_card].
  change (datetime_sub t0_plus_1_day t0) with (Ok (Timedelta US_PER_DAY)).
  cbn [mbind result_bind].
  change (same_day (Some (days (Timedelta US_PER_DAY)))) with false.
  cbn [tzinfo t0_plus_1_day bool_decide andb orb mbind result_bind].
  change (mkCard 1 Learning (Some 0) (Some (Finite 0.001)) (Some (Finite 1))
            t0 (Some t0)) with least_card.
  rewrite Hret. cbn [mbind result_bind].
  rewrite least_card_next_stability by done. cbn [mbind result_bind].
  rewrite Hd. reflexivity.
Qed.

End FloatRuns.

(** C2, as stated, fails.  The scheduler is built with the default
    parameters but [parameters[8] = 709] and [parameters[10] = 0]; the
    card [least_card] (Learning, step 0, stability 0.001, difficulty 1) is
    within the bounds of the claim.  Rated Hard one day after its last
    review, it is returned by [review_card] with a stability that is NaN,
    for which [stability >= 0.001] is false: in [_next_recall_stability]
    [e ** 709 * 10] overflows to infinity, [e ** 0 - 1] is zero, their
    product is NaN, and [max(nan, 0.001)] is NaN. *)
Lemma review_card_overflow_NaN :
  ∃ self card' log,
    Float64.Scheduler_init Float64.overflowing_parameters
      (Float64.Finite 0.9) default_learning_steps default_relearning_steps
      36500 true
    = Ok self
    ∧ Float64.memory_clamped Float64.least_card
    ∧ Float64.review_card self Float64.least_card Hard (Some t0_plus_1_day)
        None 0 0%R
      = Ok (card', log)
    ∧ Float64.stability card' = Some Float64.NaN
    ∧ ¬ Float64.memory_clamped card'.
Proof.
  destruct (least_card_reviewed None 0 0%R) as (c & Hrun & Hc).
  eexists _, _, _. split; [by apply float_Scheduler_init_Ok|].
  split.
  { eexists _, _. split; [done|]. split; [done|].
    cbn [Float64.le]. rewrite !bool_decide_eq_true; lra. }
  split; [apply Hrun|]. split; [done|].
  intros (s & d & Hs & _ & Hle & _). injection Hs as <-. discriminate.
Qed.

Lemma review_card_clamps_unless_nan_witness :
  ∃ s d, Float64.stability (Float64.mkCard 1 Learning (Some 0)
           (Some Float64.NaN) (Some Float64.NaN)
           (Datetime (63805321800000000 + 330 * US_PER_SECOND)
              (Some timezone_utc))
           (Some t0)) = Some s
         ∧ Float64.difficulty (Float64.mkCard 1 Learning (Some 0)
             (Some Float64.NaN) (Some Float64.NaN)
             (Datetime (63805321800000000 + 330 * US_PER_SECOND)
                (Some timezone_utc))
             (Some t0)) = Some d
         ∧ (s = Float64.NaN
            ∨ Float64.le (Float64.Finite 0.001) s = true)
         ∧ (d = Float64.NaN
            ∨ (Float64.le (Float64.Finite 1) d = true
               ∧ Float64.le d (Float64.Finite 10) = true)).
Proof.
  apply (review_card_clamps_unless_nan (Float64.default_scheduler false)
           Float64.nan_card Hard (Some t0) None 0 0%R _
           (mkReviewLog 1 Hard t0 None)).
  apply nan_card_reviewed.
Defined.

(** * Further properties of the scheduler *)

(** ** What a review that returns has done *)

Lemma review_card_returned (self : Scheduler) (card : Card) (rating : Rating)
    (review_datetime : option datetime) (review_duration : option Z)
    (clock : Z) (u : R) (card' : Card) (log : ReviewLog) :
  review_card self card rating review_datetime review_duration clock u
  = Ok (card', log) →
  let rd := review_time review_datetime clock in
  tzinfo rd = Some timezone_utc
  ∧ ∃ ds c1 iv iv' due',
      match last_review card with
      | Some last =>
          ∃ delta, datetime_sub rd last = Ok delta ∧ ds = Some (days delta)
      | None => ds = None
      end
      ∧ review_state_case self card rating rd ds clock = Ok (c1, iv)
      ∧ (if enable_fuzzing self && bool_decide (state c1 = Review)
         then _get_fuzzed_interval self iv u else Ok iv) = Ok iv'
      ∧ datetime_add rd iv' = Ok due'
      ∧ card' = mkCard (card_id c1) (state c1) (step c1) (stability c1)
                  (difficulty c1) due' (Some rd)
      ∧ log = mkReviewLog (card_id c1) rating rd review_duration.
Proof.
  unfold review_card. intros H. returned H.
  injection H as Hc Hl. subst card' log. split.
  - destruct review_datetime as [d|]; [|done]. cbn [review_time].
    destruct (tzinfo d) as [tz|]; [|done].
    destruct (decide (Some tz = Some timezone_utc)) as [->|Hne]; [done|].
    rewrite (bool_decide_eq_true_2 _ Hne) in E. by rewrite orb_true_r in E.
  - exists a0, c, t, a1, a2. repeat split; try done.
    destruct (last_review card) as [last|].
    + returned E0. injection E0 as <-. eauto.
    + by injection E0 as <-.
Qed.

Section Arms.

Variable self : Scheduler.

Lemma short_term_update_frame card rating card' :
  short_term_update self card rating = Ok card' → same_frame card card'.
Proof.
  unfold short_term_update. intros H. returned H. by injection H as <-.
Qed.

Lemma long_term_update_frame card rating d clock card' :
  long_term_update self card rating d clock = Ok card' →
  same_frame card card'.
Proof.
  unfold long_term_update. intros H. returned H. by injection H as <-.
Qed.

Lemma review_Learning_steps card rating d ds clock c1 iv :
  review_Learning self card rating d ds clock = Ok (c1, iv) →
  ∃ cm, same_frame card cm
        ∧ steps_interval self (learning_steps self) cm rating = Ok (c1, iv).
Proof.
  unfold review_Learning. intros H. returned H. exists a. split; [|done].
  destruct (_ && _); [|destruct (same_day ds)].
  - returned E. by injection E as <-.
  - by eapply short_term_update_frame.
  - by eapply long_term_update_frame.
Qed.

Lemma review_Relearning_steps card rating d ds clock c1 iv :
  review_Relearning self card rating d ds clock = Ok (c1, iv) →
  same_day ds = true
  ∧ ∃ cm, same_frame card cm
          ∧ steps_interval self (relearning_steps self) cm rating
            = Ok (c1, iv).
Proof.
  unfold review_Relearning. intros H. returned H.
  destruct (same_day ds); [|discriminate].
  split; [done|]. exists a. split; [|done].
  by eapply short_term_update_frame.
Qed.

Lemma graduate_returned card c1 iv :
  graduate self card = Ok (c1, iv) →
  c1 = set_state_step card Review None ∧ day_interval self iv.
Proof.
  unfold graduate. intros H. returned H. injection H as <- <-.
  split; [done|]. by eexists _, _.
Qed.

Lemma review_Review_returned card rating d ds clock c1 iv :
  review_Review self card rating d ds clock = Ok (c1, iv) →
  ∃ cm, same_frame card cm
        ∧ if decide (rating = Again ∧ relearning_steps self ≠ [])
          then c1 = set_state_step cm Relearning (Some 0)
               ∧ getitem (relearning_steps self) 0 = Ok iv
          else c1 = cm ∧ day_interval self iv.
Proof.
  unfold review_Review. intros H. returned H. exists a. split.
  { destruct (same_day ds);
      [by eapply short_term_update_frame | by eapply long_term_update_frame]. }
  assert (len (relearning_steps self) = 0 ↔ relearning_steps self = [])
    as Hlen by (unfold len; destruct (relearning_steps self); done).
  destruct rating.
  - destruct (decide (len _ = 0)) as [H0|H0].
    + rewrite decide_False by (intros [_ ?]; by apply Hlen in H0).
      returned H. injection H as <- <-. split; [done|]. by eexists _, _.
    + rewrite decide_True by (split; [done|]; by rewrite <- Hlen).
      returned H. by injection H as <- <-.
  - rewrite decide_False by (by intros [? _]).
    returned H. injection H as <- <-. split; [done|]. by eexists _, _.
  - rewrite decide_False by (by intros [? _]).
    returned H. injection H as <- <-. split; [done|]. by eexists _, _.
  - rewrite decide_False by (by intros [? _]).
    returned H. injection H as <- <-. split; [done|]. by eexists _, _.
Qed.

(** What [steps_interval] returns, by cases. *)
Lemma steps_interval_returned steps card rating c1 iv :
  steps_interval self steps card rating = Ok (c1, iv) →
  (leaves_steps steps card rating
   ∧ c1 = set_state_step card Review None ∧ day_interval self iv)
  ∨ (¬ leaves_steps steps card rating
     ∧ ∃ sp, step card = Some sp
           ∧ match rating with
             | Again =>
                 c1 = set_state_step card (state card) (Some 0)
                 ∧ getitem steps 0 = Ok iv
             | Hard =>
                 c1 = card
                 ∧ if decide (sp = 0 ∧ len steps = 1) then
                     ∃ s0, getitem steps 0 = Ok s0
                           ∧ timedelta_mul_1_5 s0 = Ok iv
                   else if decide (sp = 0 ∧ 2 ≤ len steps) then
                     ∃ s0 s1 sum, getitem steps 0 = Ok s0
                                  ∧ getitem steps 1 = Ok s1
                                  ∧ timedelta_add s0 s1 = Ok sum
                                  ∧ timedelta_div_2 sum = Ok iv
                   else getitem steps sp = Ok iv
             | Good =>
                 c1 = set_state_step card (state card) (Some (sp + 1))
                 ∧ getitem steps (sp + 1) = Ok iv
             | Easy => False
             end).
Proof.
  unfold steps_interval. intros H. returned H.
  destruct (decide (len steps = 0)) as [H0|H0].
  { injection E as <-. left. split; [|by apply graduate_returned].
    left. unfold len in H0. by destruct steps. }
  assert (steps ≠ []) as Hne by (intros ->; by apply H0).
  returned E. apply need_Ok in E0. injection E as E.
  destruct a.
  { left. split; [|by apply graduate_returned].
    right. exists a0. split; [done|]. left.
    apply andb_prop in E as [E1 E2].
    apply bool_decide_eq_true_1 in E1.
    split; [done|]. intros ->. by vm_compute in E2. }
  assert (¬ (len steps ≤ a0 ∧ rating ≠ Again)) as Hpast.
  { intros [Hle Hr]. rewrite (bool_decide_eq_true_2 _ Hle) in E.
    destruct rating; try done; by vm_compute in E. }
  assert ((rating = Good → a0 + 1 = len steps → False) →
          rating ≠ Easy → ¬ leaves_steps steps card rating) as Hstay.
  { intros Hg He [?|(sp & Hsp & Hc)]; [done|].
    rewrite E0 in Hsp. injection Hsp as <-.
    destruct Hc as [?|[[? ?]|?]]; eauto. }
  destruct rating.
  - right. split; [by apply Hstay|]. exists a0.
    returned H. by injection H as <- <-.
  - right. split; [by apply Hstay|]. exists a0. split; [done|].
    rewrite E0 in H.
    assert (bool_decide (Some a0 = Some 0) = bool_decide (a0 = 0)) as Hb.
    { apply bool_decide_ext. split; [by intros [= ->] | by intros ->]. }
    rewrite !Hb in H. clear Hb.
    destruct (decide (a0 = 0)) as [->|Ha].
    + rewrite !bool_decide_eq_true_2 in H by done.
      cbn [andb] in H.
      destruct (decide (len steps = 1)) as [H1|H1].
      * rewrite (bool_decide_eq_true_2 _ H1) in H.
        rewrite decide_True by done. returned H. injection H as <- <-.
        split; [done|]. eauto.
      * rewrite (bool_decide_eq_false_2 _ H1) in H.
        rewrite decide_False by (by intros [_ ?]).
        destruct (decide (2 ≤ len steps)) as [H2|H2].
        -- rewrite (bool_decide_eq_true_2 _ H2) in H.
           rewrite decide_True by done. returned H. injection H as <- <-.
           split; [done|]. eauto 10.
        -- rewrite (bool_decide_eq_false_2 _ H2) in H.
           rewrite decide_False by (by intros [_ ?]).
           returned H.
           match goal with
           | H : need _ = Ok _ |- _ => apply need_Ok in H; injection H as <-
           end.
           by injection H as <- <-.
    + rewrite !(bool_decide_eq_false_2 (a0 = 0)) in H by done.
      cbn [andb] in H.
      rewrite !decide_False by (by intros [? _]).
      returned H.
      match goal with
      | H : need _ = Ok _ |- _ => apply need_Ok in H; injection H as <-
      end.
      by injection H as <- <-.
  - returned H.
    match goal with
    | H : need _ = Ok _ |- _ =>
        apply need_Ok in H; rewrite E0 in H; injection H as <-
    end.
    destruct (decide (a0 + 1 = len steps)) as [H1|H1].
    + left. split; [|by apply graduate_returned].
      right. exists a0. split; [done|]. right. by left.
    + right. split; [by apply Hstay|]. exists a0.
      returned H. by injection H as <- <-.
  - left. split; [|by apply graduate_returned].
    right. exists a0. split; [done|]. right. by right.
Qed.

End Arms.

Lemma review_card_on_steps (self : Scheduler) (card : Card) (rating : Rating)
    (review_datetime : option datetime) (review_duration : option Z)
    (clock : Z) (u : R) (card' : Card) (log : ReviewLog) :
  state card ≠ Review →
  review_card self card rating review_datetime review_duration clock u
  = Ok (card', log) →
  ∃ cm c1 iv,
    same_frame card cm
    ∧ steps_interval self (steps_of self (state card)) cm rating = Ok (c1, iv)
    ∧ state card' = state c1 ∧ step card' = step c1
    ∧ (state c1 ≠ Review →
       datetime_add (review_time review_datetime clock) iv = Ok (due card')).
Proof.
  intros Hst H. apply review_card_returned in H as [_ H].
  destruct H as (ds & c1 & iv & iv' & due' & _ & Hcase & Hfuzz & Hdue & -> & _).
  unfold review_state_case in Hcase.
  assert (∃ cm, same_frame card cm
                ∧ steps_interval self (steps_of self (state card)) cm rating
                  = Ok (c1, iv)) as (cm & Hf & Hs).
  { destruct (state card); [|done|].
    - by apply review_Learning_steps in Hcase.
    - by apply review_Relearning_steps in Hcase as [_ ?]. }
  exists cm, c1, iv. do 4 (split; [done|]).
  intros Hne. cbn [due].
  rewrite (bool_decide_eq_false_2 _ Hne), andb_false_r in Hfuzz.
  by injection Hfuzz as <-.
Qed.

(** X2.  A Learning or Relearning card is in Review after a review
    exactly when its steps tuple is empty, or it is past the last step
    and was not rated Again, or it was rated Good on the last step, or
    it was rated Easy; it then has no step, and otherwise it stays in
    its state. *)
Theorem review_card_leaves_steps (self : Scheduler) (card : Card)
    (rating : Rating) (review_datetime : option datetime)
    (review_duration : option Z) (clock : Z) (u : R)
    (card' : Card) (log : ReviewLog) :
  state card ≠ Review →
  review_card self card rating review_datetime review_duration clock u
  = Ok (card', log) →
  (state card' = Review
   ↔ leaves_steps (steps_of self (state card)) card rating)
  ∧ (state card' = Review → step card' = None)
  ∧ (state card' ≠ Review → state card' = state card).
Proof.
  intros Hst H.
  destruct (review_card_on_steps _ _ _ _ _ _ _ _ _ Hst H)
    as (cm & c1 & iv & (_ & Hstate & Hstep) & Hs & -> & -> & _).
  assert (∀ r, leaves_steps (steps_of self (state card)) cm r
               ↔ leaves_steps (steps_of self (state card)) card r) as Hl.
  { intros r. unfold leaves_steps. by rewrite Hstep. }
  rewrite <- Hl.
  apply steps_interval_returned in Hs as [(Hy & -> & _)|(Hn & sp & Hsp & Hc)].
  - by repeat split.
  - assert (state c1 = state card ∧ is_Some (step c1)) as [Hc1 Hs1].
    { destruct rating.
      - destruct Hc as [-> _]. by rewrite <- Hstate.
      - destruct Hc as [-> _]. by rewrite Hsp.
      - destruct Hc as [-> _]. by rewrite <- Hstate.
      - done. }
    rewrite Hc1. by repeat split.
Qed.

Lemma getitem_0 {A} (x : A) (l : list A) : getitem (x :: l) 0 = Ok x.
Proof. reflexivity. Qed.

Lemma getitem_lookup {A} (l : list A) (i : Z) (x : A) :
  0 ≤ i → getitem l i = Ok x → l !! Z.to_nat i = Some x.
Proof.
  intros Hi. unfold getitem. cbv zeta.
  destruct (decide (i < 0)); [lia|].
  destruct (decide (i < 0)); [lia|].
  by destruct (l !! Z.to_nat i) as [y|]; intros [= ->].
Qed.

(** X3.  Rated Again, a Learning or Relearning card whose steps tuple
    is not empty stays in its state, goes back to step 0 and is due
    one first step after the review time. *)
Theorem review_card_Again_first_step (self : Scheduler) (card : Card)
    (review_datetime : option datetime) (review_duration : option Z)
    (clock : Z) (u : R) (card' : Card) (log : ReviewLog)
    (s0 : timedelta) (rest : list timedelta) :
  state card ≠ Review →
  steps_of self (state card) = s0 :: rest →
  review_card self card Again review_datetime review_duration clock u
  = Ok (card', log) →
  state card' = state card ∧ step card' = Some 0
  ∧ datetime_add (review_time review_datetime clock) s0 = Ok (due card').
Proof.
  intros Hst Hsteps H.
  destruct (review_card_on_steps _ _ _ _ _ _ _ _ _ Hst H)
    as (cm & c1 & iv & (_ & Hstate & Hstep) & Hs & -> & -> & Hdue).
  rewrite Hsteps in Hs.
  apply steps_interval_returned in Hs as [(Hy & _)|(_ & sp & Hsp & -> & Hiv)].
  - destruct Hy as [?|(sp & _ & [[_ ?]|[[? _]|?]])]; done.
  - rewrite getitem_0 in Hiv. injection Hiv as <-.
    cbn [state step set_state_step] in *. rewrite Hstate in *.
    split; [done|]. split; [done|]. by apply Hdue.
Qed.

(** X4.  Rated Good before the last step, a Learning or Relearning
    card stays in its state, moves to the next step and is due that
    step's interval after the review time. *)
Theorem review_card_Good_next_step (self : Scheduler) (card : Card)
    (review_datetime : option datetime) (review_duration : option Z)
    (clock : Z) (u : R) (card' : Card) (log : ReviewLog) (sp : Z) :
  state card ≠ Review →
  step card = Some sp → 0 ≤ sp →
  sp + 1 < len (steps_of self (state card)) →
  review_card self card Good review_datetime review_duration clock u
  = Ok (card', log) →
  state card' = state card ∧ step card' = Some (sp + 1)
  ∧ ∃ s, steps_of self (state card) !! Z.to_nat (sp + 1) = Some s
         ∧ datetime_add (review_time review_datetime clock) s
           = Ok (due card').
Proof.
  intros Hst Hsp H0 Hlt H.
  destruct (review_card_on_steps _ _ _ _ _ _ _ _ _ Hst H)
    as (cm & c1 & iv & (_ & Hstate & Hstep) & Hs & -> & -> & Hdue).
  rewrite Hsp in Hstep.
  apply steps_interval_returned in Hs
    as [(Hy & _)|(_ & sp' & Hsp' & -> & Hiv)].
  - destruct Hy as [Hy|(sp' & Hsp' & Hy)].
    + rewrite Hy in Hlt. unfold len in Hlt. simpl in Hlt. lia.
    + rewrite Hstep in Hsp'. injection Hsp' as <-.
      destruct Hy as [[? _]|[[_ ?]|?]]; [lia|lia|done].
  - rewrite Hstep in Hsp'. injection Hsp' as <-.
    cbn [state step set_state_step] in *. rewrite Hstate in *.
    split; [done|]. split; [done|]. exists iv. split; [|by apply Hdue].
    apply getitem_lookup; [lia|done].
Qed.

Lemma mk_timedelta_Ok (us : Z) (iv : timedelta) :
  mk_timedelta us = Ok iv → iv = Timedelta us.
Proof. unfold mk_timedelta. destruct (decide _); by intros [= <-]. Qed.

Lemma datetime_add_wall (d : datetime) (iv : timedelta) (d' : datetime) :
  datetime_add d iv = Ok d' →
  wall d' = wall d + total_microseconds iv ∧ tzinfo d' = tzinfo d.
Proof. unfold datetime_add. destruct (decide _); by intros [= <-]. Qed.

(** X5.  Rated Hard on a step of its steps tuple, a Learning or
    Relearning card keeps its state and its step; it is due after one
    and a half times the only step, after the mean of the first two
    steps, or after the step itself when it is not on step 0. *)
Theorem review_card_Hard_keeps_step (self : Scheduler) (card : Card)
    (review_datetime : option datetime) (review_duration : option Z)
    (clock : Z) (u : R) (card' : Card) (log : ReviewLog) (sp : Z) :
  state card ≠ Review →
  step card = Some sp → 0 ≤ sp < len (steps_of self (state card)) →
  review_card self card Hard review_datetime review_duration clock u
  = Ok (card', log) →
  state card' = state card ∧ step card' = Some sp
  ∧ ∃ iv, datetime_add (review_time review_datetime clock) iv
          = Ok (due card')
          ∧ total_microseconds iv
            = hard_interval (steps_of self (state card)) sp.
Proof.
  intros Hst Hsp Hrange H.
  destruct (review_card_on_steps _ _ _ _ _ _ _ _ _ Hst H)
    as (cm & c1 & iv & (_ & Hstate & Hstep) & Hs & -> & -> & Hdue).
  rewrite Hsp in Hstep.
  apply steps_interval_returned in Hs
    as [(Hy & _)|(_ & sp' & Hsp' & -> & Hiv)].
  { destruct Hy as [Hy|(sp' & Hsp' & Hy)].
    - rewrite Hy in Hrange. unfold len in Hrange. simpl in Hrange. lia.
    - rewrite Hstep in Hsp'. injection Hsp' as <-.
      destruct Hy as [[? _]|[[? _]|?]]; [lia|done|done]. }
  rewrite Hstep in Hsp'. injection Hsp' as <-.
  rewrite Hstate in *. split; [done|]. split; [done|].
  exists iv. split; [by apply Hdue|]. unfold hard_interval.
  destruct (steps_of self (state card)) as [|s0 [|s1 rest]] eqn:Hsteps.
  - unfold len in Hrange. simpl in Hrange. lia.
  - assert (sp = 0) as -> by (unfold len in Hrange; simpl in Hrange; lia).
    rewrite decide_True in Hiv by done. rewrite decide_True by done.
    destruct Hiv as (s0' & Hs0 & Hmul). rewrite getitem_0 in Hs0.
    injection Hs0 as <-. unfold timedelta_mul_1_5 in Hmul.
    by apply mk_timedelta_Ok in Hmul as ->.
  - destruct (decide (sp = 0)) as [->|Hne].
    + rewrite decide_False in Hiv
        by (intros [_ Hl]; unfold len in Hl; simpl in Hl; lia).
      rewrite decide_True in Hiv
        by (split; [done|]; unfold len; simpl; lia).
      destruct Hiv as (s0' & s1' & sum & Hs0 & Hs1 & Hsum & Hdiv).
      rewrite getitem_0 in Hs0. injection Hs0 as <-.
      change (getitem (s0 :: s1 :: rest) 1) with (Ok s1) in Hs1.
      injection Hs1 as <-.
      unfold timedelta_add in Hsum. apply mk_timedelta_Ok in Hsum as ->.
      unfold timedelta_div_2 in Hdiv. apply mk_timedelta_Ok in Hdiv as ->.
      cbn [total_microseconds]. by rewrite Z.mul_1_l.
    + rewrite decide_False in Hiv by (by intros [? _]).
      rewrite decide_False in Hiv by (by intros [? _]).
      apply getitem_lookup in Hiv; [|lia]. by rewrite Hiv.
Qed.

(** X6.  A Review card leaves Review only by a lapse: rated Again with
    relearning steps configured it enters Relearning at step 0 and is
    due one first relearning step after the review time; in every
    other case it stays in Review with its step unchanged. *)
Theorem review_card_Review_transitions (self : Scheduler) (card : Card)
    (rating : Rating) (review_datetime : option datetime)
    (review_duration : option Z) (clock : Z) (u : R)
    (card' : Card) (log : ReviewLog) :
  state card = Review →
  review_card self card rating review_datetime review_duration clock u
  = Ok (card', log) →
  if decide (rating = Again ∧ relearning_steps self ≠ [])
  then state card' = Relearning ∧ step card' = Some 0
       ∧ ∃ s0, head (relearning_steps self) = Some s0
               ∧ datetime_add (review_time review_datetime clock) s0
                 = Ok (due card')
  else state card' = Review ∧ step card' = step card.
Proof.
  intros Hst H. apply review_card_returned in H as [_ H].
  destruct H as (ds & c1 & iv & iv' & due' & _ & Hcase & Hfuzz & Hdue & -> & _).
  unfold review_state_case in Hcase. rewrite Hst in Hcase.
  apply review_Review_returned in Hcase as (cm & (_ & Hstate & Hstep) & Hc).
  destruct (decide (rating = Again ∧ relearning_steps self ≠ [])) as [Hl|Hl].
  - destruct Hc as [-> Hiv]. cbn [state step due set_state_step] in *.
    rewrite bool_decide_eq_false_2, andb_false_r in Hfuzz by done.
    injection Hfuzz as <-.
    destruct (relearning_steps self) as [|s0 rest]; [by destruct Hl|].
    rewrite getitem_0 in Hiv. injection Hiv as <-.
    repeat split. by exists s0.
  - destruct Hc as [-> _]. cbn [state step]. by rewrite Hstate, Hstep.
Qed.

Section CardId.

Variable self : Scheduler.

Lemma steps_interval_card_id steps card rating c1 iv :
  steps_interval self steps card rating = Ok (c1, iv) →
  card_id c1 = card_id card.
Proof.
  intros H.
  apply steps_interval_returned in H as [(_ & -> & _)|(_ & sp & _ & Hc)];
    [done|].
  destruct rating; try done; by destruct Hc as [-> _].
Qed.

Lemma review_state_case_card_id card rating d ds clock c1 iv :
  review_state_case self card rating d ds clock = Ok (c1, iv) →
  card_id c1 = card_id card.
Proof.
  unfold review_state_case. intros H. destruct (state card).
  - apply review_Learning_steps in H as (cm & (Hid & _) & Hs).
    apply steps_interval_card_id in Hs. congruence.
  - apply review_Review_returned in H as (cm & (Hid & _) & Hc).
    destruct (decide _); destruct Hc as [-> _]; [|done].
    by cbn [card_id set_state_step].
  - apply review_Relearning_steps in H as (_ & cm & (Hid & _) & Hs).
    apply steps_interval_card_id in Hs. congruence.
Qed.

End CardId.

(** X1.  When review_card returns, the card keeps its card_id, its
    last_review is the review time, the review time and the new due
    time are in UTC, and the review log holds the card id, the rating,
    the review time and the review duration that were given. *)
Theorem review_card_records_review (self : Scheduler) (card : Card)
    (rating : Rating) (review_datetime : option datetime)
    (review_duration : option Z) (clock : Z) (u : R)
    (card' : Card) (log : ReviewLog) :
  review_card self card rating review_datetime review_duration clock u
  = Ok (card', log) →
  card_id card' = card_id card
  ∧ last_review card' = Some (review_time review_datetime clock)
  ∧ tzinfo (review_time review_datetime clock) = Some timezone_utc
  ∧ tzinfo (due card') = Some timezone_utc
  ∧ log = mkReviewLog (card_id card) rating
            (review_time review_datetime clock) review_duration.
Proof.
  intros H. apply review_card_returned in H as [Htz H].
  destruct H as (ds & c1 & iv & iv' & due' & _ & Hcase & _ & Hdue & -> & ->).
  apply review_state_case_card_id in Hcase. rewrite Hcase.
  apply datetime_add_wall in Hdue as [_ Hdtz].
  cbn [card_id last_review due]. rewrite Hdtz. by repeat split.
Qed.

(** ** The state and the last review after a review *)

Section StateAfter.

Variable self : Scheduler.

Lemma last_review_after card rating rd dur clock u card' log :
  review_card self card rating rd dur clock u = Ok (card', log) →
  last_review card' = Some (review_time rd clock).
Proof.
  intros H. apply review_card_returned in H as [_ H].
  destruct H as (? & ? & ? & ? & ? & _ & _ & _ & _ & -> & _). done.
Qed.

Lemma state_after_Easy card rd dur clock u card' log :
  review_card self card Easy rd dur clock u = Ok (card', log) →
  state card' = Review.
Proof.
  intros H. apply review_card_returned in H as [_ H].
  destruct H as (ds & c1 & iv & iv' & due' & _ & Hcase & _ & _ & -> & _).
  cbn [state]. unfold review_state_case in Hcase.
  assert (∀ steps cm, steps_interval self steps cm Easy = Ok (c1, iv) →
                      state c1 = Review) as Hsteps.
  { intros steps cm Hs.
    by apply steps_interval_returned in Hs
      as [(_ & -> & _)|(_ & sp & _ & ?)]. }
  destruct (state card) eqn:Hst.
  - apply review_Learning_steps in Hcase as (cm & _ & Hs). by eapply Hsteps.
  - apply review_Review_returned in Hcase as (cm & (_ & Hs & _) & Hc).
    rewrite decide_False in Hc by (by intros [? _]).
    destruct Hc as [-> _]. by rewrite Hs.
  - apply review_Relearning_steps in Hcase as (_ & cm & _ & Hs).
    by eapply Hsteps.
Qed.

Lemma state_after_lapse card rd dur clock u card' log :
  state card = Review → relearning_steps self ≠ [] →
  review_card self card Again rd dur clock u = Ok (card', log) →
  state card' = Relearning.
Proof.
  intros Hst Hsteps H. apply review_card_returned in H as [_ H].
  destruct H as (ds & c1 & iv & iv' & due' & _ & Hcase & _ & _ & -> & _).
  cbn [state]. unfold review_state_case in Hcase. rewrite Hst in Hcase.
  apply review_Review_returned in Hcase as (cm & _ & Hc).
  rewrite decide_True in Hc by done. by destruct Hc as [-> _].
Qed.

End StateAfter.

Lemma fuzz_delta_ge_1 (n : Z) : (1 <= fuzz_delta n)%R.
Proof.
  unfold fuzz_delta, FUZZ_RANGES.
  cbn [fold_left fuzz_start fuzz_end fuzz_factor].
  repeat match goal with
         | |- context [Rmax ?a 0.0] =>
             let H := fresh in
             pose proof (Rmax_r a 0.0) as H;
             generalize dependent (Rmax a 0.0); intros
         end.
  lra.
Qed.

Lemma next_interval_range (self : Scheduler) (s : R) (n : Z) :
  _next_interval self s = Ok n →
  Z.min 1 (maximum_interval self) ≤ n ≤ maximum_interval self.
Proof.
  unfold _next_interval. intros H. returned H. injection H as <-. lia.
Qed.

Lemma timedelta_days_Ok (n : Z) (iv : timedelta) :
  timedelta_days n = Ok iv → iv = Timedelta (n * US_PER_DAY).
Proof. unfold timedelta_days. apply mk_timedelta_Ok. Qed.

(** The fuzz keeps an interval of at least one day within one day and
    [maximum_interval], and gives whole days. *)
Lemma fuzzed_interval_days (self : Scheduler) (n : Z) (iv iv' : timedelta)
    (u : R) :
  (0 <= u < 1)%R → 1 ≤ n ≤ maximum_interval self →
  timedelta_days n = Ok iv →
  _get_fuzzed_interval self iv u = Ok iv' →
  ∃ k, 1 ≤ k ≤ maximum_interval self ∧ iv' = Timedelta (k * US_PER_DAY).
Proof.
  intros Hu Hn Hiv H.
  pose proof (days_timedelta_days _ _ Hiv) as Hd.
  destruct (decide (IZR (days iv) < 2.5)%R) as [Hlt|Hge].
  - unfold _get_fuzzed_interval in H. rewrite decide_True in H by done.
    injection H as <-. exists n. split; [done|].
    by apply timedelta_days_Ok.
  - assert (2.5 <= IZR (days iv))%R as Hge' by lra.
    pose proof (fuzzed_interval_range self iv u iv' Hge' Hu H) as Hr.
    unfold _get_fuzzed_interval in H. rewrite decide_False in H by done.
    destruct (_get_fuzz_range self (days iv)) as [mn mx] eqn:E.
    pose proof (days_timedelta_days _ _ H) as Hk.
    apply timedelta_days_Ok in H.
    exists (days iv'). split; [|by rewrite Hk].
    split; [|lia].
    assert (1 ≤ mn); [|lia].
    unfold _get_fuzz_range in E. injection E as <- _.
    rewrite Hd in *.
    assert (3 ≤ n) as H3.
    { assert (2 < n); [|lia]. apply lt_IZR. lra. }
    assert (3 ≤ round (IZR n + fuzz_delta n)).
    { apply round_lower. pose proof (fuzz_delta_ge_1 n).
      apply IZR_le in H3. lra. }
    lia.
Qed.

Section ReviewInterval.

Variable self : Scheduler.

Lemma steps_interval_Review steps card rating c1 iv :
  state card ≠ Review →
  steps_interval self steps card rating = Ok (c1, iv) →
  state c1 = Review → day_interval self iv.
Proof.
  intros Hst H Hc1.
  apply steps_interval_returned in H as [(_ & _ & ?)|(_ & sp & _ & Hc)];
    [done|].
  destruct rating; try done; destruct Hc as [-> _]; done.
Qed.

Lemma review_state_case_Review card rating d ds clock c1 iv :
  review_state_case self card rating d ds clock = Ok (c1, iv) →
  state c1 = Review → day_interval self iv.
Proof.
  unfold review_state_case. intros H Hc1.
  destruct (state card) eqn:Hst.
  - apply review_Learning_steps in H as (cm & (_ & Hs & _) & H).
    eapply steps_interval_Review; [|done..]. by rewrite Hs, Hst.
  - apply review_Review_returned in H as (cm & _ & Hc).
    destruct (decide _); destruct Hc as [-> ?]; done.
  - apply review_Relearning_steps in H as (_ & cm & (_ & Hs & _) & H).
    eapply steps_interval_Review; [|done..]. by rewrite Hs, Hst.
Qed.

End ReviewInterval.

(** X7.  When the maximum interval is at least one day and the random
    draw lies in [0, 1), a card that is in Review after a review is
    due a whole number of days after the review time, at least one day
    and at most maximum_interval days, with or without fuzzing. *)
Theorem review_card_Review_due (self : Scheduler) (card : Card)
    (rating : Rating) (review_datetime : option datetime)
    (review_duration : option Z) (clock : Z) (u : R)
    (card' : Card) (log : ReviewLog) :
  1 ≤ maximum_interval self → (0 <= u < 1)%R →
  review_card self card rating review_datetime review_duration clock u
  = Ok (card', log) →
  state card' = Review →
  ∃ k, 1 ≤ k ≤ maximum_interval self
       ∧ wall (due card')
         = wall (review_time review_datetime clock) + k * US_PER_DAY.
Proof.
  intros HM Hu H Hst. apply review_card_returned in H as [_ H].
  destruct H as (ds & c1 & iv & iv' & due' & _ & Hcase & Hfuzz & Hdue & -> & _).
  cbn [state due] in *.
  apply review_state_case_Review in Hcase as (s & n & Hn & Hiv); [|done].
  apply next_interval_range in Hn.
  assert (∃ k, 1 ≤ k ≤ maximum_interval self
               ∧ iv' = Timedelta (k * US_PER_DAY)) as (k & Hk & ->).
  { destruct (enable_fuzzing self && bool_decide (state c1 = Review)).
    - eapply fuzzed_interval_days; [done| |done..]. lia.
    - injection Hfuzz as <-. exists n. split; [lia|].
      by apply timedelta_days_Ok. }
  exists k. split; [done|].
  by apply datetime_add_wall in Hdue as [-> _].
Qed.

(** X9.  Two reviews composed: after a Review card has been rated
    Again by a scheduler with relearning steps, reviewing the returned
    card at a UTC time a whole day or more later raises
    AttributeError, whatever the rating. *)
Theorem review_card_after_lapse_raises (self : Scheduler) (card : Card)
    (rd1 : option datetime) (dur1 : option Z) (clock1 : Z) (u1 : R)
    (card' : Card) (log : ReviewLog)
    (rating : Rating) (rd2 : datetime) (delta : timedelta)
    (dur2 : option Z) (clock2 : Z) (u2 : R) :
  state card = Review → relearning_steps self ≠ [] →
  review_card self card Again rd1 dur1 clock1 u1 = Ok (card', log) →
  tzinfo rd2 = Some timezone_utc →
  datetime_sub rd2 (review_time rd1 clock1) = Ok delta → 1 ≤ days delta →
  review_card self card' rating (Some rd2) dur2 clock2 u2
  = Raise AttributeError.
Proof.
  intros Hst Hsteps H Htz Hsub Hdays.
  pose proof (state_after_lapse _ _ _ _ _ _ _ _ Hst Hsteps H) as Hst'.
  apply last_review_after in H.
  by eapply review_card_Relearning_long_term.
Qed.

(** X10.  The random draw reaches the due time only: two runs of
    review_card that differ in the draw return the same review log and
    cards that agree on every field but due, and the same card
    altogether when fuzzing is off or the card is not in Review
    afterwards. *)
Theorem review_card_random_only_due (self : Scheduler) (card : Card)
    (rating : Rating) (review_datetime : option datetime)
    (review_duration : option Z) (clock : Z) (u u' : R)
    (card1 card2 : Card) (log1 log2 : ReviewLog) :
  review_card self card rating review_datetime review_duration clock u
  = Ok (card1, log1) →
  review_card self card rating review_datetime review_duration clock u'
  = Ok (card2, log2) →
  log2 = log1
  ∧ card2 = mkCard (card_id card1) (state card1) (step card1)
              (stability card1) (difficulty card1) (due card2)
              (last_review card1)
  ∧ (enable_fuzzing self = false ∨ state card1 ≠ Review →
     card2 = card1).
Proof.
  intros H1 H2.
  apply review_card_returned in H1 as [_ H1], H2 as [_ H2].
  destruct H1 as (ds & c1 & iv & iv1 & due1 & Hds & Hc & Hf1 & Hd1 & -> & ->).
  destruct H2 as (ds' & c2 & iv' & iv2 & due2 & Hds' & Hc' & Hf2 & Hd2 & -> & ->).
  assert (ds' = ds) as ->.
  { destruct (last_review card); [|congruence].
    destruct Hds as (? & ? & ->), Hds' as (? & ? & ->). congruence. }
  rewrite Hc in Hc'. injection Hc' as <- <-.
  split; [done|]. split; [done|].
  intros Hoff. cbn [state] in Hoff.
  assert (enable_fuzzing self && bool_decide (state c1 = Review) = false) as E.
  { destruct Hoff as [->|Hne]; [done|].
    rewrite (bool_decide_eq_false_2 _ Hne). apply andb_false_r. }
  rewrite E in Hf1, Hf2. congruence.
Qed.

(** ** The constants of a scheduler *)

(** What [Scheduler.__init__] leaves in the object. *)
Lemma Scheduler_init_Ok ps dr ls rs M fz self :
  Scheduler_init ps dr ls rs M fz = Ok self →
  ∃ p20, getitem ps 20 = Ok p20 ∧ p20 ≠ 0%R
         ∧ self = mkScheduler ps dr ls rs M fz (- p20)%R
                    (Rpower 0.9 (1 / - p20) - 1)%R.
Proof.
  unfold Scheduler_init. intros H. returned H. exists a.
  unfold truediv in E0. destruct (decide (- a = 0)%R); [done|].
  injection E0 as <-. rewrite float_pow_pos in E1 by lra.
  injection E1 as <-. injection H as <-.
  split; [done|]. split; [lra|done].
Qed.

(** ** How a review moves stability and difficulty *)

(** ** When a review returns *)

Lemma mk_timedelta_range (us : Z) :
  - MAXORDINAL * US_PER_DAY ≤ us ≤ MAXORDINAL * US_PER_DAY →
  mk_timedelta us = Ok (Timedelta us).
Proof.
  intros H. unfold mk_timedelta. rewrite decide_True; [done|].
  unfold MAXORDINAL, US_PER_DAY, US_PER_SECOND in *.
  Z.to_euclidean_division_equations. lia.
Qed.

Lemma datetime_sub_valid (rd last : datetime) :
  tzinfo rd = Some timezone_utc → 0 ≤ wall rd < MAXORDINAL * US_PER_DAY →
  is_Some (tzinfo last) → valid_datetime last →
  ∃ delta, datetime_sub rd last = Ok delta.
Proof.
  intros Htz Hw [off Hoff] [Hl Hv]. rewrite Hoff in Hv.
  unfold datetime_sub. rewrite Htz, Hoff. unfold mk_timedelta.
  rewrite decide_True; [eauto|].
  cbn [timezone_utc total_microseconds].
  unfold MAXORDINAL, US_PER_DAY, US_PER_SECOND in *.
  Z.to_euclidean_division_equations. lia.
Qed.

Lemma datetime_add_range (rd : datetime) (iv : timedelta) :
  0 ≤ wall rd + total_microseconds iv < MAXORDINAL * US_PER_DAY →
  ∃ due, datetime_add rd iv = Ok due.
Proof.
  intros H. unfold datetime_add. cbv zeta. rewrite decide_True; [eauto|].
  unfold MAXORDINAL, US_PER_DAY, US_PER_SECOND in *.
  Z.to_euclidean_division_equations. lia.
Qed.

Lemma divide_and_round_2 (a : Z) :
  0 ≤ a → 0 ≤ divide_and_round a 2 ≤ a.
Proof.
  intros Ha. unfold divide_and_round. cbv zeta.
  rewrite decide_True by lia.
  destruct (decide (a = 0)) as [->|Hne]; [by vm_compute|].
  destruct (decide (a = 1)) as [->|Hne1]; [by vm_compute|].
  destruct (_ || _); Z.to_euclidean_division_equations; lia.
Qed.

Lemma getitem_Ok {A} (l : list A) (i : Z) :
  0 ≤ i < len l → ∃ x, getitem l i = Ok x ∧ x ∈ l.
Proof.
  intros Hi. unfold getitem. cbv zeta.
  destruct (decide (i < 0)); [lia|].
  destruct (decide (i < 0)); [lia|].
  destruct (l !! Z.to_nat i) as [x|] eqn:E.
  - exists x. split; [done|]. by eapply list_elem_of_lookup_2.
  - apply lookup_ge_None in E. unfold len in Hi. lia.
Qed.

Section Progress.

Variable self : Scheduler.
Hypothesis Hself : usable self.

Lemma param_Ok (i : Z) : 0 ≤ i < 21 → ∃ p, param self i = Ok p.
Proof.
  intros Hi. pose proof (usable_parameters _ Hself) as Hlen.
  destruct (getitem_Ok (parameters self) i) as (p & Hp & _); [lia|].
  by exists p.
Qed.

Ltac use_param i :=
  let p := fresh "p" in
  let Hp := fresh "Hp" in
  destruct (param_Ok i) as [p Hp]; [try lia|];
  rewrite Hp; cbn [mbind result_bind].

Lemma Rating_value_range (rating : Rating) : 1 ≤ Rating_value rating ≤ 4.
Proof. destruct rating; simpl; lia. Qed.

Lemma initial_stability_Ok rating :
  ∃ s, _initial_stability self rating = Ok s.
Proof.
  pose proof (Rating_value_range rating).
  unfold _initial_stability. use_param (Rating_value rating - 1). eauto.
Qed.

Lemma initial_difficulty_Ok rating :
  ∃ d, _initial_difficulty self rating = Ok d.
Proof.
  unfold _initial_difficulty. use_param 4. use_param 5. eauto.
Qed.

Lemma short_term_stability_Ok s rating :
  (0 < s)%R → ∃ s', _short_term_stability self (Some s) rating = Ok s'.
Proof.
  intros Hs. unfold _short_term_stability.
  use_param 17. use_param 18. use_param 19. cbn [need mbind result_bind].
  rewrite float_pow_pos by done. cbn [mbind result_bind]. eauto.
Qed.

Lemma next_difficulty_Ok d rating :
  ∃ d', _next_difficulty self (Some d) rating = Ok d'.
Proof.
  unfold _next_difficulty.
  destruct (initial_difficulty_Ok Easy) as [a ->]. cbn [mbind result_bind].
  use_param 6. cbn [need mbind result_bind]. use_param 7. eauto.
Qed.

Lemma next_stability_Ok d s r rating :
  (0 < d)%R → (0 < s)%R →
  ∃ s', _next_stability self (Some d) (Some s) r rating = Ok s'.
Proof.
  intros Hd Hs. unfold _next_stability.
  destruct (decide (rating = Again)).
  - unfold _next_forget_stability.
    use_param 11. use_param 12. cbn [need mbind result_bind].
    rewrite float_pow_pos by done. cbn [mbind result_bind].
    use_param 13. rewrite float_pow_pos by lra. cbn [mbind result_bind].
    use_param 14. use_param 17. use_param 18. eauto.
  - unfold _next_recall_stability.
    assert (∃ hp, (if decide (rating = Hard) then param self 15 else Ok 1%R)
                  = Ok hp) as [hp ->].
    { destruct (decide _); [apply param_Ok; lia | eauto]. }
    cbn [mbind result_bind].
    assert (∃ eb, (if decide (rating = Easy) then param self 16 else Ok 1%R)
                  = Ok eb) as [eb ->].
    { destruct (decide _); [apply param_Ok; lia | eauto]. }
    cbn [mbind result_bind need].
    use_param 8. use_param 9.
    rewrite float_pow_pos by done. cbn [mbind result_bind].
    use_param 10. eauto.
Qed.

Lemma retrievability_Ok card rd clock s :
  stability card = Some s → (0 < s)%R →
  (∀ last, last_review card = Some last →
           ∃ delta, datetime_sub rd last = Ok delta) →
  ∃ r, get_card_retrievability self card (Some rd) clock = Ok r.
Proof.
  intros Hs Hpos Hlast. unfold get_card_retrievability.
  destruct (last_review card) as [last|]; [|eauto].
  destruct (Hlast last eq_refl) as [delta ->]. rewrite Hs.
  cbn [mbind result_bind need].
  rewrite truediv_Ok by lra. cbn [mbind result_bind].
  pose proof (usable_FACTOR _ Hself) as HF.
  pose proof (elapsed_base (_FACTOR self) s 0 (Z.max 0 (days delta)) HF Hpos
                ltac:(lia)) as [_ Hb].
  replace (1 + _FACTOR self * 0 / s)%R with 1%R in Hb by (unfold Rdiv; lra).
  rewrite float_pow_pos by lra. eauto.
Qed.

Lemma next_interval_Ok s :
  ∃ n, _next_interval self s = Ok n ∧ 1 ≤ n ≤ maximum_interval self.
Proof.
  pose proof (usable_FACTOR _ Hself). pose proof (usable_DECAY _ Hself).
  pose proof (usable_retention _ Hself). pose proof (usable_maximum _ Hself).
  unfold _next_interval.
  rewrite !truediv_Ok by (done || lra). cbn [mbind result_bind].
  rewrite float_pow_pos by done. cbn [mbind result_bind].
  eexists. split; [done|]. lia.
Qed.

Hypothesis Hmax : maximum_interval self < MAXORDINAL.

Lemma timedelta_days_max n :
  1 ≤ n ≤ maximum_interval self →
  timedelta_days n = Ok (Timedelta (n * US_PER_DAY)).
Proof.
  intros Hn. unfold timedelta_days. apply mk_timedelta_range.
  unfold MAXORDINAL, US_PER_DAY, US_PER_SECOND in *. lia.
Qed.

Lemma days_interval_Ok card s :
  stability card = Some s → state card = Review →
  ∃ iv, (s ← need (stability card);
         next_interval_days ← _next_interval self s;
         next_interval ← timedelta_days next_interval_days;
         Ok (card, next_interval)) = Ok (card, iv)
        ∧ interval_for self card iv.
Proof.
  intros Hs Hst. rewrite Hs. cbn [need mbind result_bind].
  destruct (next_interval_Ok s) as (n & -> & Hn). cbn [mbind result_bind].
  rewrite (timedelta_days_max n Hn). cbn [mbind result_bind].
  eexists. split; [done|]. unfold interval_for.
  rewrite decide_True by done. exists n. split; [done|].
  by apply timedelta_days_max.
Qed.

Lemma graduate_Ok card s :
  stability card = Some s →
  ∃ c1 iv, graduate self card = Ok (c1, iv) ∧ interval_for self c1 iv.
Proof.
  intros Hs. unfold graduate. cbv zeta.
  destruct (days_interval_Ok (set_state_step card Review None) s)
    as (iv & -> & Hiv); [done..|]. eauto.
Qed.

Lemma steps_interval_Ok steps card rating s :
  (∀ td, td ∈ steps → 0 ≤ total_microseconds td ≤ US_PER_DAY) →
  stability card = Some s →
  state card ≠ Review →
  (∃ sp, step card = Some sp ∧ 0 ≤ sp) →
  ∃ c1 iv, steps_interval self steps card rating = Ok (c1, iv)
           ∧ interval_for self c1 iv.
Proof.
  intros Hsteps Hs Hst (sp & Hsp & Hsp0).
  assert (0 ≤ len steps) as Hlen by (unfold len; lia).
  assert (∀ c1 iv, state c1 ≠ Review →
                   0 ≤ total_microseconds iv ≤ 2 * US_PER_DAY →
                   interval_for self c1 iv) as Hstep.
  { intros c1 iv Hc1 Hiv. unfold interval_for. by rewrite decide_False. }
  assert (∀ i, 0 ≤ i < len steps →
               ∃ td, getitem steps i = Ok td
                     ∧ 0 ≤ total_microseconds td ≤ US_PER_DAY) as Hget.
  { intros i Hi. destruct (getitem_Ok steps i Hi) as (td & -> & Hin).
    exists td. split; [done|]. by apply Hsteps. }
  unfold steps_interval. rewrite Hsp.
  destruct (decide (len steps = 0)) as [H0|H0].
  { cbn [mbind result_bind]. by eapply graduate_Ok. }
  cbn [need mbind result_bind].
  destruct (bool_decide (len steps ≤ sp) && recalled rating) eqn:Epast.
  { by eapply graduate_Ok. }
  assert (rating = Again ∨ sp < len steps) as Hcase.
  { destruct (decide (len steps ≤ sp)) as [Hle|?]; [|lia].
    rewrite (bool_decide_eq_true_2 _ Hle) in Epast.
    destruct rating; try done. by left. }
  destruct rating.
  - destruct (Hget 0) as (td & -> & Htd); [lia|].
    cbn [mbind result_bind]. eexists _, _. split; [done|].
    apply Hstep; [done|]. unfold US_PER_DAY in *. lia.
  - destruct Hcase as [?|Hlt]; [done|].
    destruct (decide (sp = 0)) as [->|Hne].
    + rewrite (bool_decide_eq_true_2 (Some 0 = Some 0)) by done.
      cbn [andb].
      destruct (Hget 0) as (s0 & Hs0 & Htd0); [lia|].
      destruct (decide (len steps = 1)) as [H1|H1].
      * rewrite (bool_decide_eq_true_2 _ H1). rewrite Hs0.
        cbn [mbind result_bind].
        pose proof (divide_and_round_2 (total_microseconds s0 * 3)
                      ltac:(lia)) as Hdr.
        unfold timedelta_mul_1_5. rewrite mk_timedelta_range.
        2:{ unfold MAXORDINAL, US_PER_DAY, US_PER_SECOND in *. lia. }
        cbn [mbind result_bind]. eexists _, _. split; [done|].
        apply Hstep; [done|]. cbn [total_microseconds].
        unfold divide_and_round in *. cbv zeta in *.
        rewrite decide_True in * by lia.
        unfold US_PER_DAY, US_PER_SECOND in *.
        destruct (_ || _); Z.to_euclidean_division_equations; lia.
      * rewrite (bool_decide_eq_false_2 _ H1).
        rewrite (bool_decide_eq_true_2 (2 ≤ len steps)) by lia.
        destruct (Hget 1) as (s1 & Hs1 & Htd1); [lia|].
        rewrite Hs0, Hs1. cbn [mbind result_bind].
        unfold timedelta_add. rewrite mk_timedelta_range.
        2:{ unfold MAXORDINAL, US_PER_DAY, US_PER_SECOND in *. lia. }
        cbn [mbind result_bind].
        pose proof (divide_and_round_2
                      (1 * (total_microseconds s0 + total_microseconds s1))
                      ltac:(lia)) as Hdr.
        unfold timedelta_div_2. cbn [total_microseconds].
        rewrite mk_timedelta_range.
        2:{ unfold MAXORDINAL, US_PER_DAY, US_PER_SECOND in *. lia. }
        cbn [mbind result_bind]. eexists _, _. split; [done|].
        apply Hstep; [done|]. cbn [total_microseconds]. lia.
    + rewrite !(bool_decide_eq_false_2 (Some sp = Some 0))
        by (intros [= ?]; done).
      cbn [andb need mbind result_bind].
      destruct (Hget sp) as (td & -> & Htd); [lia|].
      cbn [mbind result_bind]. eexists _, _. split; [done|].
      apply Hstep; [done|]. unfold US_PER_DAY in *. lia.
  - destruct Hcase as [?|Hlt]; [done|].
    destruct (decide (sp + 1 = len steps)); [by eapply graduate_Ok|].
    destruct (Hget (sp + 1)) as (td & -> & Htd); [lia|].
    cbn [mbind result_bind]. eexists _, _. split; [done|].
    apply Hstep; [done|]. unfold US_PER_DAY in *. lia.
  - by eapply graduate_Ok.
Qed.

Lemma short_term_update_Ok card rating s d :
  stability card = Some s → difficulty card = Some d → (0 < s)%R →
  ∃ cm, short_term_update self card rating = Ok cm ∧ updated card cm.
Proof.
  intros Hs Hd Hpos. unfold short_term_update. rewrite Hs, Hd.
  destruct (short_term_stability_Ok s rating Hpos) as [s' ->].
  cbn [mbind result_bind].
  destruct (next_difficulty_Ok d rating) as [d' ->].
  cbn [mbind result_bind]. eexists. split; [done|].
  split; [by eexists|done].
Qed.

Lemma long_term_update_Ok card rating rd clock s d :
  stability card = Some s → difficulty card = Some d →
  (0 < s)%R → (0 < d)%R →
  (∀ last, last_review card = Some last →
           ∃ delta, datetime_sub rd last = Ok delta) →
  ∃ cm, long_term_update self card rating rd clock = Ok cm
        ∧ updated card cm.
Proof.
  intros Hs Hd Hspos Hdpos Hlast. unfold long_term_update.
  destruct (retrievability_Ok card rd clock s Hs Hspos Hlast) as [r ->].
  cbn [mbind result_bind]. rewrite Hs, Hd.
  destruct (next_stability_Ok d s r rating Hdpos Hspos) as [s' ->].
  cbn [mbind result_bind].
  destruct (next_difficulty_Ok d rating) as [d' ->].
  cbn [mbind result_bind]. eexists. split; [done|].
  split; [by eexists|done].
Qed.

Lemma review_state_case_Ok card rating rd ds clock :
  reviewable card →
  (∀ last, last_review card = Some last →
           ∃ delta, datetime_sub rd last = Ok delta) →
  (state card = Relearning → same_day ds = true) →
  ∃ c1 iv, review_state_case self card rating rd ds clock = Ok (c1, iv)
           ∧ interval_for self c1 iv.
Proof.
  intros (Hmem & Hstep & _) Hlast Hrel.
  pose proof (usable_steps _ Hself) as Hsteps.
  assert (∀ s d, stability card = Some s → difficulty card = Some d →
                 (0 < s)%R → (0 < d)%R →
          ∃ cm, (if same_day ds then short_term_update self card rating
                 else long_term_update self card rating rd clock) = Ok cm
                ∧ updated card cm) as Hupd.
  { intros s d Hs Hd ? ?. destruct (same_day ds).
    - by eapply short_term_update_Ok.
    - by eapply long_term_update_Ok. }
  unfold review_state_case. destruct (state card) eqn:Hst.
  - unfold review_Learning.
    assert (∃ cm,
      (if bool_decide (stability card = None)
          && bool_decide (difficulty card = None)
       then s ← _initial_stability self rating;
            d ← _initial_difficulty self rating;
            Ok (set_memory card s d)
       else if same_day ds then short_term_update self card rating
            else long_term_update self card rating rd clock) = Ok cm
      ∧ updated card cm) as (cm & -> & (s' & Hs') & Hst' & Hsp').
    { destruct Hmem as [(_ & Hn & Hn')|(s & d & Hs & Hd & ? & ?)].
      - rewrite Hn, Hn'. rewrite !bool_decide_eq_true_2 by done.
        cbn [andb].
        destruct (initial_stability_Ok rating) as [s ->].
        destruct (initial_difficulty_Ok rating) as [d ->].
        cbn [mbind result_bind]. eexists. split; [done|].
        split; [by eexists|done].
      - rewrite Hs. rewrite bool_decide_eq_false_2 by done. cbn [andb].
        by eapply Hupd. }
    cbn [mbind result_bind].
    eapply steps_interval_Ok; [| done | by rewrite Hst', Hst |].
    + intros td Htd. apply Hsteps. apply elem_of_app. by left.
    + rewrite Hsp'. by apply Hstep.
  - unfold review_Review.
    destruct Hmem as [(? & _)|(s & d & Hs & Hd & ? & ?)]; [congruence|].
    destruct (Hupd s d) as (cm & -> & (s' & Hs') & Hst' & Hsp'); try done.
    cbn [mbind result_bind]. rewrite Hst in Hst'.
    assert (∃ iv, (s ← need (stability cm);
                   next_interval_days ← _next_interval self s;
                   next_interval ← timedelta_days next_interval_days;
                   Ok (cm, next_interval)) = Ok (cm, iv)
                  ∧ interval_for self cm iv) as (iv & Hiv & Hfor)
      by (by eapply days_interval_Ok).
    destruct rating; [|by eauto..].
    destruct (decide (len (relearning_steps self) = 0)); [by eauto|].
    destruct (getitem_Ok (relearning_steps self) 0) as (td & -> & Hin).
    { unfold len in *. lia. }
    cbn [mbind result_bind]. eexists _, _. split; [done|].
    unfold interval_for. rewrite decide_False by done.
    assert (0 ≤ total_microseconds td ≤ US_PER_DAY) as Htd.
    { apply Hsteps. apply elem_of_app. by right. }
    unfold US_PER_DAY in *. lia.
  - unfold review_Relearning. rewrite Hrel by done.
    destruct Hmem as [(? & _)|(s & d & Hs & Hd & ? & ?)]; [congruence|].
    destruct (short_term_update_Ok card rating s d)
      as (cm & -> & (s' & Hs') & Hst' & Hsp'); try done.
    cbn [mbind result_bind].
    eapply steps_interval_Ok; [| done | by rewrite Hst', Hst |].
    + intros td Htd. apply Hsteps. apply elem_of_app. by right.
    + rewrite Hsp'. by apply Hstep.
Qed.

End Progress.

Lemma review_card_unfold (self : Scheduler) (card : Card) (rating : Rating)
    (review_datetime : option datetime) (review_duration : option Z)
    (clock : Z) (u : R) :
  review_card self card rating review_datetime review_duration clock u
  = (let rd := review_time review_datetime clock in
     (if bool_decide (tzinfo rd = None)
         || bool_decide (tzinfo rd ≠ Some timezone_utc)
      then Raise ValueError else Ok ());;
     ds ← match last_review card with
          | Some last => delta ← datetime_sub rd last; Ok (Some (days delta))
          | None => Ok None
          end;
     '(c1, iv) ← review_state_case self card rating rd ds clock;
     iv' ← (if enable_fuzzing self && bool_decide (state c1 = Review)
            then _get_fuzzed_interval self iv u else Ok iv);
     due ← datetime_add rd iv';
     Ok (mkCard (card_id c1) (state c1) (step c1) (stability c1)
           (difficulty c1) due (Some rd),
         mkReviewLog (card_id c1) rating rd review_duration)).
Proof. by destruct review_datetime. Qed.

Lemma fuzz_range_bounds (self : Scheduler) (n mn mx : Z) :
  3 ≤ n → 1 ≤ maximum_interval self →
  _get_fuzz_range self n = (mn, mx) →
  1 ≤ mn ≤ mx ∧ mx ≤ maximum_interval self.
Proof.
  intros Hn HM. unfold _get_fuzz_range. intros [= <- <-].
  assert (3 ≤ round (IZR n + fuzz_delta n)).
  { apply round_lower. pose proof (fuzz_delta_ge_1 n).
    apply IZR_le in Hn. lra. }
  lia.
Qed.

Lemma fuzzed_interval_Ok (self : Scheduler) (n : Z) (iv : timedelta) (u : R) :
  (0 <= u < 1)%R → 1 ≤ n ≤ maximum_interval self →
  maximum_interval self < MAXORDINAL →
  timedelta_days n = Ok iv →
  ∃ k, 1 ≤ k ≤ maximum_interval self
       ∧ _get_fuzzed_interval self iv u = Ok (Timedelta (k * US_PER_DAY)).
Proof.
  intros Hu Hn HM Hiv.
  pose proof (days_timedelta_days _ _ Hiv) as Hd.
  unfold _get_fuzzed_interval.
  destruct (decide (IZR (days iv) < 2.5)%R) as [Hlt|Hge].
  { exists n. split; [done|]. by apply timedelta_days_Ok in Hiv as ->. }
  rewrite Hd in *.
  assert (3 ≤ n) as H3.
  { assert (2 < n); [|lia]. apply lt_IZR. lra. }
  destruct (_get_fuzz_range self n) as [mn mx] eqn:E.
  apply fuzz_range_bounds in E as [[Hmn Hmx] HmxM]; [|lia..].
  set (x := (u * IZR (mx - mn + 1) + IZR mn)%R).
  assert (0 <= IZR (mx - mn + 1))%R as Hk by (apply IZR_le; lia).
  assert (IZR mn <= x)%R as Hlo by (unfold x; nra).
  apply round_lower in Hlo.
  exists (Z.min (round x) (maximum_interval self)). split; [lia|].
  unfold timedelta_days. apply mk_timedelta_range.
  unfold MAXORDINAL, US_PER_DAY, US_PER_SECOND in *. lia.
Qed.

Lemma reviewable_sub (self : Scheduler) (card : Card) (rd : datetime) :
  usable self → reviewable card → review_time_in_range self rd →
  ∀ last, last_review card = Some last →
          ∃ delta, datetime_sub rd last = Ok delta.
Proof.
  intros Hself (_ & _ & Hl) (Htz & Hw0 & Hw) last Hlast.
  pose proof (usable_maximum _ Hself) as HM1.
  destruct (Hl last Hlast) as [Haware Hvalid].
  apply datetime_sub_valid; try done.
  unfold MAXORDINAL, US_PER_DAY, US_PER_SECOND in *. lia.
Qed.

Lemma days_since_Ok (card : Card) (rd : datetime) :
  (∀ last, last_review card = Some last →
           ∃ delta, datetime_sub rd last = Ok delta) →
  match last_review card with
  | Some last => delta ← datetime_sub rd last; Ok (Some (days delta))
  | None => Ok None
  end = Ok (days_since card rd).
Proof.
  intros Hsub. unfold days_since.
  destruct (last_review card) as [last|]; [|done].
  by destruct (Hsub last eq_refl) as [delta ->].
Qed.

Lemma review_card_Ok (self : Scheduler) (card : Card)
    (rating : Rating) (review_datetime : option datetime)
    (review_duration : option Z) (clock : Z) (u : R) :
  usable self → reviewable card →
  review_time_in_range self (review_time review_datetime clock) →
  (0 <= u < 1)%R →
  (state card = Relearning →
   same_day (days_since card (review_time review_datetime clock)) = true) →
  ∃ card' log,
    review_card self card rating review_datetime review_duration clock u
    = Ok (card', log).
Proof.
  intros Hself Hcard Hrange Hu Hrel.
  pose proof Hrange as (Htz & Hw0 & Hw).
  pose proof (usable_maximum _ Hself) as HM1.
  assert (maximum_interval self < MAXORDINAL) as HM.
  { unfold MAXORDINAL, US_PER_DAY, US_PER_SECOND in *. lia. }
  rewrite review_card_unfold. cbv zeta.
  set (rd := review_time review_datetime clock) in *.
  rewrite Htz. rewrite bool_decide_eq_false_2 by done.
  rewrite bool_decide_eq_false_2 by (intros Hne; by apply Hne).
  cbn [orb mbind result_bind].
  pose proof (reviewable_sub self card rd Hself Hcard Hrange) as Hsub.
  rewrite (days_since_Ok card rd Hsub).
  cbn [mbind result_bind].
  destruct (review_state_case_Ok self Hself HM card rating rd
              (days_since card rd) clock Hcard Hsub Hrel)
    as (c1 & iv & -> & Hiv).
  cbn [mbind result_bind].
  assert (∃ iv', (if enable_fuzzing self && bool_decide (state c1 = Review)
                  then _get_fuzzed_interval self iv u else Ok iv) = Ok iv'
                 ∧ 0 ≤ total_microseconds iv'
                     ≤ (maximum_interval self + 1) * US_PER_DAY)
    as (iv' & -> & Hiv').
  { unfold interval_for in Hiv.
    destruct (decide (state c1 = Review)) as [Hst|Hst].
    - destruct Hiv as (n & Hn & Hnd).
      destruct (enable_fuzzing self && bool_decide (state c1 = Review)).
      + destruct (fuzzed_interval_Ok self n iv u) as (k & Hk & ->);
          try done.
        eexists. split; [done|]. cbn [total_microseconds].
        unfold US_PER_DAY, US_PER_SECOND. lia.
      + eexists. split; [done|]. apply timedelta_days_Ok in Hnd as ->.
        cbn [total_microseconds]. unfold US_PER_DAY, US_PER_SECOND. lia.
    - rewrite (bool_decide_eq_false_2 _ Hst), andb_false_r.
      eexists. split; [done|]. unfold US_PER_DAY, US_PER_SECOND in *. lia. }
  cbn [mbind result_bind].
  destruct (datetime_add_range rd iv') as [due ->]; [lia|].
  cbn [mbind result_bind]. eauto.
Qed.

(** ** What [Card.from_dict] returns *)




(** ** Review logs read back *)

Lemma Rating_of_value (r : Rating) : Rating_of (Rating_value r) = Ok r.
Proof. by destruct r. Qed.

(** X13.  ReviewLog.from_dict reads back what ReviewLog.to_dict
    writes: for every review log whose review time is a value that a
    datetime can hold, from_dict(to_dict(log)) is the same log. *)
Theorem ReviewLog_from_dict_to_dict (x : ReviewLog) :
  valid_datetime (review_datetime x) →
  ReviewLog_from_dict (ReviewLog_to_dict x) = Ok x.
Proof.
  intros Hvalid. unfold ReviewLog_from_dict, ReviewLog_to_dict, item.
  simplify_map_eq. cbn [mbind result_bind int].
  rewrite Rating_of_value. cbn [mbind result_bind fromisoformat_value].
  rewrite (fromisoformat_isoformat _ Hvalid). cbn [mbind result_bind].
  unfold ReviewLog_init. cbn [mbind result_bind].
  destruct x as [id r d [dur|]]; reflexivity.
Qed.

(** ** Schedulers read back *)

Lemma comprehension_fmap {A B C} (f : B → result C) (g : A → B)
    (h : A → C) (l : list A) :
  Forall (λ x, f (g x) = Ok (h x)) l →
  comprehension f (g <$> l) = Ok (h <$> l).
Proof.
  induction 1 as [|x l Hx _ IH]; [done|].
  cbn [fmap list_fmap comprehension]. rewrite Hx. cbn [mbind result_bind].
  fold (g <$> l). rewrite IH. done.
Qed.

Lemma whole_seconds_read (td : timedelta) :
  valid_timedelta td →
  timedelta_of_seconds (SInt (int_total_seconds td)) = Ok (whole_seconds td).
Proof.
  unfold valid_timedelta, days, timedelta_of_seconds, timedelta_seconds,
    mk_timedelta, whole_seconds, int_total_seconds.
  intros H. rewrite decide_True; [done|].
  unfold US_PER_DAY, US_PER_SECOND in *.
  Z.to_euclidean_division_equations. lia.
Qed.

Lemma whole_seconds_id (td : timedelta) :
  total_microseconds td mod US_PER_SECOND = 0 → whole_seconds td = td.
Proof.
  destruct td as [us]. unfold whole_seconds, int_total_seconds.
  cbn [total_microseconds]. intros H. f_equal.
  unfold US_PER_SECOND in *. Z.to_euclidean_division_equations. lia.
Qed.

Lemma Scheduler_init_steps ps dr ls rs M fz self ls' rs' :
  Scheduler_init ps dr ls rs M fz = Ok self →
  Scheduler_init ps dr ls' rs' M fz
  = Ok (mkScheduler ps dr ls' rs' M fz (_DECAY self) (_FACTOR self)).
Proof.
  intros H. apply Scheduler_init_Ok in H as (p20 & Hp & Hne & ->).
  unfold Scheduler_init. rewrite Hp. cbn [mbind result_bind].
  rewrite truediv_Ok by lra. cbn [mbind result_bind].
  rewrite float_pow_pos by lra. done.
Qed.

(** X14.  Scheduler.from_dict reads back what Scheduler.to_dict writes
    up to the fractions of a second in the steps: for steps of less
    than 2^53 microseconds, the scheduler read back has the same
    parameters, retention, maximum interval, fuzzing flag and
    constants, and every step cut to whole seconds; it is the same
    scheduler when every step is a whole number of seconds. *)
Theorem Scheduler_from_dict_to_dict (ps : list R) (dr : R)
    (ls rs : list timedelta) (M : Z) (fz : bool) (self : Scheduler) :
  Scheduler_init ps dr ls rs M fz = Ok self →
  Forall short_timedelta (ls ++ rs) →
  Scheduler_from_dict (Scheduler_to_dict self)
  = Ok (mkScheduler ps dr (whole_seconds <$> ls) (whole_seconds <$> rs)
          M fz (_DECAY self) (_FACTOR self))
  ∧ (Forall (λ td, total_microseconds td mod US_PER_SECOND = 0) (ls ++ rs) →
     Scheduler_from_dict (Scheduler_to_dict self) = Ok self).
Proof.
  intros Hinit Hshort.
  assert (Forall valid_timedelta (ls ++ rs)) as Hvalid.
  { eapply Forall_impl; [exact Hshort|]. intros td.
    unfold short_timedelta, valid_timedelta, days, US_PER_DAY,
      US_PER_SECOND.
    change (2 ^ 53) with 9007199254740992.
    Z.to_euclidean_division_equations. lia. }
  pose proof (Scheduler_init_steps _ _ _ _ _ _ _ (whole_seconds <$> ls)
                (whole_seconds <$> rs) Hinit) as Hinit'.
  apply Forall_app in Hvalid as [Hls Hrs].
  assert (Scheduler_from_dict (Scheduler_to_dict self)
          = Ok (mkScheduler ps dr (whole_seconds <$> ls)
                  (whole_seconds <$> rs) M fz (_DECAY self) (_FACTOR self)))
    as Hread.
  { apply Scheduler_init_Ok in Hinit as (p20 & Hp & Hne & Hself).
    rewrite Hself in *. cbn [_DECAY _FACTOR] in *.
    unfold Scheduler_from_dict, Scheduler_to_dict, sitem.
    cbn [parameters desired_retention learning_steps relearning_steps
         maximum_interval enable_fuzzing].
    simplify_map_eq. cbn [mbind result_bind iter].
    rewrite (comprehension_fmap timedelta_of_seconds _ whole_seconds ls).
    2:{ eapply Forall_impl; [exact Hls|]. apply whole_seconds_read. }
    cbn [mbind result_bind].
    rewrite (comprehension_fmap timedelta_of_seconds _ whole_seconds rs).
    2:{ eapply Forall_impl; [exact Hrs|]. apply whole_seconds_read. }
    cbn [mbind result_bind].
    unfold Scheduler_init_values. cbn [mbind result_bind iter].
    rewrite (comprehension_fmap number SFloat id).
    2:{ by apply Forall_true. }
    rewrite list_fmap_id. cbn [mbind result_bind number struthy].
    exact Hinit'. }
  split; [exact Hread|].
  intros Hwhole. rewrite Hread. f_equal.
  apply Forall_app in Hwhole as [Hwl Hwr].
  assert (∀ l, Forall (λ td, total_microseconds td mod US_PER_SECOND = 0) l →
               whole_seconds <$> l = l) as Hid.
  { induction 1 as [|td l Htd _ IH]; [done|].
    cbn [fmap list_fmap]. fold (whole_seconds <$> l).
    by rewrite IH, whole_seconds_id. }
  rewrite !Hid by done.
  apply Scheduler_init_Ok in Hinit as (p20 & _ & _ & ->). done.
Qed.

Lemma Scheduler_from_dict_to_dict_witness :
  Scheduler_from_dict (Scheduler_to_dict (default_scheduler true))
  = Ok (default_scheduler true).
Proof.
  apply (Scheduler_from_dict_to_dict DEFAULT_PARAMETERS 0.9
           default_learning_steps default_relearning_steps 36500 true).
  - apply Scheduler_default_Ok.
  - repeat constructor; by vm_compute.
  - repeat constructor.
Defined.

(** ** Sorting with a comparison that can raise *)

Section Sorting.

Context {A C : Type} `{EqDecision C}.
Variable lt : A → A → result bool.
Variable cls : A → C.
Variable key : A → Z.

(** Values of one class compare by their keys; values of two classes do
    not compare. *)
Hypothesis lt_spec : ∀ x y,
  lt x y = if decide (cls x = cls y) then Ok (bool_decide (key x < key y))
           else Raise TypeError.

Lemma insort_Ok x l :
  (∀ y, y ∈ l → cls y = cls x) →
  ∃ l', insort lt x l = Ok l' ∧ l' ≡ₚ x :: l
        ∧ (Sorted (key_le key) l → Sorted (key_le key) l').
Proof.
  induction l as [|y l IH]; intros Hcls.
  - exists [x]. split; [done|]. split; [done|].
    intros _. by repeat constructor.
  - cbn [insort]. rewrite lt_spec.
    rewrite decide_True by (apply Hcls; by left).
    cbn [mbind result_bind].
    destruct (decide (key y < key x)) as [Hlt|Hge].
    + rewrite (bool_decide_eq_true_2 _ Hlt).
      destruct IH as (l' & -> & Hperm & Hsorted).
      { intros z Hz. apply Hcls. by right. }
      cbn [mbind result_bind]. exists (y :: l'). split; [done|]. split.
      { rewrite Hperm. apply Permutation_swap. }
      intros Hs.
      assert (Forall ((key_le key) y) l) as Hyl.
      { apply Sorted_StronglySorted in Hs.
        - by apply StronglySorted_inv in Hs as [_ ?].
        - intros ???. unfold key_le. lia. }
      apply Sorted_inv in Hs as [Hs Hhd].
      constructor; [by apply Hsorted|].
      assert (Forall ((key_le key) y) l') as Hall.
      { rewrite Hperm. constructor; [unfold key_le; lia|done]. }
      destruct l' as [|z l'']; [constructor|].
      constructor. by apply Forall_cons in Hall as [? _].
    + rewrite (bool_decide_eq_false_2 _ Hge).
      exists (x :: y :: l). split; [done|]. split; [done|].
      intros Hs. constructor; [done|]. constructor. unfold key_le. lia.
Qed.

Lemma insort_Raise x y l :
  cls y ≠ cls x → insort lt x (y :: l) = Raise TypeError.
Proof.
  intros Hne. cbn [insort]. rewrite lt_spec. by rewrite decide_False.
Qed.

Lemma sorted_Ok l :
  one_class cls l →
  ∃ l', sorted lt l = Ok l' ∧ l' ≡ₚ l ∧ Sorted (key_le key) l'.
Proof.
  induction l as [|x l IH]; intros Hcls.
  - exists []. split; [done|]. split; [done|]. constructor.
  - destruct IH as (s & Hs & Hperm & Hsorted).
    { intros y z Hy Hz. apply Hcls; by right. }
    cbn [sorted]. rewrite Hs. cbn [mbind result_bind].
    destruct (insort_Ok x s) as (l' & -> & Hperm' & Hsorted').
    { intros y Hy. rewrite Hperm in Hy. apply Hcls; [by right|by left]. }
    exists l'. split; [done|]. split; [by rewrite Hperm', Hperm|].
    by apply Hsorted'.
Qed.

Lemma sorted_Raise l :
  ¬ one_class cls l → sorted lt l = Raise TypeError.
Proof.
  induction l as [|x l IH]; intros Hcls.
  - destruct Hcls. intros ?? H. by apply elem_of_nil in H.
  - cbn [sorted].
    destruct (decide (Forall (λ y, cls y = cls x) l)) as [Hall|Hmix].
    { destruct Hcls. rewrite Forall_forall in Hall.
      intros y z [->|Hy]%elem_of_cons [->|Hz]%elem_of_cons; try done.
      - symmetry. by apply Hall.
      - by apply Hall.
      - rewrite (Hall _ Hy), (Hall _ Hz). done. }
    destruct (decide (Forall (λ y, Forall (λ z, cls y = cls z) l) l))
      as [Hone|Hone].
    + destruct (sorted_Ok l) as (s & -> & Hperm & _).
      { intros y z Hy Hz. rewrite Forall_forall in Hone.
        specialize (Hone _ Hy). rewrite Forall_forall in Hone. by apply Hone. }
      cbn [mbind result_bind].
      destruct s as [|y s].
      { apply Permutation_nil_l in Hperm. subst l. destruct Hmix. constructor. }
      apply insort_Raise. intros Hy. apply Hmix. apply Forall_forall.
      intros z Hz. rewrite <- Hy.
      rewrite Forall_forall in Hone.
      assert (y ∈ l) as Hyl by (rewrite <- Hperm; by left).
      specialize (Hone _ Hz). rewrite Forall_forall in Hone. by apply Hone.
    + rewrite IH; [done|]. intros Hcl. apply Hone.
      apply Forall_forall. intros y Hy. apply Forall_forall. intros z Hz.
      by apply Hcl.
Qed.

End Sorting.

(** ** Dictionaries in insertion order *)

Section Dict.

Context {V : Type}.
Implicit Types (d : dict V) (k c : Z) (v h : V).

Lemma dict_setitem_keys d k v :
  (dict_setitem d k v).*1 = if decide (k ∈ d.*1) then d.*1 else d.*1 ++ [k].
Proof.
  induction d as [|[k' v'] d IH]; [done|].
  cbn [dict_setitem fmap list_fmap fst].
  destruct (decide (k' = k)) as [->|Hne].
  - cbn [fmap list_fmap fst]. rewrite decide_True by (by left). done.
  - cbn [fmap list_fmap fst]. fold (d.*1). fold ((dict_setitem d k v).*1).
    rewrite IH. destruct (decide (k ∈ d.*1)) as [Hin|Hnin].
    + rewrite decide_True by (by right). done.
    + rewrite decide_False; [done|].
      intros [?|?]%elem_of_cons; congruence.
Qed.

Lemma dict_setitem_NoDup d k v :
  NoDup d.*1 → NoDup (dict_setitem d k v).*1.
Proof.
  intros Hd. rewrite dict_setitem_keys. destruct (decide _); [done|].
  apply NoDup_app. split; [done|]. split.
  - intros x Hx [->|Hn]%elem_of_cons; [done|]. by apply elem_of_nil in Hn.
  - apply NoDup_singleton.
Qed.

Lemma elem_of_dict_setitem d k v c h :
  NoDup d.*1 →
  (c, h) ∈ dict_setitem d k v ↔ c = k ∧ h = v ∨ c ≠ k ∧ (c, h) ∈ d.
Proof.
  induction d as [|[k' v'] d IH]; intros Hd.
  - cbn [dict_setitem]. rewrite list_elem_of_singleton. split.
    + intros [= -> ->]. by left.
    + intros [[-> ->]|[_ H]]; [done|]. by apply elem_of_nil in H.
  - apply NoDup_cons in Hd as [Hk' Hd]. cbn [dict_setitem].
    destruct (decide (k' = k)) as [->|Hne].
    + rewrite !elem_of_cons. split.
      * intros [[= -> ->]|Hin]; [by left|]. right. split; [|by right].
        intros ->. apply Hk'. apply list_elem_of_fmap. by exists (k, h).
      * intros [[-> ->]|[Hc [[= -> ->]|Hin]]]; [by left|done|by right].
    + rewrite !elem_of_cons, IH by done. split.
      * intros [[= -> ->]|[[-> ->]|[Hc Hin]]].
        -- right. split; [done|by left].
        -- by left.
        -- right. split; [done|by right].
      * intros [[-> ->]|[Hc [[= -> ->]|Hin]]].
        -- right. by left.
        -- by left.
        -- right. right. by split.
Qed.

Lemma dict_getitem_elem_of d k v :
  NoDup d.*1 → dict_getitem d k = Ok v ↔ (k, v) ∈ d.
Proof.
  induction d as [|[k' v'] d IH]; intros Hd.
  - cbn [dict_getitem]. split; [done|]. by intros ?%elem_of_nil.
  - apply NoDup_cons in Hd as [Hk' Hd]. cbn [dict_getitem].
    rewrite elem_of_cons. destruct (decide (k' = k)) as [->|Hne].
    + split; [intros [= ->]; by left|].
      intros [[= ->]|Hin]; [done|].
      destruct Hk'. apply list_elem_of_fmap. by exists (k, v).
    + rewrite IH by done. split; [by right|].
      by intros [[= -> ->]|?].
Qed.

End Dict.

(** ** [_format_revlogs] *)

Lemma filter_none {A} (P : A → Prop) `{∀ x, Decision (P x)} (l : list A) :
  (∀ x, x ∈ l → ¬ P x) → filter P l = [].
Proof.
  induction l as [|x l IH]; intros Hl; [done|].
  rewrite filter_cons. rewrite decide_False by (apply Hl; by left).
  apply IH. intros y Hy. apply Hl. by right.
Qed.

Lemma datetime_lt_spec (a b : datetime) :
  datetime_lt a b
  = if decide (aware a = aware b)
    then Ok (bool_decide (instant a < instant b))
    else Raise TypeError.
Proof.
  unfold datetime_lt, aware, instant.
  destruct (tzinfo a), (tzinfo b); try done;
    rewrite decide_True by done; do 2 f_equal; apply bool_decide_ext; lia.
Qed.

Lemma datum_lt_spec (x y : datum) :
  datum_lt x y
  = if decide (aware (datum_key x) = aware (datum_key y))
    then Ok (bool_decide (instant (datum_key x) < instant (datum_key y)))
    else Raise TypeError.
Proof. apply datetime_lt_spec. Qed.

Lemma item_lt_spec (x y : Z * list datum) :
  Ok (bool_decide (x.1 < y.1))
  = if decide ((λ _, true) x = (λ _, true) y)
    then Ok (bool_decide (x.1 < y.1)) else Raise TypeError.
Proof. by rewrite decide_True. Qed.

Lemma sorted_items (d : dict (list datum)) :
  ∃ d', sorted (λ x y : Z * list datum, Ok (bool_decide (x.1 < y.1))) d
        = Ok d'
        ∧ d' ≡ₚ d ∧ Sorted (key_le fst) d'.
Proof.
  pose proof (sorted_Ok
                (λ x y : Z * list datum, Ok (bool_decide (x.1 < y.1)))
                (λ _, true) fst item_lt_spec d) as H.
  by apply H.
Qed.

Lemma card_logs_snoc c logs x :
  card_logs c (logs ++ [x])
  = card_logs c logs ++ (if decide (log_card_id x = c) then [x] else []).
Proof.
  unfold card_logs. rewrite filter_app. by f_equal.
Qed.

Lemma comparable_snoc logs x :
  comparable logs →
  (∀ l, l ∈ logs → log_card_id l = log_card_id x →
        aware (review_datetime l) = aware (review_datetime x)) →
  comparable (logs ++ [x]).
Proof.
  intros Hc Hx l1 l2 H1 H2 Hid.
  apply elem_of_app in H1 as [H1|H1%list_elem_of_singleton],
        H2 as [H2|H2%list_elem_of_singleton]; subst.
  - by apply Hc.
  - by apply Hx.
  - symmetry. by apply Hx.
  - done.
Qed.

Lemma format_revlog_step logs d x :
  formatted logs d →
  (comparable (logs ++ [x]) →
   ∃ d', format_revlog d x = Ok d' ∧ formatted (logs ++ [x]) d')
  ∧ (¬ comparable (logs ++ [x]) → format_revlog d x = Raise TypeError).
Proof.
  intros (Hnd & Hcmp & Hkeys & Hitems).
  unfold format_revlog. cbv zeta.
  set (c := log_card_id x).
  set (d0 := if dict_contains d c then d else dict_setitem d c []).
  assert (NoDup d0.*1) as Hnd0.
  { unfold d0. destruct (dict_contains d c); [done|].
    by apply dict_setitem_NoDup. }
  assert (∀ c' h, (c', h) ∈ d0 ↔
                  (c', h) ∈ d ∨ (c ∉ d.*1) ∧ c' = c ∧ h = []) as Hd0.
  { intros c' h. unfold d0, dict_contains.
    destruct (decide (c ∈ d.*1)) as [Hin|Hnin].
    - rewrite (bool_decide_eq_true_2 _ Hin). split; [by left|].
      by intros [?|[? _]].
    - rewrite (bool_decide_eq_false_2 _ Hnin).
      rewrite elem_of_dict_setitem by done. split.
      + intros [[-> ->]|[_ ?]]; [by right|by left].
      + intros [Hin|(_ & -> & ->)]; [|by left].
        right. split; [|done]. intros ->. apply Hnin.
        apply list_elem_of_fmap. by exists (c, h). }
  assert (∃ h0, dict_getitem d0 c = Ok h0
                ∧ h0 ≡ₚ datum_of <$> card_logs c logs
                ∧ in_review_order h0) as (h0 & Hget & Hperm0 & Hsorted0).
  { destruct (decide (c ∈ d.*1)) as [Hin|Hnin].
    - apply list_elem_of_fmap in Hin as ([c' h] & Hc' & Hin).
      cbn [fst] in Hc'. subst c'. exists h.
      split; [|by apply Hitems].
      apply dict_getitem_elem_of; [done|]. apply Hd0. by left.
    - exists []. split; [|split].
      + apply dict_getitem_elem_of; [done|]. apply Hd0. by right.
      + assert (card_logs c logs = []) as ->; [|done].
        apply filter_none. intros l Hl Hid. apply Hnin. apply Hkeys.
        by exists l.
      + constructor. }
  rewrite Hget. cbn [mbind result_bind].
  fold datum_lt.
  assert (∀ y, y ∈ h0 → ∃ l, l ∈ logs ∧ log_card_id l = c ∧ y = datum_of l)
    as Hh0.
  { intros y Hy. rewrite Hperm0 in Hy.
    apply list_elem_of_fmap in Hy as (l & -> & Hl).
    apply list_elem_of_filter in Hl as [Hid Hl]. by exists l. }
  assert (one_class (λ y : datum, aware (datum_key y)) h0) as Hone0.
  { intros y z Hy Hz.
    destruct (Hh0 y Hy) as (l1 & ? & ? & ->).
    destruct (Hh0 z Hz) as (l2 & ? & ? & ->).
    apply Hcmp; congruence. }
  split.
  - intros Hcmp'.
    destruct (sorted_Ok datum_lt _ _ datum_lt_spec (h0 ++ [datum_of x]))
      as (h' & -> & Hperm' & Hsorted').
    { intros y z Hy Hz.
      assert (∀ y, y ∈ h0 ++ [datum_of x] →
                   aware (datum_key y) = aware (review_datetime x)) as Hall.
      { intros w [Hw|Hw%list_elem_of_singleton]%elem_of_app; [|by subst w].
        destruct (Hh0 w Hw) as (l & Hl & Hid & ->).
        apply Hcmp'; [| |done].
        - apply elem_of_app. by left.
        - apply elem_of_app. right. by apply list_elem_of_singleton. }
      by rewrite (Hall y), (Hall z). }
    cbn [mbind result_bind]. eexists. split; [done|].
    split; [by apply dict_setitem_NoDup|]. split; [done|]. split.
    + assert (∀ c', c' ∈ d0.*1 ↔ c' ∈ d.*1 ∨ c' = c) as Hk0.
      { intros c'. split.
        - intros ([c'' h] & -> & Hin)%list_elem_of_fmap. cbn [fst].
          apply Hd0 in Hin as [Hin|(_ & -> & _)]; [|by right].
          left. apply list_elem_of_fmap. by exists (c'', h).
        - intros [([c'' h] & -> & Hin)%list_elem_of_fmap| ->].
          + apply list_elem_of_fmap. exists (c'', h). split; [done|].
            apply Hd0. by left.
          + apply list_elem_of_fmap. exists (c, h0). split; [done|].
            by apply dict_getitem_elem_of. }
      intros c'. rewrite dict_setitem_keys.
      rewrite decide_True by (apply Hk0; by right).
      rewrite Hk0, Hkeys. split.
      * intros [(l & Hl & Hid)| ->].
        -- exists l. split; [|done]. apply elem_of_app. by left.
        -- exists x. split; [|done]. apply elem_of_app. right.
           by apply list_elem_of_singleton.
      * intros (l & [Hl|Hl%list_elem_of_singleton]%elem_of_app & Hid).
        -- left. by exists l.
        -- right. by subst l.
    + intros c' h Hin. apply elem_of_dict_setitem in Hin; [|done].
      rewrite card_logs_snoc, fmap_app.
      destruct Hin as [[-> ->]|[Hne Hin]].
      * rewrite decide_True by done. split; [by rewrite Hperm', Hperm0|done].
      * rewrite decide_False by done. rewrite app_nil_r.
        apply Hd0 in Hin as [Hin|(_ & ? & _)]; [|done].
        by apply Hitems.
  - intros Hcmp'. rewrite (sorted_Raise datum_lt _ _ datum_lt_spec); [done|].
    intros Hone. apply Hcmp'. apply comparable_snoc; [done|].
    intros l Hl Hid.
    apply (Hone (datum_of l) (datum_of x)).
    + apply elem_of_app. left. rewrite Hperm0. apply list_elem_of_fmap.
      exists l. split; [done|]. by apply list_elem_of_filter.
    + apply elem_of_app. right. by apply list_elem_of_singleton.
Qed.

Lemma comparable_app_l logs logs' :
  comparable (logs ++ logs') → comparable logs.
Proof.
  intros H l1 l2 H1 H2. apply H; apply elem_of_app; by left.
Qed.

Lemma for_each_format logs' : ∀ logs d,
  formatted logs d →
  (comparable (logs ++ logs') →
   ∃ d', for_each format_revlog d logs' = Ok d'
         ∧ formatted (logs ++ logs') d')
  ∧ (¬ comparable (logs ++ logs') →
     for_each format_revlog d logs' = Raise TypeError).
Proof.
  induction logs' as [|x logs' IH]; intros logs d Hd.
  - rewrite app_nil_r. split.
    + intros _. by exists d.
    + intros Hn. by destruct Hd as (_ & ? & _).
  - replace (logs ++ x :: logs') with ((logs ++ [x]) ++ logs')
      by (by rewrite <- app_assoc).
    cbn [for_each].
    destruct (format_revlog_step logs d x Hd) as [Hok Hraise].
    split.
    + intros Hcmp.
      assert (comparable (logs ++ [x])) as Hcx
        by (by eapply comparable_app_l).
      destruct (Hok Hcx) as (d1 & -> & Hd1).
      cbn [mbind result_bind]. by apply IH.
    + intros Hcmp.
      destruct (decide (Forall (λ l, log_card_id l = log_card_id x →
                                     aware (review_datetime l)
                                     = aware (review_datetime x)) logs))
        as [Hall|Hmix].
      * assert (comparable (logs ++ [x])) as Hcx.
        { apply comparable_snoc; [by destruct Hd as (_ & ? & _)|].
          by rewrite Forall_forall in Hall. }
        destruct (Hok Hcx) as (d1 & -> & Hd1).
        cbn [mbind result_bind]. by apply (IH (logs ++ [x]) d1 Hd1).
      * rewrite Hraise; [done|]. intros Hc. apply Hmix.
        apply Forall_forall. intros l Hl Hid. apply Hc; [| |done].
        -- apply elem_of_app. by left.
        -- apply elem_of_app. right. by apply list_elem_of_singleton.
Qed.

Lemma formatted_nil : formatted [] [].
Proof.
  split; [constructor|]. split; [|split].
  - intros ?? H. by apply elem_of_nil in H.
  - intros c. split; [by intros ?%elem_of_nil|].
    intros (l & Hl & _). by apply elem_of_nil in Hl.
  - intros c h H. by apply elem_of_nil in H.
Qed.

(** What [_format_revlogs] does, in one statement. *)
Lemma format_revlogs_spec (logs : list ReviewLog) :
  (comparable logs →
   ∃ d, _format_revlogs logs = Ok d
        ∧ Sorted Z.lt d.*1
        ∧ (∀ c, c ∈ d.*1 ↔ ∃ l, l ∈ logs ∧ log_card_id l = c)
        ∧ (∀ c h, (c, h) ∈ d →
                  h ≡ₚ datum_of <$> card_logs c logs ∧ in_review_order h))
  ∧ (¬ comparable logs → _format_revlogs logs = Raise TypeError).
Proof.
  unfold _format_revlogs.
  destruct (for_each_format logs [] [] formatted_nil) as [Hok Hraise].
  cbn [app] in *. split.
  - intros Hcmp. destruct (Hok Hcmp) as (d & -> & Hnd & _ & Hkeys & Hitems).
    cbn [mbind result_bind].
    destruct (sorted_items d) as (d' & -> & Hperm & Hsorted).
    exists d'. split; [done|].
    assert (d'.*1 ≡ₚ d.*1) as Hpk by (by rewrite Hperm).
    split; [|split].
    + assert (NoDup d'.*1) as Hnd' by (by rewrite Hpk).
      clear -Hsorted Hnd'.
      induction d' as [|[c h] d' IH]; [constructor|].
      apply Sorted_inv in Hsorted as [Hs Hhd].
      apply NoDup_cons in Hnd' as [Hc Hnd'].
      cbn [fmap list_fmap fst]. constructor; [by apply IH|].
      destruct d' as [|[c' h'] d'']; [constructor|].
      constructor. apply HdRel_inv in Hhd. unfold key_le in Hhd.
      cbn [fst] in *.
      assert (c ≠ c'); [|lia]. intros ->. apply Hc. by left.
    + intros c. rewrite Hpk. apply Hkeys.
    + intros c h Hin. rewrite Hperm in Hin. by apply Hitems.
  - intros Hcmp. by rewrite Hraise.
Qed.

Lemma comparable_dec (logs : list ReviewLog) :
  comparable logs ∨ ¬ comparable logs.
Proof.
  destruct (decide (Forall (λ l1,
              Forall (λ l2, log_card_id l1 = log_card_id l2 →
                            aware (review_datetime l1)
                            = aware (review_datetime l2)) logs) logs))
    as [H|H].
  - left. intros l1 l2 H1 H2. rewrite Forall_forall in H.
    specialize (H _ H1). rewrite Forall_forall in H. by apply H.
  - right. intros Hc. apply H. apply Forall_forall. intros l1 H1.
    apply Forall_forall. intros l2 H2. by apply Hc.
Qed.

Lemma format_revlogs_returned (logs : list ReviewLog)
    (d : dict (list datum)) :
  _format_revlogs logs = Ok d →
  comparable logs
  ∧ Sorted Z.lt d.*1
  ∧ (∀ c, c ∈ d.*1 ↔ ∃ l, l ∈ logs ∧ log_card_id l = c)
  ∧ (∀ c h, (c, h) ∈ d →
            h ≡ₚ datum_of <$> card_logs c logs ∧ in_review_order h).
Proof.
  intros H. destruct (format_revlogs_spec logs) as [Hok Hraise].
  destruct (comparable_dec logs) as [Hc|Hc].
  - split; [done|]. destruct (Hok Hc) as (d' & Hd' & Hrest).
    rewrite Hd' in H. by injection H as <-.
  - rewrite (Hraise Hc) in H. discriminate.
Qed.

(** X15.  When _format_revlogs returns, the card ids of the dictionary
    are in strictly ascending order and every card's history is in the
    order of its review times. *)
Theorem format_revlogs_order (review_logs : list ReviewLog)
    (revlogs_train : dict (list datum)) :
  _format_revlogs review_logs = Ok revlogs_train →
  Sorted Z.lt revlogs_train.*1
  ∧ ∀ c h, (c, h) ∈ revlogs_train → in_review_order h.
Proof.
  intros H. apply format_revlogs_returned in H as (_ & Hkeys & _ & Hitems).
  split; [done|]. intros c h Hin. by destruct (Hitems c h Hin).
Qed.

(** X16.  When _format_revlogs returns, the dictionary has a key for
    exactly the card ids that occur in the review logs, and the
    history of a card is a permutation of the data of the review logs
    of that card: no review is lost, repeated or moved to another
    card. *)
Theorem format_revlogs_content (review_logs : list ReviewLog)
    (revlogs_train : dict (list datum)) :
  _format_revlogs review_logs = Ok revlogs_train →
  (∀ c, c ∈ revlogs_train.*1 ↔ ∃ l, l ∈ review_logs ∧ log_card_id l = c)
  ∧ ∀ c h, (c, h) ∈ revlogs_train →
           h ≡ₚ datum_of <$> card_logs c review_logs.
Proof.
  intros H. apply format_revlogs_returned in H as (_ & _ & Hkeys & Hitems).
  split; [done|]. intros c h Hin. by destruct (Hitems c h Hin).
Qed.

(** X17.  _format_revlogs returns when no card has both naive and
    aware review times, and raises TypeError otherwise. *)
Theorem format_revlogs_raises (review_logs : list ReviewLog) :
  (comparable review_logs →
   ∃ revlogs_train, _format_revlogs review_logs = Ok revlogs_train)
  ∧ (¬ comparable review_logs →
     _format_revlogs review_logs = Raise TypeError).
Proof.
  destruct (format_revlogs_spec review_logs) as [Hok Hraise].
  split; [|done].
  intros Hc. destruct (Hok Hc) as (d & Hd & _). by exists d.
Qed.

(** ** [_num_reviews] *)

Lemma for_each_app {S A} (body : S → A → result S) (l1 l2 : list A) :
  ∀ s, for_each body s (l1 ++ l2)
       = (s' ← for_each body s l1; for_each body s' l2).
Proof.
  induction l1 as [|x l1 IH]; intros s; [done|].
  cbn [app for_each]. destruct (body s x) as [s'|e]; [|done].
  cbn [mbind result_bind]. apply IH.
Qed.

Lemma for_each_elem_of {S A} (body : S → A → result S) (l : list A) (x : A)
    (s s' : S) :
  x ∈ l → for_each body s l = Ok s' →
  ∃ s1 s2, body s1 x = Ok s2.
Proof.
  intros Hx. apply list_elem_of_split in Hx as (l1 & l2 & ->).
  rewrite for_each_app. intros H. returned H.
  cbn [for_each] in H. returned H. eauto.
Qed.

Lemma datetime_sub_instant (t p : datetime) (delta : timedelta) :
  datetime_sub t p = Ok delta →
  total_microseconds delta = instant t - instant p.
Proof.
  unfold datetime_sub, instant.
  destruct (tzinfo t), (tzinfo p); try done;
    intros ->%mk_timedelta_Ok; cbn [total_microseconds]; lia.
Qed.

Lemma days_later (delta : timedelta) :
  0 < days delta ↔ US_PER_DAY ≤ total_microseconds delta.
Proof.
  unfold days, US_PER_DAY, US_PER_SECOND.
  split; intros H; Z.to_euclidean_division_equations; lia.
Qed.

Section NumReviews.

Variable scheduler : Scheduler.
Variable rand : nat → R.

Lemma num_reviews_review_returned n card k x n' card' k' :
  num_reviews_review scheduler rand (n, card, k) x = Ok (n', card', k') →
  n' = n + later_day_reviews (last_review card) [x]
  ∧ (∀ p, last_review card = Some p →
          ∃ delta, datetime_sub (datum_key x) p = Ok delta)
  ∧ ∃ log, review_card scheduler card (datum_rating x) (Some (datum_key x))
             None 0 (rand k) = Ok (card', log).
Proof.
  unfold num_reviews_review. intros H. returned H.
  injection H as <- <- <-. split; [|split; [|by eexists]].
  - cbn [later_day_reviews]. rewrite Z.add_0_r.
    destruct (last_review card) as [p|].
    + returned E. injection E as <-.
      apply datetime_sub_instant in E1. rewrite <- E1.
      destruct (decide (0 < days a0)) as [Hd|Hd].
      * rewrite (bool_decide_eq_true_2 _ Hd).
        by rewrite decide_True by (by apply days_later).
      * rewrite (bool_decide_eq_false_2 _ Hd).
        rewrite decide_False; [lia|]. by rewrite <- days_later.
    + injection E as <-. lia.
  - intros p Hp. rewrite Hp in E. returned E. eauto.
Qed.




End NumReviews.


(** X19.  _num_reviews does not return when, among the first 64
    reviews of some card, a review rated Easy is followed by a review
    rated Again and then by a review a whole day or more later: the
    replay of that history runs into the Relearning branch of
    review_card. *)
Theorem num_reviews_stops_after_lapse (revlogs_train : dict (list datum))
    (rand : nat → R) (n : Z) (c : Z) (h h1 h2 : list datum)
    (x1 x2 x3 : datum) :
  (c, h) ∈ revlogs_train →
  take max_seq_len h = h1 ++ x1 :: x2 :: x3 :: h2 →
  datum_rating x1 = Easy → datum_rating x2 = Again →
  US_PER_DAY ≤ instant (datum_key x3) - instant (datum_key x2) →
  _num_reviews revlogs_train rand ≠ Ok n.
Proof.
  intros Hin Htake Hr1 Hr2 Hlater H.
  unfold _num_reviews in H. rewrite Scheduler_default_Ok in H.
  cbn [mbind result_bind] in H. returned H. clear H.
  apply (for_each_elem_of _ _ _ _ _ Hin) in E as ([m0 j0] & [m1 j1] & Hcard).
  unfold num_reviews_card in Hcard. rewrite Htake in Hcard.
  assert (∃ card0 st,
            for_each (num_reviews_review (default_scheduler true) rand)
              (m0, card0, j0) (h1 ++ x1 :: x2 :: x3 :: h2) = Ok st)
    as (card0 & st & Hloop).
  { destruct (h1 ++ x1 :: x2 :: x3 :: h2) as [|first rest] eqn:E.
    - by destruct h1.
    - returned Hcard. eauto. }
  clear Hcard. rewrite for_each_app in Hloop. returned Hloop.
  destruct a as [[na ca] ka]. cbn [for_each] in Hloop. returned Hloop.
  destruct a as [[nb cb] kb], a0 as [[nc cc] kc], a1 as [[nd cd] kd].
  apply num_reviews_review_returned in E0 as (_ & _ & log1 & Hrev1).
  apply num_reviews_review_returned in E1 as (_ & _ & log2 & Hrev2).
  apply num_reviews_review_returned in E2 as (_ & Hsub & log3 & Hrev3).
  rewrite Hr1 in Hrev1. rewrite Hr2 in Hrev2.
  apply state_after_Easy in Hrev1.
  pose proof (last_review_after _ _ _ _ _ _ _ _ _ Hrev2) as Hlast.
  cbn [review_time] in Hlast.
  apply state_after_lapse in Hrev2; [|done..].
  destruct (Hsub _ Hlast) as [delta Hdelta].
  pose proof (review_card_returned _ _ _ _ _ _ _ _ _ Hrev3) as [Htz _].
  cbn [review_time] in Htz.
  rewrite (review_card_Relearning_long_term _ _ _ _ (datum_key x2) delta)
    in Hrev3; try done.
  assert (0 < days delta); [|lia].
  apply days_later. apply datetime_sub_instant in Hdelta. lia.
Qed.

(** ** [_validate_review_logs] *)

Lemma for_each_durations (review_logs : list ReviewLog) :
  for_each (λ (_ : unit) review_log,
              if decide (review_duration review_log = None)
              then Raise ValueError else Ok ())
    () review_logs
  = if decide (Forall (λ l, review_duration l ≠ None) review_logs)
    then Ok () else Raise ValueError.
Proof.
  induction review_logs as [|x logs IH].
  - by rewrite decide_True by constructor.
  - cbn [for_each].
    destruct (decide (review_duration x = None)) as [He|Hne].
    + cbn [mbind result_bind]. rewrite decide_False; [done|].
      intros HF. by apply Forall_cons in HF as [? _].
    + cbn [mbind result_bind]. rewrite IH.
      destruct (decide (Forall (λ l, review_duration l ≠ None) logs))
        as [Hall|Hnot].
      * by rewrite decide_True by (by constructor).
      * rewrite decide_False; [done|].
        intros HF. by apply Forall_cons in HF as [_ ?].
Qed.

(** X20.  _validate_review_logs accepts the review logs when there are
    at least 512 of them and each one has a review duration, and
    raises ValueError in every other case. *)
Theorem validate_review_logs_outcome (review_logs : list ReviewLog) :
  _validate_review_logs review_logs
  = if decide (512 ≤ len review_logs
               ∧ Forall (λ l, review_duration l ≠ None) review_logs)
    then Ok () else Raise ValueError.
Proof.
  unfold _validate_review_logs.
  destruct (decide (len review_logs < 512)) as [Hfew|Hmany].
  - rewrite decide_False; [done|]. intros [? _]. lia.
  - cbn [mbind result_bind]. rewrite for_each_durations.
    destruct (decide (Forall (λ l, review_duration l ≠ None) review_logs))
      as [Hall|Hnot].
    + rewrite decide_True; [done|]. split; [lia|done].
    + rewrite decide_False; [done|]. by intros [_ ?].
Qed.

(** ** The fuzz, in general *)

(** X11.  For a random draw in [0, 1), _get_fuzzed_interval returns an
    interval of less than 2.5 days as it is, and turns a longer one
    into a whole number of days that is at least min_ivl, at most
    max_ivl + 1 and never above maximum_interval. *)
Theorem get_fuzzed_interval_bounds (self : Scheduler) (interval : timedelta)
    (u : R) (fuzzed : timedelta) :
  (0 <= u < 1)%R →
  _get_fuzzed_interval self interval u = Ok fuzzed →
  if decide (IZR (days interval) < 2.5)%R then fuzzed = interval
  else
    let '(min_ivl, max_ivl) := _get_fuzz_range self (days interval) in
    fuzzed = Timedelta (days fuzzed * US_PER_DAY)
    ∧ min_ivl ≤ days fuzzed ≤ Z.min (max_ivl + 1) (maximum_interval self).
Proof.
  intros Hu H. destruct (decide (IZR (days interval) < 2.5)%R) as [Hlt|Hge].
  - unfold _get_fuzzed_interval in H. rewrite decide_True in H by done.
    by injection H as <-.
  - assert (2.5 <= IZR (days interval))%R as Hge' by lra.
    pose proof (fuzzed_interval_range self interval u fuzzed Hge' Hu H)
      as Hr.
    unfold _get_fuzzed_interval in H. rewrite decide_False in H by done.
    destruct (_get_fuzz_range self (days interval)) as [mn mx].
    split; [|done].
    pose proof (days_timedelta_days _ _ H) as Hk.
    apply timedelta_days_Ok in H. by rewrite Hk.
Qed.

(** ** The Relearning branch, in general *)

(** X8.  For every scheduler and rating, review_card raises
    AttributeError on a Relearning card that is reviewed at a UTC time
    a whole day or more after its last review, or that has no last
    review: the branch calls card.get_retrievability, which Card does
    not have. *)
Theorem review_card_Relearning_raises (self : Scheduler) (card : Card)
    (rating : Rating) (review_datetime : option datetime)
    (review_duration : option Z) (clock : Z) (u : R) :
  state card = Relearning →
  tzinfo (review_time review_datetime clock) = Some timezone_utc →
  (∀ last, last_review card = Some last →
           ∃ delta, datetime_sub (review_time review_datetime clock) last
                    = Ok delta
                    ∧ 1 ≤ days delta) →
  review_card self card rating review_datetime review_duration clock u
  = Raise AttributeError.
Proof.
  intros Hst Htz Hlast. rewrite review_card_unfold. cbv zeta.
  rewrite Htz. rewrite bool_decide_eq_false_2 by done.
  rewrite bool_decide_eq_false_2 by (intros Hne; by apply Hne).
  cbn [orb mbind result_bind].
  unfold review_state_case. rewrite Hst.
  destruct (last_review card) as [last|].
  - destruct (Hlast last eq_refl) as (delta & -> & Hd).
    cbn [mbind result_bind]. by rewrite review_Relearning_long_term.
  - reflexivity.
Qed.

(** ** Scenarios for the properties above

    The default scheduler is usable; the new card and the Review card of
    the scenarios are cards as the module builds them; [t0] and the day
    after it leave room for the longest interval. *)

Lemma usable_default (fz : bool) : usable (default_scheduler fz).
Proof.
  split.
  - unfold len. cbn [parameters default_scheduler DEFAULT_PARAMETERS length].
    lia.
  - cbn [_DECAY default_scheduler]. lra.
  - apply default_FACTOR_pos.
  - cbn [desired_retention default_scheduler]. lra.
  - cbn [maximum_interval default_scheduler]. lia.
  - cbn [learning_steps relearning_steps default_scheduler].
    unfold default_learning_steps, default_relearning_steps.
    cbn [app]. intros td Htd.
    unfold timedelta_minutes, US_PER_DAY, US_PER_SECOND in *.
    repeat (apply elem_of_cons in Htd as [->|Htd];
            [cbn [total_microseconds]; lia|]).
    by apply elem_of_nil in Htd.
Qed.

Lemma valid_t0 : valid_datetime t0.
Proof. vm_compute. by repeat split. Qed.

Lemma in_range_t0 (fz : bool) :
  review_time_in_range (default_scheduler fz) t0.
Proof.
  split; [done|]. cbn [maximum_interval default_scheduler].
  unfold t0, MAXORDINAL, US_PER_DAY, US_PER_SECOND. cbn [wall]. lia.
Qed.

Lemma reviewable_new_card : reviewable new_card.
Proof.
  split; [|split].
  - left. by repeat split.
  - intros _. exists 0. by split.
  - intros last H. discriminate H.
Qed.

Lemma reviewable_review_card_at_t0 : reviewable review_card_at_t0.
Proof.
  split; [|split].
  - right. exists 1%R, 5%R. cbn [review_card_at_t0 stability difficulty].
    split; [done|]. split; [done|]. split; lra.
  - intros H. by destruct H.
  - intros last H. cbn [review_card_at_t0 last_review] in H.
    injection H as <-. split; [by eexists|apply valid_t0].
Qed.

Lemma new_card_reviewed (fz : bool) (rating : Rating) (u : R) :
  (0 <= u < 1)%R →
  ∃ card' log,
    review_card (default_scheduler fz) new_card rating (Some t0) None 0 u
    = Ok (card', log).
Proof.
  intros Hu.
  apply review_card_Ok;
    [apply usable_default | apply reviewable_new_card | apply in_range_t0
    | done | discriminate].
Qed.

Lemma review_card_at_t0_reviewed (fz : bool) (rating : Rating)
    (rd : datetime) (u : R) :
  review_time_in_range (default_scheduler fz) rd → (0 <= u < 1)%R →
  ∃ card' log,
    review_card (default_scheduler fz) review_card_at_t0 rating (Some rd)
      None 0 u
    = Ok (card', log).
Proof.
  intros Hrd Hu.
  apply review_card_Ok;
    [apply usable_default | apply reviewable_review_card_at_t0 | done
    | done | discriminate].
Qed.



(** *** Witnesses *)

Lemma review_card_records_review_witness :
  ∃ card' log,
    review_card (default_scheduler false) new_card Good (Some t0) None 0 0%R
    = Ok (card', log)
    ∧ card_id card' = card_id new_card
    ∧ last_review card' = Some (review_time (Some t0) 0)
    ∧ tzinfo (review_time (Some t0) 0) = Some timezone_utc
    ∧ tzinfo (due card') = Some timezone_utc
    ∧ log = mkReviewLog (card_id new_card) Good (review_time (Some t0) 0)
              None.
Proof.
  eexists _, _. split; [apply first_review_Good|].
  eapply (review_card_records_review (default_scheduler false) new_card Good
           (Some t0) None 0 0%R).
  apply first_review_Good.
Defined.

Lemma review_card_leaves_steps_witness :
  ∃ card' log,
    review_card (default_scheduler false) new_card Good (Some t0) None 0 0%R
    = Ok (card', log)
    ∧ (state card' = Review
       ↔ leaves_steps (steps_of (default_scheduler false) (state new_card))
           new_card Good)
    ∧ (state card' = Review → step card' = None)
    ∧ (state card' ≠ Review → state card' = state new_card).
Proof.
  eexists _, _. split; [apply first_review_Good|].
  eapply (review_card_leaves_steps (default_scheduler false) new_card Good
           (Some t0) None 0 0%R); [discriminate|].
  apply first_review_Good.
Defined.

Lemma review_card_Again_first_step_witness :
  ∃ card' log,
    review_card (default_scheduler false) new_card Again (Some t0) None 0 0%R
    = Ok (card', log)
    ∧ state card' = state new_card ∧ step card' = Some 0
    ∧ datetime_add (review_time (Some t0) 0) (timedelta_minutes 1)
      = Ok (due card').
Proof.
  destruct (new_card_reviewed false Again 0%R) as (card' & log & H); [lra|].
  exists card', log. split; [exact H|].
  eapply (review_card_Again_first_step (default_scheduler false) new_card
           (Some t0) None 0 0%R card' log (timedelta_minutes 1)
           [timedelta_minutes 10]); [discriminate|reflexivity|exact H].
Defined.

Lemma review_card_Good_next_step_witness :
  ∃ card' log,
    review_card (default_scheduler false) new_card Good (Some t0) None 0 0%R
    = Ok (card', log)
    ∧ state card' = state new_card ∧ step card' = Some (0 + 1)
    ∧ ∃ s, steps_of (default_scheduler false) (state new_card)
             !! Z.to_nat (0 + 1) = Some s
           ∧ datetime_add (review_time (Some t0) 0) s = Ok (due card').
Proof.
  eexists _, _. split; [apply first_review_Good|].
  eapply (review_card_Good_next_step (default_scheduler false) new_card
           (Some t0) None 0 0%R);
    [discriminate|reflexivity|lia|reflexivity|].
  apply first_review_Good.
Defined.

Lemma review_card_Hard_keeps_step_witness :
  ∃ card' log,
    review_card (default_scheduler false) new_card Hard (Some t0) None 0 0%R
    = Ok (card', log)
    ∧ state card' = state new_card ∧ step card' = Some 0
    ∧ ∃ iv, datetime_add (review_time (Some t0) 0) iv = Ok (due card')
            ∧ total_microseconds iv
              = hard_interval
                  (steps_of (default_scheduler false) (state new_card)) 0.
Proof.
  destruct (new_card_reviewed false Hard 0%R) as (card' & log & H); [lra|].
  exists card', log. split; [exact H|].
  eapply (review_card_Hard_keeps_step (default_scheduler false) new_card
           (Some t0) None 0 0%R card' log 0);
    [discriminate|reflexivity|split; [lia|reflexivity]|exact H].
Defined.

Lemma review_card_Review_transitions_witness :
  ∃ card' log,
    review_card (default_scheduler false) review_card_at_t0 Again (Some t0)
      None 0 0%R
    = Ok (card', log)
    ∧ if decide (Again = Again
                 ∧ relearning_steps (default_scheduler false) ≠ [])
      then state card' = Relearning ∧ step card' = Some 0
           ∧ ∃ s0, head (relearning_steps (default_scheduler false))
                   = Some s0
                   ∧ datetime_add (review_time (Some t0) 0) s0
                     = Ok (due card')
      else state card' = Review ∧ step card' = step review_card_at_t0.
Proof.
  destruct (review_card_at_t0_reviewed false Again t0 0%R)
    as (card' & log & H); [apply in_range_t0|lra|].
  exists card', log. split; [exact H|].
  eapply (review_card_Review_transitions (default_scheduler false)
           review_card_at_t0 Again (Some t0) None 0 0%R card' log);
    [reflexivity|exact H].
Defined.

Lemma review_card_Review_due_witness :
  ∃ card' log,
    review_card (default_scheduler true) review_card_at_t0 Easy (Some t0)
      None 0 0%R
    = Ok (card', log)
    ∧ ∃ k, 1 ≤ k ≤ maximum_interval (default_scheduler true)
           ∧ wall (due card')
             = wall (review_time (Some t0) 0) + k * US_PER_DAY.
Proof.
  destruct (review_card_at_t0_reviewed true Easy t0 0%R)
    as (card' & log & H); [apply in_range_t0|lra|].
  exists card', log. split; [exact H|].
  eapply (review_card_Review_due (default_scheduler true) review_card_at_t0
           Easy (Some t0) None 0 0%R card' log);
    [cbn [maximum_interval default_scheduler]; lia | lra | exact H
    | by eapply state_after_Easy].
Defined.

Lemma review_card_after_lapse_raises_witness :
  ∃ card' log,
    review_card (default_scheduler false) review_card_at_t0 Again (Some t0)
      None 0 0%R
    = Ok (card', log)
    ∧ review_card (default_scheduler false) card' Good
        (Some t0_plus_1_day) None 0 0%R
      = Raise AttributeError.
Proof.
  destruct (review_card_at_t0_reviewed false Again t0 0%R)
    as (card' & log & H); [apply in_range_t0|lra|].
  exists card', log. split; [exact H|].
  eapply (review_card_after_lapse_raises (default_scheduler false)
           review_card_at_t0 (Some t0) None 0 0%R card' log Good
           t0_plus_1_day (Timedelta US_PER_DAY) None 0 0%R);
    [reflexivity|discriminate|exact H|reflexivity|reflexivity
    |by vm_compute].
Defined.

Lemma review_card_random_only_due_witness :
  ∃ card1 log1 card2 log2,
    review_card (default_scheduler true) new_card Good (Some t0) None 0 0%R
    = Ok (card1, log1)
    ∧ review_card (default_scheduler true) new_card Good (Some t0) None 0
        0.5%R
      = Ok (card2, log2)
    ∧ log2 = log1
    ∧ card2 = mkCard (card_id card1) (state card1) (step card1)
                (stability card1) (difficulty card1) (due card2)
                (last_review card1)
    ∧ (enable_fuzzing (default_scheduler true) = false
       ∨ state card1 ≠ Review → card2 = card1).
Proof.
  eexists _, _, _, _. split; [apply first_review_Good|].
  split; [apply first_review_Good|].
  eapply (review_card_random_only_due (default_scheduler true) new_card Good
           (Some t0) None 0 0%R 0.5%R); apply first_review_Good.
Defined.

Lemma get_fuzzed_interval_bounds_witness :
  ∃ fuzzed,
    _get_fuzzed_interval (default_scheduler true)
      (Timedelta (10 * US_PER_DAY)) 0.95
    = Ok fuzzed
    ∧ if decide (IZR (days (Timedelta (10 * US_PER_DAY))) < 2.5)%R
      then fuzzed = Timedelta (10 * US_PER_DAY)
      else
        let '(min_ivl, max_ivl) :=
          _get_fuzz_range (default_scheduler true)
            (days (Timedelta (10 * US_PER_DAY))) in
        fuzzed = Timedelta (days fuzzed * US_PER_DAY)
        ∧ min_ivl ≤ days fuzzed
          ≤ Z.min (max_ivl + 1) (maximum_interval (default_scheduler true)).
Proof.
  destruct (fuzzed_interval_Ok (default_scheduler true) 10
              (Timedelta (10 * US_PER_DAY)) 0.95)
    as (k & _ & H).
  - lra.
  - cbn [maximum_interval default_scheduler]. lia.
  - cbn [maximum_interval default_scheduler]. unfold MAXORDINAL. lia.
  - reflexivity.
  - eexists. split; [exact H|].
    apply (get_fuzzed_interval_bounds (default_scheduler true)
             (Timedelta (10 * US_PER_DAY)) 0.95); [lra|exact H].
Defined.

Lemma review_card_Relearning_raises_witness :
  review_card (default_scheduler true) relearning_card Hard
    (Some t0_plus_1_day) None 0 0%R
  = Raise AttributeError.
Proof.
  eapply (review_card_Relearning_raises (default_scheduler true)
           relearning_card Hard (Some t0_plus_1_day) None 0 0%R).
  - reflexivity.
  - reflexivity.
  - intros last H. cbn [relearning_card last_review] in H.
    injection H as <-. exists (Timedelta US_PER_DAY).
    split; [reflexivity|by vm_compute].
Defined.


Lemma ReviewLog_from_dict_to_dict_witness :
  ReviewLog_from_dict (ReviewLog_to_dict (mkReviewLog 1 Good t0 (Some 1000)))
  = Ok (mkReviewLog 1 Good t0 (Some 1000)).
Proof.
  apply (ReviewLog_from_dict_to_dict (mkReviewLog 1 Good t0 (Some 1000))).
  apply valid_t0.
Defined.

Lemma format_revlogs_order_witness :
  ∃ revlogs_train,
    _format_revlogs two_card_logs = Ok revlogs_train
    ∧ Sorted Z.lt revlogs_train.*1
    ∧ ∀ c h, (c, h) ∈ revlogs_train → in_review_order h.
Proof.
  eexists. split; [vm_compute; reflexivity|].
  apply (format_revlogs_order two_card_logs). vm_compute. reflexivity.
Defined.

Lemma format_revlogs_content_witness :
  ∃ revlogs_train,
    _format_revlogs two_card_logs = Ok revlogs_train
    ∧ (∀ c, c ∈ revlogs_train.*1
            ↔ ∃ l, l ∈ two_card_logs ∧ log_card_id l = c)
    ∧ ∀ c h, (c, h) ∈ revlogs_train →
             h ≡ₚ datum_of <$> card_logs c two_card_logs.
Proof.
  eexists. split; [vm_compute; reflexivity|].
  apply (format_revlogs_content two_card_logs). vm_compute. reflexivity.
Defined.


Lemma num_reviews_stops_after_lapse_witness :
  _num_reviews lapse_history (λ _, 0%R) ≠ Ok 0.
Proof.
  apply (num_reviews_stops_after_lapse lapse_history (λ _, 0%R) 0 1
           [datum_of (mkReviewLog 1 Easy t0 None);
            datum_of (mkReviewLog 1 Again t0 None);
            datum_of (mkReviewLog 1 Good t0_plus_1_day None)]
           [] []
           (datum_of (mkReviewLog 1 Easy t0 None))
           (datum_of (mkReviewLog 1 Again t0 None))
           (datum_of (mkReviewLog 1 Good t0_plus_1_day None)));
    [by left|reflexivity|reflexivity|reflexivity|by vm_compute].
Defined.
